(** * Water-depth monitor: wake-cycle scheduler, retry engine and state store

    A shallow embedding of the CircuitPython sources
    [config.py], [time_manager.py], [storage_manager.py], [satellite.py],
    [power_manager.py], [main.py] and [sensor.py], and of the clock
    conversion of [setup_calibration.py], followed by the properties of
    the wake cycle and of its parts that are established (or refuted) on
    it.

    Conventions of the embedding.
    - Python floats that carry a time or a voltage ([time.monotonic()],
      the battery voltage) are rationals [Q]; comparisons are the exact
      ones.  The constant [3.0] is exact in every binary format; [3.2] is
      taken at its decimal value.
    - Where the rounding of the float operations decides the result (the
      conversion of an ADC count to volts, the [int()] of the battery
      gauge, the average of [calibrate_zero]), the functions are given a
      second time over binary64 floats, operation by operation, in
      [PowerManager64] and [Sensor64]; the battery oracle of the wake
      cycle is tied to the ADC counts by [adc_volts].
    - Python [str] is a sequence of code points.  Identifiers and error
      texts, which are ASCII, are [string]; the outbound satellite message,
      whose encoded length matters, is a list of code points together with
      its UTF-8 encoding.
    - Dictionaries with a fixed set of keys are records; the success map,
      keyed by the slot id, is a [gmap string Q].
    - Hardware and library calls are answered by an environment (oracle)
      record; everything the program does to the outside is appended to a
      trace of events, and [time.sleep] advances the monotonic clock.
    - The pressure and depth arithmetic of the sensor in [Sensor] is
      done in [Q] as well, without the rounding of binary floats.
    - The files on the SD card are values: a path holds no file, text
      that is no JSON, or a JSON object; how an open or a write ends is
      part of the input. *)

From Stdlib Require Import QArith Qround Lqa.
From Stdlib Require Floats Uint63.
From stdpp Require Import gmap strings list pretty.

Open Scope Z_scope.

(** Strict comparison of rationals as a boolean, the [<] of the source. *)
Definition Qltb (x y : Q) : bool := negb (Qle_bool y x).

(** ** config.py *)
Module Config.

Definition TRANSMISSION_TIMES : list (Z * Z) := [(5, 0); (13, 0)].
Definition MAX_RETRY_ATTEMPTS : Z := 3.
Definition RETRY_BACKOFF_MINUTES : list Z := [5; 15; 30].
Definition LOW_BATTERY_THRESHOLD : Q := 3.2%Q.
Definition PRESSURE_SENSOR_VREF : Q := 3.3%Q.
Definition PRESSURE_SENSOR_RESOLUTION : Q := 4096%Q.
Definition PRESSURE_SENSOR_MIN_PRESSURE : Q := 0.0%Q.
Definition PRESSURE_SENSOR_MAX_PRESSURE : Q := 30.0%Q.
Definition ATMOSPHERIC_PRESSURE : Q := 14.7%Q.
Definition WATER_DENSITY_FACTOR : Q := 0.433%Q.
Definition TIMEZONE_OFFSET_PST : Z := -8.
Definition TIMEZONE_OFFSET_PDT : Z := -7.

End Config.

(** ** Formatting helpers *)

(** [f"{n:02d}"]: decimal, padded with a zero to two characters. *)
Definition fmt02d (n : Z) : string :=
  if (0 <=? n) && (n <? 10) then "0" +:+ pretty n else pretty n.

(** [f"{hour:02d}:{minute:02d}"], the canonical slot id. *)
Definition slot_id (hm : Z * Z) : string :=
  fmt02d hm.1 +:+ ":" +:+ fmt02d hm.2.

(** ** time_manager.py *)
Module TimeManager.

(** The reading of the real-time clock converted to Pacific time, as far
    as the scheduler looks at it: [tm_hour] and [tm_min].  The conversion
    from UTC behind it ([time.mktime], [time.localtime]) is outside the
    embedding. *)
Record t := { tm_hour : Z; tm_min : Z }.

(** Body of the [for] loop of [is_transmission_time]: the distance in
    minutes on the 24-hour dial between now and one target. *)
Definition minutes_diff (tm : t) (target : Z * Z) : Z :=
  let current_total_minutes := tm_hour tm * 60 + tm_min tm in
  let target_total_minutes := target.1 * 60 + target.2 in
  let d := Z.abs (current_total_minutes - target_total_minutes) in
  if 12 * 60 <? d then 24 * 60 - d else d.

Fixpoint first_match (tm : t) (tolerance_minutes : Z) (targets : list (Z * Z))
  : bool * option (Z * Z) :=
  match targets with
  | [] => (false, None)
  | target :: rest =>
      if minutes_diff tm target <=? tolerance_minutes
      then (true, Some target)
      else first_match tm tolerance_minutes rest
  end.

Definition is_transmission_time (tm : t) (tolerance_minutes : Z)
  : bool * option (Z * Z) :=
  first_match tm tolerance_minutes Config.TRANSMISSION_TIMES.

(** Whether one given slot is inside the tolerance window now. *)
Definition slot_in_window (tm : t) (tolerance_minutes : Z) (target : Z * Z) : bool :=
  minutes_diff tm target <=? tolerance_minutes.

(** A [time.struct_time]: year, month, day of month, hour, minute,
    second and day of week. *)
Record struct_time := {
  st_year : Z;
  st_mon : Z;
  st_mday : Z;
  st_hour : Z;
  st_min : Z;
  st_sec : Z;
  st_wday : Z
}.

(** [(day - dt.tm_wday - 1) % 7]; Python's [%] with a positive modulus is
    the floor remainder. *)
Definition first_day_weekday (dt : struct_time) : Z :=
  (st_mday dt - st_wday dt - 1) mod 7.

(** [is_daylight_saving_time] *)
Definition is_daylight_saving_time (dt : struct_time) : bool :=
  let month := st_mon dt in
  let day := st_mday dt in
  if (month <? 3) || (11 <? month) then false
  else if (3 <? month) && (month <? 11) then true
  else if month =? 3 then
    let second_sunday :=
      if first_day_weekday dt =? 0 then 8 else 15 - first_day_weekday dt in
    second_sunday <=? day
  else if month =? 11 then
    let first_sunday :=
      if first_day_weekday dt =? 0 then 1 else 8 - first_day_weekday dt in
    day <? first_sunday
  else false.

(** One pass of the loop of [minutes_until_next_transmission]: the
    minutes from now to one target, today or tomorrow. *)
Definition minutes_until (current_total_minutes : Z) (target : Z * Z) : Z :=
  let target_total_minutes := target.1 * 60 + target.2 in
  if current_total_minutes <? target_total_minutes
  then target_total_minutes - current_total_minutes
  else 24 * 60 - current_total_minutes + target_total_minutes.

(** [min(next_minutes, minutes_until)], with [None] for [float('inf')]. *)
Definition min_with (next_minutes : option Z) (minutes_until : Z) : option Z :=
  match next_minutes with
  | None => Some minutes_until
  | Some n => Some (Z.min n minutes_until)
  end.

Definition next_over (tm : t) (targets : list (Z * Z)) : option Z :=
  fold_left
    (fun next_minutes target =>
       min_with next_minutes (minutes_until (tm_hour tm * 60 + tm_min tm) target))
    targets None.

(** [minutes_until_next_transmission] *)
Definition minutes_until_next_transmission (tm : t) : Z :=
  match next_over tm Config.TRANSMISSION_TIMES with
  | Some n => n
  | None => 0
  end.

(** A run of [n] zeros. *)
Fixpoint zeros (n : nat) : string :=
  match n with
  | O => ""
  | S n' => "0" +:+ zeros n'
  end.

(** [f"{n:04d}"]: the sign, if any, counts towards the width of 4. *)
Definition fmt04d (n : Z) : string :=
  if n <? 0
  then "-" +:+ zeros (3 - String.length (pretty (- n))) +:+ pretty (- n)
  else zeros (4 - String.length (pretty n)) +:+ pretty n.

(** [get_timestamp_string], on the Pacific time it has read. *)
Definition get_timestamp_string (pacific_time : struct_time) : string :=
  fmt04d (st_year pacific_time) +:+ fmt02d (st_mon pacific_time)
  +:+ fmt02d (st_mday pacific_time) +:+ "_"
  +:+ fmt02d (st_hour pacific_time) +:+ fmt02d (st_min pacific_time)
  +:+ fmt02d (st_sec pacific_time).

End TimeManager.

(** ** storage_manager.py: the state record and its two pure operations *)
Module StorageManager.

(** One element of [state["failed_attempts"]].  The resolver reads the
    keys with [.get], so a record loaded from disk may lack them. *)
Record AttemptRecord := {
  att_time_slot : option string;
  att_timestamp : option Q;
  att_success : bool;
  att_error : string
}.

(** The state dictionary, with the keys of [default_state]. *)
Record State := {
  last_successful_transmissions : gmap string Q;
  failed_attempts : list AttemptRecord;
  last_wake_time : Q;
  total_wake_cycles : Z;
  sensor_calibration_offset : Q;
  battery_low_count : Z;
  system_errors : list string
}.

Definition default_state : State := {|
  last_successful_transmissions := ∅;
  failed_attempts := [];
  last_wake_time := 0;
  total_wake_cycles := 0;
  sensor_calibration_offset := 0;
  battery_low_count := 0;
  system_errors := []
|}.

(** [state["last_successful_transmissions"][time_slot] = timestamp] *)
Definition set_success (time_slot : string) (timestamp : Q) (state : State) : State :=
  {| last_successful_transmissions :=
       <[time_slot := timestamp]> (last_successful_transmissions state);
     failed_attempts := failed_attempts state;
     last_wake_time := last_wake_time state;
     total_wake_cycles := total_wake_cycles state;
     sensor_calibration_offset := sensor_calibration_offset state;
     battery_low_count := battery_low_count state;
     system_errors := system_errors state |}.

(** [state["failed_attempts"] = l] *)
Definition set_failed_attempts (l : list AttemptRecord) (state : State) : State :=
  {| last_successful_transmissions := last_successful_transmissions state;
     failed_attempts := l;
     last_wake_time := last_wake_time state;
     total_wake_cycles := total_wake_cycles state;
     sensor_calibration_offset := sensor_calibration_offset state;
     battery_low_count := battery_low_count state;
     system_errors := system_errors state |}.

(** The two assignments at the start of a wake cycle:
    [state["total_wake_cycles"] = state.get("total_wake_cycles", 0) + 1]
    and [state["last_wake_time"] = time.monotonic()]. *)
Definition count_wake (now : Q) (state : State) : State :=
  {| last_successful_transmissions := last_successful_transmissions state;
     failed_attempts := failed_attempts state;
     last_wake_time := now;
     total_wake_cycles := total_wake_cycles state + 1;
     sensor_calibration_offset := sensor_calibration_offset state;
     battery_low_count := battery_low_count state;
     system_errors := system_errors state |}.

(** [l[-10:]] guarded by [len(l) > 10]. *)
Definition cap_history (l : list AttemptRecord) : list AttemptRecord :=
  if (10 <? length l)%nat then drop (length l - 10)%nat l else l.

(** [attempt.get("time_slot") != time_slot] *)
Definition other_slot (time_slot : string) (a : AttemptRecord) : bool :=
  negb (bool_decide (att_time_slot a = Some time_slot)).

(** [record_transmission_attempt]; [timestamp] is the value of
    [time.monotonic()] at the call. *)
Definition record_transmission_attempt
    (state : State) (timestamp : Q) (time_slot : string)
    (success : bool) (error_message : string) : State :=
  let attempt_record := {|
    att_time_slot := Some time_slot;
    att_timestamp := Some timestamp;
    att_success := success;
    att_error := error_message |} in
  if success then
    let state := set_success time_slot timestamp state in
    set_failed_attempts
      (List.filter (other_slot time_slot) (failed_attempts state)) state
  else
    let appended := failed_attempts state ++ [attempt_record] in
    set_failed_attempts (cap_history appended) state.

(** One element of the list returned by [get_pending_transmissions]. *)
Record Pending := {
  pd_time_slot : string;
  pd_retry_count : nat;
  pd_last_attempt : option AttemptRecord
}.

(** The condition of the list comprehension [recent_failures]. *)
Definition is_recent_failure (current_time : Q) (time_slot : string)
    (a : AttemptRecord) : bool :=
  bool_decide (att_time_slot a = Some time_slot)
  && Qltb (current_time - default 0%Q (att_timestamp a)) (6 * 3600).

(** What one iteration of the [for] loop appends to [pending]. *)
Definition pending_for_slot (state : State) (tm : TimeManager.t)
    (current_time : Q) (hm : Z * Z) : list Pending :=
  let time_slot := slot_id hm in
  let last_success :=
    default 0%Q (last_successful_transmissions state !! time_slot) in
  if Qltb (current_time - last_success) (12 * 3600) then []
  else
    let recent_failures :=
      List.filter (is_recent_failure current_time time_slot) (failed_attempts state) in
    match recent_failures with
    | _ :: _ =>
        [ {| pd_time_slot := time_slot;
             pd_retry_count := length recent_failures;
             pd_last_attempt := last recent_failures |} ]
    | [] =>
        let '(is_time, _) := TimeManager.is_transmission_time tm 5 in
        if is_time
        then [ {| pd_time_slot := time_slot; pd_retry_count := 0;
                  pd_last_attempt := None |} ]
        else []
    end.

(** [get_pending_transmissions]; [current_time] is [time.monotonic()]. *)
Definition get_pending_transmissions (state : State) (tm : TimeManager.t)
    (current_time : Q) : list Pending :=
  concat (List.map (pending_for_slot state tm current_time) Config.TRANSMISSION_TIMES).

End StorageManager.

(** ** The outside world: replies of the hardware and the event trace *)

(** A Python [str]: its code points. *)
Abbreviation message := (list Z).

(** Reply of the modem library to a read of [rockblock.signal_quality]. *)
Inductive sq_reply :=
| SqValue (q : Z)
| SqNone
| SqRaise.

(** Reply of the modem library to [rockblock.text_message(message)]: a
    truthy value, a falsy value, or an exception with its text. *)
Inductive send_reply :=
| SendOk
| SendFail
| SendRaise (text : string).

(** Everything observable a wake cycle does, in program order. *)
Inductive event :=
| EvSleep (secs : Q)                          (* time.sleep *)
| EvStatusLed (on : bool)                     (* status_led.value = ... *)
| EvDonePin (level : bool)                    (* done_pin.value = ... *)
| EvBatteryRead (volts : option Q)            (* battery_monitor.value *)
| EvSleepPin (level : bool)                   (* modem sleep_pin.value = ... *)
| EvLinkOpen (ok : bool)                      (* adafruit_rockblock.RockBlock(uart) *)
| EvLinkTest (reply : sq_reply)               (* the read in test_communication *)
| EvSignalRead (reply : sq_reply)             (* the read in get_signal_quality *)
| EvAttempt (number max_attempts : Z)         (* banner "Transmission attempt k/n" *)
| EvLinkSend (msg : message) (reply : send_reply)
| EvLinkSleep                                 (* rockblock.sleep() *)
| EvSdMount (ok : bool)
| EvStateLoad
| EvStateSave (st : StorageManager.State)
| EvLogReading (transmitted : option bool)    (* one row of the reading log *)
| EvLogError (category : string)              (* one row of the error log *)
| EvSensorRead (ok : bool)                    (* get_sensor_diagnostics *)
| EvDeinit (manager : string).               (* a manager's deinit *)

Abbreviation trace := (list event).

(** Seconds slept in a trace: how far the monotonic clock has moved. *)
Definition slept (e : event) : Q :=
  match e with EvSleep s => s | _ => 0 end.

Definition elapsed (tr : trace) : Q :=
  fold_right (fun e acc => slept e + acc)%Q 0%Q tr.

(** ** UTF-8, for [len(message.encode())] *)
Module Utf8.

Definition encode_char (c : Z) : list Z :=
  if c <? 0x80 then [c]
  else if c <? 0x800 then
    [Z.lor 0xC0 (Z.shiftr c 6); Z.lor 0x80 (Z.land c 0x3F)]
  else if c <? 0x10000 then
    [Z.lor 0xE0 (Z.shiftr c 12);
     Z.lor 0x80 (Z.land (Z.shiftr c 6) 0x3F);
     Z.lor 0x80 (Z.land c 0x3F)]
  else
    [Z.lor 0xF0 (Z.shiftr c 18);
     Z.lor 0x80 (Z.land (Z.shiftr c 12) 0x3F);
     Z.lor 0x80 (Z.land (Z.shiftr c 6) 0x3F);
     Z.lor 0x80 (Z.land c 0x3F)].

Definition encode (s : message) : list Z := flat_map encode_char s.

Definition is_ascii (c : Z) : bool := (0 <=? c) && (c <? 0x80).

End Utf8.

(** ** satellite.py *)
Module Satellite.

(** The modem library as an oracle: the reply to the n-th call of each
    kind. *)
Record Link := {
  lk_open : nat -> bool;
  lk_signal : nat -> sq_reply;
  lk_send : nat -> send_reply
}.

(** The fields of [SatelliteModem] the retry engine reads and writes,
    and how many calls of each kind the library has answered. *)
Record Modem := {
  is_initialized : bool;
  has_rockblock : bool;
  n_open : nat;
  n_signal : nat;
  n_send : nat
}.

Definition fresh : Modem :=
  {| is_initialized := false; has_rockblock := false;
     n_open := 0; n_signal := 0; n_send := 0 |}.

(** [__init__]: the sleep pin is driven low. *)
Definition init_events : trace := [EvSleepPin false].

(** [initialize], with [wake_up] and [test_communication] inlined. *)
Definition initialize (link : Link) (m : Modem) : bool * Modem * trace :=
  let woke := [EvSleepPin false; EvSleep 1; EvSleep 2] in
  if lk_open link (n_open m) then
    let reply := lk_signal link (n_signal m) in
    let ok := match reply with SqValue _ => true | _ => false end in
    (ok,
     {| is_initialized := is_initialized m || ok; has_rockblock := true;
        n_open := S (n_open m); n_signal := S (n_signal m);
        n_send := n_send m |},
     woke ++ [EvLinkOpen true; EvLinkTest reply])
  else
    (false,
     {| is_initialized := is_initialized m; has_rockblock := has_rockblock m;
        n_open := S (n_open m); n_signal := n_signal m; n_send := n_send m |},
     woke ++ [EvLinkOpen false]).

(** [sleep] *)
Definition sleep (m : Modem) : trace :=
  (if has_rockblock m then [EvLinkSleep] else []) ++ [EvSleepPin true].

(** The read [self.rockblock.signal_quality] inside [get_signal_quality];
    an exception becomes [-1], [None] is passed on. *)
Definition read_signal (link : Link) (m : Modem) : option Z * Modem * trace :=
  let reply := lk_signal link (n_signal m) in
  (match reply with
   | SqValue q => Some q
   | SqNone => None
   | SqRaise => Some (-1)
   end,
   {| is_initialized := is_initialized m; has_rockblock := has_rockblock m;
      n_open := n_open m; n_signal := S (n_signal m); n_send := n_send m |},
   [EvSignalRead reply]).

Definition get_signal_quality (link : Link) (m : Modem) : option Z * Modem * trace :=
  if is_initialized m then read_signal link m
  else
    let '(ok, m1, e1) := initialize link m in
    if ok then
      let '(q, m2, e2) := read_signal link m1 in (q, m2, e1 ++ e2)
    else (Some (-1), m1, e1).

(** How one pass through the [try] block of the attempt loop ends. *)
Inductive attempt_result :=
| Confirmed                       (* return True, attempt + 1, "" *)
| Continue (last_error : string)  (* continue: the rest of the body is skipped *)
| FallThrough (last_error : string). (* control reaches the backoff block *)

(** Text of the [TypeError] raised by [None < 1]. *)
Definition none_compare_text : string :=
  "unsupported types for __lt__: 'NoneType', 'int'".

(** [rockblock.text_message(message)] and the [if success] after it. *)
Definition send_step (link : Link) (m : Modem) (msg : message)
  : attempt_result * Modem * trace :=
  let reply := lk_send link (n_send m) in
  (match reply with
   | SendOk => Confirmed
   | SendFail => FallThrough "RockBlock reported send failure"
   | SendRaise text => FallThrough ("Exception during send: " +:+ text)
   end,
   {| is_initialized := is_initialized m; has_rockblock := has_rockblock m;
      n_open := n_open m; n_signal := n_signal m; n_send := S (n_send m) |},
   [EvLinkSend msg reply]).

(** From "Check signal quality first" to the end of the [try] block. *)
Definition signal_then_send (link : Link) (m : Modem) (msg : message)
  : attempt_result * Modem * trace :=
  let '(quality, m1, e1) := get_signal_quality link m in
  match quality with
  | None => (FallThrough ("Exception during send: " +:+ none_compare_text), m1, e1)
  | Some q =>
      if q <? 1 then
        (Continue ("Poor signal quality: " +:+ pretty q), m1, e1 ++ [EvSleep 30])
      else
        let '(r, m2, e2) := send_step link m1 msg in (r, m2, e1 ++ e2)
  end.

(** The [try] block of one iteration. *)
Definition attempt_body (link : Link) (m : Modem) (msg : message)
    (attempt max_attempts : Z) : attempt_result * Modem * trace :=
  let banner := [EvAttempt (attempt + 1) max_attempts] in
  if is_initialized m then
    let '(r, m1, e1) := signal_then_send link m msg in (r, m1, banner ++ e1)
  else
    let '(ok, m1, e1) := initialize link m in
    if ok then
      let '(r, m2, e2) := signal_then_send link m1 msg in
      (r, m2, banner ++ e1 ++ e2)
    else (Continue "Failed to initialize RockBlock", m1, banner ++ e1).

(** [RETRY_BACKOFF_MINUTES[min(attempt, len(RETRY_BACKOFF_MINUTES) - 1)]] *)
Definition backoff_minutes (attempt : Z) : Z :=
  nth (Z.to_nat (Z.min attempt (Z.of_nat (length Config.RETRY_BACKOFF_MINUTES) - 1)))
      Config.RETRY_BACKOFF_MINUTES 0.

(** The block "Progressive backoff between attempts". *)
Definition backoff (attempt max_attempts : Z) : trace :=
  if attempt <? max_attempts - 1
  then [EvSleep (inject_Z (backoff_minutes attempt * 60))]
  else [].

(** What [send_message] returns: success, attempt count, error text. *)
Definition send_outcome : Type := bool * Z * string.

(** The [for attempt in range(max_attempts)] loop, [remaining]
    iterations from index [attempt] on. *)
Fixpoint attempt_loop (link : Link) (msg : message) (max_attempts : Z)
    (remaining : nat) (attempt : Z) (m : Modem) (last_error : string)
  : send_outcome * Modem * trace :=
  match remaining with
  | O => ((false, max_attempts, last_error), m, [])
  | S remaining' =>
      let '(r, m1, e1) := attempt_body link m msg attempt max_attempts in
      match r with
      | Confirmed => ((true, attempt + 1, ""%string), m1, e1)
      | Continue err =>
          let '(out, m2, e2) :=
            attempt_loop link msg max_attempts remaining' (attempt + 1) m1 err in
          (out, m2, e1 ++ e2)
      | FallThrough err =>
          let '(out, m2, e2) :=
            attempt_loop link msg max_attempts remaining' (attempt + 1) m1 err in
          (out, m2, e1 ++ backoff attempt max_attempts ++ e2)
      end
  end.

(** The three characters ["..."]. *)
Definition marker : message := [46; 46; 46].

(** The message after the length check. *)
Definition fit_message (msg : message) : message :=
  if (340 <? length (Utf8.encode msg))%nat then take 337 msg ++ marker else msg.

Definition send_message (link : Link) (m : Modem) (msg : message)
    (max_attempts : Z) : send_outcome * Modem * trace :=
  match msg with
  | [] => ((false, 0, "Empty message"%string), m, [])
  | _ :: _ =>
      attempt_loop link (fit_message msg) max_attempts
                   (Z.to_nat max_attempts) 0 m ""%string
  end.

(** The dictionary returned by [send_data_reading]. *)
Record TxResult := {
  tx_success : bool;
  tx_attempts : Z;
  tx_error : string;
  tx_signal_quality : option Z
}.

(** [send_data_reading]; [formatted] is the text built by
    [format_data_message] from the timestamp and the reading, [None]
    when building it raises. *)
Definition send_data_reading (link : Link) (m : Modem) (formatted : option message)
  : TxResult * Modem * trace :=
  match formatted with
  | None =>
      ({| tx_success := false; tx_attempts := 0;
          tx_error := "Exception formatting/sending data";
          tx_signal_quality := Some (-1) |}, m, [])
  | Some msg =>
      let '((success, attempts, error), m1, e1) :=
        send_message link m msg Config.MAX_RETRY_ATTEMPTS in
      let '(quality, m2, e2) := get_signal_quality link m1 in
      ({| tx_success := success; tx_attempts := attempts;
          tx_error := error; tx_signal_quality := quality |}, m2, e1 ++ e2)
  end.

End Satellite.

(** ** power_manager.py *)
Module PowerManager.

(** The battery monitor as an oracle: whether [analogio.AnalogIn]
    succeeded in the constructor, and the n-th reading already converted
    to volts ([None]: the read raises). *)
Record Battery := {
  bat_present : bool;
  bat_volts : nat -> option Q
}.

Record t := {
  wake_start_time : Q;
  battery_voltage : Q;
  is_low_battery : bool;
  n_reads : nat
}.

Definition max_wake_duration : Q := 300.

(** [__init__] at monotonic time [now]; the done pin starts low. *)
Definition create (now : Q) : t * trace :=
  ({| wake_start_time := now; battery_voltage := 0;
      is_low_battery := false; n_reads := 0 |},
   [EvDonePin false]).

(** [signal_done]: a 100 ms pulse, then a second for the timer to act. *)
Definition signal_done : trace :=
  [EvDonePin true; EvSleep 0.1; EvDonePin false; EvSleep 1].

Definition read_battery_voltage (bat : Battery) (pm : t) : Q * t * trace :=
  if bat_present bat then
    match bat_volts bat (n_reads pm) with
    | Some voltage =>
        (voltage,
         {| wake_start_time := wake_start_time pm;
            battery_voltage := voltage;
            is_low_battery := Qltb voltage Config.LOW_BATTERY_THRESHOLD;
            n_reads := S (n_reads pm) |},
         [EvBatteryRead (Some voltage)])
    | None =>
        (0%Q,
         {| wake_start_time := wake_start_time pm;
            battery_voltage := battery_voltage pm;
            is_low_battery := is_low_battery pm;
            n_reads := S (n_reads pm) |},
         [EvBatteryRead None])
    end
  else (0%Q, pm, []).

Inductive recommendation :=
| normal
| monitor_closely
| conserve_power
| emergency_shutdown.

Record BatteryStatus := {
  voltage : Q;
  is_low : bool;
  percentage : Z;
  recommend : recommendation
}.

(** [_estimate_battery_percentage] over the rationals; [int()] of a
    positive value is the floor.  On the readings of the ADC this is the
    value that the program computes ([adc_reading_agrees]); at other
    floats the product can be rounded below an integer
    ([gauge_truncates]). *)
Definition estimate_battery_percentage (voltage : Q) : Z :=
  if Qle_bool voltage 0 then 0
  else if Qle_bool 4.2 voltage then 100
  else if Qle_bool voltage 3.0 then 0
  else Z.max 0 (Z.min 100 (Qfloor ((voltage - 3.0) / (4.2 - 3.0) * 100))).

(** The decision of [check_battery_status] once the voltage is read. *)
Definition recommendation_for (low : bool) (voltage : Q) : recommendation :=
  if low then
    if Qltb voltage 3.0 then emergency_shutdown
    else if Qltb voltage 3.2 then conserve_power
    else monitor_closely
  else normal.

Definition check_battery_status (bat : Battery) (pm : t) : BatteryStatus * t * trace :=
  let '(voltage, pm1, evs) := read_battery_voltage bat pm in
  ({| voltage := voltage;
      is_low := is_low_battery pm1;
      percentage := estimate_battery_percentage voltage;
      recommend := recommendation_for (is_low_battery pm1) voltage |},
   pm1, evs).

Definition should_skip_transmission (status : BatteryStatus) : bool * string :=
  match recommend status with
  | emergency_shutdown => (true, "Critical low battery - emergency shutdown"%string)
  | conserve_power => (true, "Low battery - conserving power"%string)
  | _ => (false, ""%string)
  end.

Definition get_wake_duration (now : Q) (pm : t) : Q := now - wake_start_time pm.

(** [should_force_sleep], the flag of the returned pair. *)
Definition should_force_sleep (now : Q) (pm : t) : bool :=
  Qltb max_wake_duration (get_wake_duration now pm).

(** [prepare_for_sleep] reads the battery once more. *)
Definition prepare_for_sleep (bat : Battery) (pm : t) : t * trace :=
  let '(_, pm1, evs) := check_battery_status bat pm in (pm1, evs).

(** [handle_emergency_shutdown]; [storage] tells whether a storage
    manager was passed in. *)
Definition handle_emergency_shutdown (storage : bool) : trace :=
  (if storage then [EvLogError "POWER_CRITICAL"] else []) ++ signal_done.

(** [get_power_diagnostics] reads the battery too. *)
Definition get_power_diagnostics (bat : Battery) (pm : t) : t * trace :=
  let '(_, pm1, evs) := check_battery_status bat pm in (pm1, evs).

End PowerManager.

(** ** main.py *)
Module Main.

(** What the hardware answers during one wake cycle. *)
Record Env := {
  boot_clock : Q;                 (* time.monotonic() when main starts *)
  power_init_ok : bool;           (* PowerManager() returns *)
  battery : PowerManager.Battery;
  sd_mounts : bool;               (* StorageManager.initialize *)
  stored_state : option StorageManager.State; (* None: no or corrupt file *)
  rtc : option TimeManager.t;     (* None: busio.I2C or TimeManager raises *)
  sensor_init_ok : bool;          (* PressureSensor() returns *)
  sensor_read_ok : nat -> bool;   (* the n-th get_sensor_diagnostics returns *)
  modem_init_ok : bool;           (* SatelliteModem() returns *)
  link : Satellite.Link;
  formatted : option message      (* the text of format_data_message *)
}.

(** The trace so far and the local variables of [main] that its
    [except] and [finally] blocks look at; [None] is Python's [None]. *)
Record World := {
  w_trace : trace;
  power_mgr : option PowerManager.t;
  storage_mgr : option bool;      (* is_mounted *)
  time_mgr : option TimeManager.t;
  sensor : option nat             (* sensor reads answered so far *)
}.

(** Truth value of a variable that holds an object or [None]. *)
Definition given {A} (o : option A) : bool :=
  match o with Some _ => true | None => false end.

Definition start : World :=
  {| w_trace := []; power_mgr := None; storage_mgr := None;
     time_mgr := None; sensor := None |}.

Definition add_events (evs : trace) (w : World) : World :=
  {| w_trace := w_trace w ++ evs; power_mgr := power_mgr w;
     storage_mgr := storage_mgr w; time_mgr := time_mgr w; sensor := sensor w |}.

Definition set_power_mgr (pm : PowerManager.t) (w : World) : World :=
  {| w_trace := w_trace w; power_mgr := Some pm;
     storage_mgr := storage_mgr w; time_mgr := time_mgr w; sensor := sensor w |}.

Definition set_storage_mgr (mounted : bool) (w : World) : World :=
  {| w_trace := w_trace w; power_mgr := power_mgr w;
     storage_mgr := Some mounted; time_mgr := time_mgr w; sensor := sensor w |}.

Definition set_time_mgr (tm : TimeManager.t) (w : World) : World :=
  {| w_trace := w_trace w; power_mgr := power_mgr w;
     storage_mgr := storage_mgr w; time_mgr := Some tm; sensor := sensor w |}.

Definition set_sensor (n : nat) (w : World) : World :=
  {| w_trace := w_trace w; power_mgr := power_mgr w;
     storage_mgr := storage_mgr w; time_mgr := time_mgr w; sensor := Some n |}.

(** How a block of statements ends: it runs to its end, executes
    [return], or raises. *)
Inductive outcome (A : Type) :=
| Normal (a : A)
| Returned
| Raised (text : string).
Arguments Normal {A} a.
Arguments Returned {A}.
Arguments Raised {A} text.

Definition M (A : Type) : Type := World -> outcome A * World.

#[export] Instance M_ret : MRet M := fun A a w => (Normal a, w).
#[export] Instance M_bind : MBind M := fun A B k m w =>
  match m w with
  | (Normal a, w1) => k a w1
  | (Returned, w1) => (Returned, w1)
  | (Raised text, w1) => (Raised text, w1)
  end.

Definition emit (evs : trace) : M unit := fun w => (Normal tt, add_events evs w).
Definition raise {A} (text : string) : M A := fun w => (Raised text, w).
Definition return_ {A} : M A := fun w => (Returned, w).
Definition update (f : World -> World) : M unit := fun w => (Normal tt, f w).
Definition when (b : bool) (m : M unit) : M unit := if b then m else mret tt.

(** [time.monotonic()]: the clock at boot plus the time slept since. *)
Definition monotonic (env : Env) : M Q :=
  fun w => (Normal (boot_clock env + elapsed (w_trace w))%Q, w).

(** [blink_status_led] *)
Definition blink_status_led (count : nat) (duration : Q) : trace :=
  concat (replicate count
    [EvStatusLed true; EvSleep duration; EvStatusLed false; EvSleep duration]).

(** [power_mgr = PowerManager()] *)
Definition new_power_manager (env : Env) : M unit :=
  if power_init_ok env then
    now ← monotonic env;
    let '(pm, evs) := PowerManager.create now in
    emit evs;; update (set_power_mgr pm)
  else raise "PowerManager()".

(** A method call on [power_mgr] that reads the battery. *)
Definition check_battery_status (env : Env) : M PowerManager.BatteryStatus :=
  fun w =>
    match power_mgr w with
    | Some pm =>
        let '(status, pm1, evs) := PowerManager.check_battery_status (battery env) pm in
        (Normal status, set_power_mgr pm1 (add_events evs w))
    | None => (Raised "'NoneType' object has no attribute", w)
    end.

(** [storage_mgr = StorageManager()] followed by [initialize()]. *)
Definition new_storage_manager (env : Env) : M bool :=
  emit [EvSdMount (sd_mounts env)];;
  update (set_storage_mgr (sd_mounts env));;
  mret (sd_mounts env).

(** [load_state]: the stored record, or the defaults. *)
Definition load_state (env : Env) : M StorageManager.State :=
  emit [EvStateLoad];;
  mret (default StorageManager.default_state (stored_state env)).

(** [i2c = busio.I2C(...)], [TimeManager(i2c)] and [get_system_info]. *)
Definition new_time_manager (env : Env) : M TimeManager.t :=
  match rtc env with
  | Some tm => update (set_time_mgr tm);; mret tm
  | None => raise "TimeManager()"
  end.

(** [sensor = PressureSensor()] *)
Definition new_sensor (env : Env) : M unit :=
  if sensor_init_ok env then update (set_sensor 0) else raise "PressureSensor()".

(** [sensor.get_sensor_diagnostics()] under a handler: tells whether it
    returned. *)
Definition try_read_sensor (env : Env) : M bool :=
  fun w =>
    match sensor w with
    | Some n =>
        let ok := sensor_read_ok env n in
        (Normal ok, set_sensor (S n) (add_events [EvSensorRead ok] w))
    | None => (Normal false, w)
    end.

Definition read_sensor (env : Env) : M unit :=
  ok ← try_read_sensor env;
  if ok : bool then mret tt else raise "get_sensor_diagnostics()".

Definition failure (text : string) : Satellite.TxResult :=
  {| Satellite.tx_success := false; Satellite.tx_attempts := 0;
     Satellite.tx_error := text; Satellite.tx_signal_quality := Some (-1) |}.

(** [perform_transmission]: every exception is caught inside, and the
    modem, once constructed, is put to sleep on every way out. *)
Definition perform_transmission (env : Env) : M Satellite.TxResult :=
  if modem_init_ok env then
    emit Satellite.init_events;;
    let '(ok, m1, e1) := Satellite.initialize (link env) Satellite.fresh in
    emit e1;;
    if ok then
      sensed ← try_read_sensor env;
      if sensed : bool then
        let '(result, m2, e2) :=
          Satellite.send_data_reading (link env) m1 (formatted env) in
        emit e2;;
        emit (if Satellite.tx_success result
              then blink_status_led 5 0.1 else blink_status_led 1 2);;
        emit (Satellite.sleep m2);;
        mret result
      else
        emit (Satellite.sleep m1);;
        mret (failure "Exception during transmission")
    else
      emit (Satellite.sleep m1);;
      mret (failure "Failed to initialize satellite modem")
  else mret (failure "Exception during transmission").

(** [print_system_diagnostics]: reads the battery and the sensor, and
    swallows what they raise. *)
Definition print_system_diagnostics (env : Env) : M unit :=
  fun w =>
    let w1 :=
      match power_mgr w with
      | Some pm =>
          let '(pm1, evs) := PowerManager.get_power_diagnostics (battery env) pm in
          set_power_mgr pm1 (add_events evs w)
      | None => w
      end in
    (Normal tt, (try_read_sensor env w1).2).

(** The transmit branch of the [try] block, after the battery policy
    allowed it. *)
Definition transmit_and_record (env : Env) (mounted : bool)
    (tx_slot : option (Z * Z)) (state : StorageManager.State)
  : M StorageManager.State :=
  result ← perform_transmission env;
  if mounted then
    read_sensor env;;
    emit [EvLogReading (Some (Satellite.tx_success result))];;
    match tx_slot with
    | Some slot =>
        now ← monotonic env;
        mret (StorageManager.record_transmission_attempt state now (slot_id slot)
                (Satellite.tx_success result) (Satellite.tx_error result))
    | None => mret state
    end
  else mret state.

(** The [try] block of [main] from "Initialize storage management" on,
    reached when the battery does not call for the emergency shutdown. *)
Definition cycle (env : Env) (battery_status : PowerManager.BatteryStatus) : M unit :=
  mounted ← new_storage_manager env;
  loaded ← (if mounted : bool then load_state env
            else mret StorageManager.default_state);
  now ← monotonic env;
  let state := StorageManager.count_wake now loaded in
  tm ← new_time_manager env;
  new_sensor env;;
  let '(is_tx_time, tx_slot) := TimeManager.is_transmission_time tm 5 in
  now ← monotonic env;
  let pending_transmissions :=
    if mounted : bool
    then StorageManager.get_pending_transmissions state tm now
    else [] in
  let should_transmit :=
    is_tx_time || (0 <? length pending_transmissions)%nat in
  state ←
    (if should_transmit then
       let '(skip_tx, _) := PowerManager.should_skip_transmission battery_status in
       if skip_tx then
         when mounted (emit [EvLogError "POWER"]);; mret state
       else transmit_and_record env mounted tx_slot state
     else
       read_sensor env;;
       when mounted (emit [EvLogReading None]);;
       mret state);
  when mounted (emit [EvStateSave state]);;
  print_system_diagnostics env.

(** The [try] block of [main]. *)
Definition body (env : Env) : M unit :=
  emit (blink_status_led 3 0.1);;
  new_power_manager env;;
  battery_status ← check_battery_status env;
  match PowerManager.recommend battery_status with
  | PowerManager.emergency_shutdown =>
      emit (PowerManager.handle_emergency_shutdown false);;
      return_
  | _ => cycle env battery_status
  end.

(** The [except Exception] block. *)
Definition on_exception (w : World) : World :=
  add_events
    (blink_status_led 10 0.1
     ++ match storage_mgr w with
        | Some true => [EvLogError "SYSTEM"]
        | _ => []
        end) w.

(** [cleanup_resources]: [deinit] of each manager that exists and has
    one (the time manager has none; [satellite] is still [None] here). *)
Definition cleanup_resources (w : World) : trace :=
  (if given (power_mgr w) then [EvDeinit "power_mgr"] else [])
  ++ (if given (storage_mgr w) then [EvDeinit "storage_mgr"] else [])
  ++ (if given (sensor w) then [EvDeinit "sensor"] else []).

(** The [finally] block. *)
Definition on_exit (env : Env) (w : World) : World :=
  let w1 :=
    match power_mgr w with
    | Some pm =>
        let '(pm1, evs) := PowerManager.prepare_for_sleep (battery env) pm in
        set_power_mgr pm1 (add_events evs w)
    | None => w
    end in
  add_events
    (cleanup_resources w1
     ++ blink_status_led 2 0.5
     ++ (if given (power_mgr w1) then PowerManager.signal_done else [])
     ++ [EvSleep 2]) w1.

(** [main]: the final world of one wake cycle, should the power stay on
    until the last statement. *)
Definition run (env : Env) : World :=
  let '(r, w) := body env start in
  on_exit env
    match r with
    | Raised _ => on_exception w
    | _ => w
    end.

Definition main (env : Env) : trace := w_trace (run env).

End Main.

(** ** sensor.py *)
Module Sensor.
#[local] Open Scope Q_scope.

(** The sensor object: its calibration offset.  Floats are rationals
    here; [calibrate_zero] is in [Sensor64], over binary64. *)
Record t := { calibration_offset : Q }.

(** [__init__] *)
Definition create : t := {| calibration_offset := 0.0 |}.

(** [read_voltage], for the raw value that [read_raw_value] returned. *)
Definition read_voltage (raw_value : Z) : Q :=
  (inject_Z raw_value / Config.PRESSURE_SENSOR_RESOLUTION)
  * Config.PRESSURE_SENSOR_VREF.

(** The clamp of [read_pressure_psi] to the sensor's output range. *)
Definition clamp_voltage (voltage : Q) : Q :=
  let voltage_min := 0.5 in
  let voltage_max := 4.5 in
  if Qltb voltage voltage_min then voltage_min
  else if Qltb voltage_max voltage then voltage_max
  else voltage.

(** [read_pressure_psi] *)
Definition read_pressure_psi (s : t) (raw_value : Z) : Q :=
  let voltage := clamp_voltage (read_voltage raw_value) in
  let voltage_min := 0.5 in
  let voltage_max := 4.5 in
  let pressure_range :=
    Config.PRESSURE_SENSOR_MAX_PRESSURE - Config.PRESSURE_SENSOR_MIN_PRESSURE in
  let voltage_range := voltage_max - voltage_min in
  let pressure :=
    Config.PRESSURE_SENSOR_MIN_PRESSURE
    + ((voltage - voltage_min) / voltage_range) * pressure_range in
  pressure + calibration_offset s.

(** [read_water_depth_feet]; [max(0.0, d)] is [d] when [d > 0.0]. *)
Definition read_water_depth_feet (s : t) (raw_value : Z) : Q :=
  let pressure_psi := read_pressure_psi s raw_value in
  let gauge_pressure := pressure_psi - Config.ATMOSPHERIC_PRESSURE in
  if Qle_bool gauge_pressure 0 then 0.0
  else
    let depth_feet := gauge_pressure / Config.WATER_DENSITY_FACTOR in
    if Qltb 0.0 depth_feet then depth_feet else 0.0.

End Sensor.

(** ** storage_manager.py: the files on the card *)
Module Store.
Import StorageManager.

(** A JSON object read from the state file: each key of
    [default_state] is there or not.  Keys outside [default_state] play
    no part in the program and are left out; the JSON text of a value is
    taken to read back as that value. *)
Record Partial := {
  p_last_successful_transmissions : option (gmap string Q);
  p_failed_attempts : option (list AttemptRecord);
  p_last_wake_time : option Q;
  p_total_wake_cycles : option Z;
  p_sensor_calibration_offset : option Q;
  p_battery_low_count : option Z;
  p_system_errors : option (list string)
}.

(** What a path holds: no file ([open(path, 'r')] raises [OSError]),
    text that [json.load] rejects with [ValueError], or a JSON object. *)
Inductive content :=
| Absent
| Corrupt
| Object (p : Partial).

(** [STATE_FILE] and ["/sd/backup/state_backup.json"]. *)
Record Disk := {
  state_file : content;
  backup_file : content
}.

(** How [with open(path, 'w') as f: f.write(...)] ends: it completes; or
    [open] raises and the file is as before; or the write raises after
    [open] has truncated the file, which leaves text that is no JSON. *)
Inductive write_reply :=
| Done
| Refused
| Broken.

(** [merged_state = self.default_state.copy(); merged_state.update(state)] *)
Definition merge (p : Partial) : State := {|
  last_successful_transmissions :=
    default (last_successful_transmissions default_state)
            (p_last_successful_transmissions p);
  failed_attempts :=
    default (failed_attempts default_state) (p_failed_attempts p);
  last_wake_time := default (last_wake_time default_state) (p_last_wake_time p);
  total_wake_cycles :=
    default (total_wake_cycles default_state) (p_total_wake_cycles p);
  sensor_calibration_offset :=
    default (sensor_calibration_offset default_state)
            (p_sensor_calibration_offset p);
  battery_low_count :=
    default (battery_low_count default_state) (p_battery_low_count p);
  system_errors := default (system_errors default_state) (p_system_errors p)
|}.

(** The object that [json.dump(state, f)] writes for a state with all
    the keys. *)
Definition dump (state : State) : Partial := {|
  p_last_successful_transmissions := Some (last_successful_transmissions state);
  p_failed_attempts := Some (failed_attempts state);
  p_last_wake_time := Some (last_wake_time state);
  p_total_wake_cycles := Some (total_wake_cycles state);
  p_sensor_calibration_offset := Some (sensor_calibration_offset state);
  p_battery_low_count := Some (battery_low_count state);
  p_system_errors := Some (system_errors state)
|}.

(** [load_state]; [mounted] tells whether the card is mounted or
    [initialize()] mounts it. *)
Definition load_state (mounted : bool) (disk : Disk) : State :=
  if mounted then
    match state_file disk with
    | Object p => merge p
    | Absent | Corrupt => default_state
    end
  else default_state.

(** The inner [try] of [save_state]: copy the state file to the backup,
    ignoring every error. *)
Definition backup (disk : Disk) (reply : write_reply) : Disk :=
  match state_file disk with
  | Absent => disk
  | backup_data =>
      match reply with
      | Done => {| state_file := state_file disk; backup_file := backup_data |}
      | Refused => disk
      | Broken => {| state_file := state_file disk; backup_file := Corrupt |}
      end
  end.

(** [save_state] *)
Definition save_state (mounted : bool) (disk : Disk) (state : State)
    (backup_reply write : write_reply) : bool * Disk :=
  if mounted then
    let disk := backup disk backup_reply in
    match write with
    | Done =>
        (true, {| state_file := Object (dump state);
                  backup_file := backup_file disk |})
    | Refused => (false, disk)
    | Broken =>
        (false, {| state_file := Corrupt; backup_file := backup_file disk |})
    end
  else (false, disk).

(** One [f.write] of [log_sensor_reading]: a half of the header line or
    a third of the row of reading number [reading]. *)
Inductive chunk :=
| Header1
| Header2
| Row1 (reading : nat)
| Row2 (reading : nat)
| Row3 (reading : nat).

(** [log_sensor_reading] on the log file ([None]: no file).  [probe]
    tells whether [open(LOG_FILE, 'r')] returned, [append] whether
    [open(LOG_FILE, 'a')] did, and [good] how many of the calls of
    [f.write] returned before one raised; a write lands whole or not at
    all. *)
Definition log_sensor_reading (mounted : bool) (log : option (list chunk))
    (probe append : bool) (good : nat) (reading : nat)
  : bool * option (list chunk) :=
  if mounted then
    let file_exists := match log with Some _ => probe | None => false end in
    if append then
      let writes :=
        (if file_exists then [] else [Header1; Header2])
        ++ [Row1 reading; Row2 reading; Row3 reading] in
      ((length writes <=? good)%nat,
       Some (default [] log ++ take good writes))
    else (false, log)
  else (false, log).

(** [get_storage_info], the numbers: [statvfs] is the triple of block
    size, blocks and free blocks that [os.statvfs] returned.  [None]
    stands for the dictionary with the key ["error"]. *)
Record Usage := {
  total_mb : Z;
  used_mb : Z;
  free_mb : Z;
  usage_percent : Z
}.

Definition get_storage_info (statvfs : Z * Z * Z) : option Usage :=
  let '(bsize, blocks, bfree) := statvfs in
  let total_bytes := bsize * blocks in
  let free_bytes := bsize * bfree in
  let used_bytes := total_bytes - free_bytes in
  if total_bytes =? 0 then None
  else Some {| total_mb := total_bytes / (1024 * 1024);
               used_mb := used_bytes / (1024 * 1024);
               free_mb := free_bytes / (1024 * 1024);
               usage_percent := (used_bytes * 100) / total_bytes |}.

End Store.

(** ** setup_calibration.py *)
Module SetupCalibration.

(** The conversion in [set_rtc_time] of the Pacific day and hour typed
    in to the day and hour handed to the clock. *)
Definition to_utc (day hour : Z) (is_dst : bool) : Z * Z :=
  let utc_offset :=
    if is_dst then Config.TIMEZONE_OFFSET_PDT else Config.TIMEZONE_OFFSET_PST in
  let utc_hour := hour - utc_offset in
  if 24 <=? utc_hour then (day + 1, utc_hour - 24)
  else if utc_hour <? 0 then (day - 1, utc_hour + 24)
  else (day, utc_hour).

End SetupCalibration.

(** ** Python floats as binary64 *)
Module Binary64.
Import PrimFloat.

(** [float(n)] of an integer [0 <= n < 2^53], which is exact. *)
Definition of_int (n : Z) : float := of_uint63 (Uint63.of_Z n).

(** The value of a finite float, as a rational. *)
Definition exact (x : float) : option Q :=
  match FloatOps.Prim2SF x with
  | SpecFloat.S754_zero _ => Some 0%Q
  | SpecFloat.S754_finite s m e =>
      let v := if 0 <=? e then inject_Z (Z.pos m * 2 ^ e)
               else (Z.pos m # Pos.shiftl 1 (Z.to_N (- e)))%Q in
      Some (if s then Qopp v else v)
  | _ => None
  end.

(** [int(x)]: the integer part, towards zero; [None] where Python
    raises (infinities and NaN). *)
Definition int (x : float) : option Z :=
  match FloatOps.Prim2SF x with
  | SpecFloat.S754_zero _ => Some 0
  | SpecFloat.S754_finite s m e =>
      let v := if 0 <=? e then Z.pos m * 2 ^ e else Z.pos m / 2 ^ (- e) in
      Some (if s then - v else v)
  | _ => None
  end.

(** [abs(x - y) <= tolerance] *)
Definition within (tolerance x y : float) : bool :=
  leb (abs (sub x y)) tolerance.

End Binary64.

(** ** power_manager.py: the battery reading in binary64 *)
Module PowerManager64.
Import PrimFloat.
#[local] Open Scope float_scope.

Definition PRESSURE_SENSOR_VREF : float := 3.3.
Definition LOW_BATTERY_THRESHOLD : float := 3.2.

(** [read_battery_voltage] for the count [raw_value] that the monitor
    returned: the [try] branch. *)
Definition read_battery_voltage (raw_value : Z) : float :=
  let voltage := (Binary64.of_int raw_value / 65535.0) * PRESSURE_SENSOR_VREF in
  let voltage := voltage * 2.0 in
  voltage.

(** The flag that [read_battery_voltage] leaves in [is_low_battery]. *)
Definition is_low_battery (voltage : float) : bool :=
  voltage <? LOW_BATTERY_THRESHOLD.

(** The decision of [check_battery_status] once the voltage is read. *)
Definition recommendation_for (low : bool) (voltage : float)
  : PowerManager.recommendation :=
  if low then
    if voltage <? 3.0 then PowerManager.emergency_shutdown
    else if voltage <? 3.2 then PowerManager.conserve_power
    else PowerManager.monitor_closely
  else PowerManager.normal.

(** [_estimate_battery_percentage]; [None] where [int()] raises. *)
Definition estimate_battery_percentage (voltage : float) : option Z :=
  if voltage <=? 0 then Some 0%Z
  else
    let voltage_min := 3.0 in
    let voltage_max := 4.2 in
    if voltage_max <=? voltage then Some 100%Z
    else if voltage <=? voltage_min then Some 0%Z
    else
      let percentage :=
        ((voltage - voltage_min) / (voltage_max - voltage_min)) * 100 in
      match Binary64.int percentage with
      | Some p => Some (Z.max 0 (Z.min 100 p))
      | None => None
      end.

End PowerManager64.

(** ** sensor.py: the calibration in binary64 *)
Module Sensor64.
Import PrimFloat.
#[local] Open Scope float_scope.

Definition PRESSURE_SENSOR_RESOLUTION : Z := 4096.
Definition PRESSURE_SENSOR_VREF : float := 3.3.
Definition PRESSURE_SENSOR_MIN_PRESSURE : float := 0.0.
Definition PRESSURE_SENSOR_MAX_PRESSURE : float := 30.0.
Definition ATMOSPHERIC_PRESSURE : float := 14.7.

Record t := { calibration_offset : float }.

(** [__init__] *)
Definition create : t := {| calibration_offset := 0.0 |}.

(** [read_voltage]; the quotient of the two integers is the float
    nearest to it. *)
Definition read_voltage (raw_value : Z) : float :=
  (Binary64.of_int raw_value / Binary64.of_int PRESSURE_SENSOR_RESOLUTION)
  * PRESSURE_SENSOR_VREF.

(** [read_pressure_psi] *)
Definition read_pressure_psi (s : t) (raw_value : Z) : float :=
  let voltage := read_voltage raw_value in
  let voltage_min := 0.5 in
  let voltage_max := 4.5 in
  let voltage :=
    if voltage <? voltage_min then voltage_min
    else if voltage_max <? voltage then voltage_max
    else voltage in
  let pressure_range :=
    PRESSURE_SENSOR_MAX_PRESSURE - PRESSURE_SENSOR_MIN_PRESSURE in
  let voltage_range := voltage_max - voltage_min in
  let pressure :=
    PRESSURE_SENSOR_MIN_PRESSURE
    + ((voltage - voltage_min) / voltage_range) * pressure_range in
  pressure + calibration_offset s.

(** [sum(l)]: the items added in order, from the integer 0. *)
Definition sum (l : list float) : float := fold_left add l 0.

(** [calibrate_zero]; [samples] are the raw values read, one per pass of
    the loop, and an empty list makes the division raise.  The 0.1 s
    wait after each sample and the progress lines are left out. *)
Definition calibrate_zero (s : t) (samples : list Z) : option t :=
  let pressure_readings := List.map (read_pressure_psi s) samples in
  match pressure_readings with
  | [] => None
  | _ :: _ =>
      let avg_pressure :=
        sum pressure_readings
        / Binary64.of_int (Z.of_nat (length pressure_readings)) in
      Some {| calibration_offset := ATMOSPHERIC_PRESSURE - avg_pressure |}
  end.

End Sensor64.

(** * Vocabulary of the properties *)

(** A failed attempt as it is handed to [record_transmission_attempt]:
    the clock reading, the slot and the error text. *)
Definition failure_record (a : Q * string * string) : StorageManager.AttemptRecord :=
  {| StorageManager.att_time_slot := Some a.1.2;
     StorageManager.att_timestamp := Some a.1.1;
     StorageManager.att_success := false;
     StorageManager.att_error := a.2 |}.

(** Recording a sequence of failed attempts, oldest first. *)
Definition record_failures (st : StorageManager.State)
    (attempts : list (Q * string * string)) : StorageManager.State :=
  fold_left
    (fun s a => StorageManager.record_transmission_attempt s a.1.1 a.1.2 false a.2)
    attempts st.

(** Events that end an attempt without a confirmation and let control
    reach the backoff block: a send that the link did not confirm, and a
    signal quality of [None], on which the comparison raises. *)
Definition unconfirmed (e : event) : bool :=
  match e with
  | EvLinkSend _ SendOk => false
  | EvLinkSend _ _ => true
  | EvSignalRead SqNone => true
  | _ => false
  end.

(** A send that the link confirmed. *)
Definition confirmed_send (e : event) : bool :=
  match e with EvLinkSend _ SendOk => true | _ => false end.

(** A message handed to the link. *)
Definition is_send (e : event) : bool :=
  match e with EvLinkSend _ _ => true | _ => false end.

(** The banner that opens an attempt. *)
Definition is_banner (e : event) : bool :=
  match e with EvAttempt _ _ => true | _ => false end.

(** Number of sends handed to the link. *)
Definition sends (tr : trace) : nat := length (List.filter is_send tr).

(** Number of attempts begun. *)
Definition attempts_started (tr : trace) : nat := length (List.filter is_banner tr).

(** What [get_signal_quality] makes of a reply. *)
Definition quality_of (reply : sq_reply) : option Z :=
  match reply with
  | SqValue q => Some q
  | SqNone => None
  | SqRaise => Some (-1)
  end.

(** A reading that [send_message] treats as poor signal. *)
Definition poor (reply : sq_reply) : bool :=
  match quality_of reply with Some q => q <? 1 | None => false end.

(** A signal query of the loop that reads poor signal. *)
Definition poor_read (e : event) : bool :=
  match e with EvSignalRead reply => poor reply | _ => false end.


(** Waking the modem and opening the link: no attempt banner, no signal
    query of the loop, no send. *)
Definition setup_event (e : event) : bool :=
  match e with
  | EvSleepPin _ | EvSleep _ | EvLinkOpen _ | EvLinkTest _ => true
  | _ => false
  end.

(** What [send_step] returns for a reply. *)
Definition send_result (reply : send_reply) : Satellite.attempt_result :=
  match reply with
  | SendOk => Satellite.Confirmed
  | SendFail => Satellite.FallThrough "RockBlock reported send failure"
  | SendRaise text => Satellite.FallThrough ("Exception during send: " +:+ text)
  end.

(** The ways one attempt can go, with the events after its banner. *)
Inductive attempt_shape (msg : message) : Satellite.attempt_result -> trace -> Prop :=
| shape_no_link S :
    forallb setup_event S = true ->
    attempt_shape msg (Satellite.Continue "Failed to initialize RockBlock") S
| shape_none S :
    forallb setup_event S = true ->
    attempt_shape msg (Satellite.FallThrough ("Exception during send: " +:+ Satellite.none_compare_text))
                  (S ++ [EvSignalRead SqNone])
| shape_poor S reply q :
    forallb setup_event S = true ->
    quality_of reply = Some q -> q < 1 ->
    attempt_shape msg (Satellite.Continue ("Poor signal quality: " +:+ pretty q))
                  (S ++ [EvSignalRead reply; EvSleep 30])
| shape_send S q reply :
    forallb setup_event S = true ->
    1 <= q ->
    attempt_shape msg (send_result reply)
                  (S ++ [EvSignalRead (SqValue q); EvLinkSend msg reply]).


(** The rising edge on the done pin, which is the signal to the timer. *)
Definition is_done_pulse (e : event) : bool :=
  match e with EvDonePin true => true | _ => false end.

(** Number of done signals in a trace. *)
Definition done_pulses (tr : trace) : nat := length (List.filter is_done_pulse tr).

(** Sensor and transmission work. *)
Definition is_work (e : event) : bool :=
  match e with
  | EvSensorRead _ | EvSleepPin _ | EvLinkOpen _ | EvLinkTest _
  | EvSignalRead _ | EvAttempt _ _ | EvLinkSend _ _ | EvLinkSleep => true
  | _ => false
  end.

(** The battery status that [main] reads first. *)
Definition opening_status (env : Main.Env) : PowerManager.BatteryStatus :=
  (PowerManager.check_battery_status (Main.battery env)
     (PowerManager.create
        (Main.boot_clock env + elapsed (Main.blink_status_led 3 0.1))%Q).1).1.1.

(** A computation of the cycle that sends no done signal and leaves
    [power_mgr] assigned or unassigned as it was. *)
Definition quiet {A} (m : Main.M A) : Prop :=
  forall w, exists evs,
    Main.w_trace (m w).2 = Main.w_trace w ++ evs
    /\ done_pulses evs = 0%nat
    /\ Main.given (Main.power_mgr (m w).2) = Main.given (Main.power_mgr w).

(** The clock reading [n] minutes after a midnight. *)
Definition clock_at (n : Z) : TimeManager.t :=
  {| TimeManager.tm_hour := (n / 60) mod 24; TimeManager.tm_min := n mod 60 |}.

(** Minutes since midnight of a clock reading. *)
Definition minute_of_day (tm : TimeManager.t) : Z :=
  TimeManager.tm_hour tm * 60 + TimeManager.tm_min tm.

(** A reading a real-time clock can give. *)
Definition valid_clock (tm : TimeManager.t) : Prop :=
  0 <= TimeManager.tm_hour tm < 24 /\ 0 <= TimeManager.tm_min tm < 60.

(** The day of the week (Python's [tm_wday]: Monday is 0, Sunday is 6) of
    the first day of the month of [dt], counted back from [dt] itself. *)
Definition weekday_of_first (dt : TimeManager.struct_time) : Z :=
  (TimeManager.st_wday dt - (TimeManager.st_mday dt - 1)) mod 7.

(** The day of the week of day [d] of the month of [dt]. *)
Definition weekday_of_day (dt : TimeManager.struct_time) (d : Z) : Z :=
  (weekday_of_first dt + (d - 1)) mod 7.

(** What an entry of the pending list looks like for the state it was
    computed from: new, or a retry that points at a stored failure. *)
Definition well_formed_pending
    (st : StorageManager.State) (p : StorageManager.Pending) : Prop :=
  (StorageManager.pd_retry_count p = 0%nat
   /\ StorageManager.pd_last_attempt p = None)
  \/ (0 < StorageManager.pd_retry_count p
         <= length (StorageManager.failed_attempts st))%nat
     /\ exists a, StorageManager.pd_last_attempt p = Some a
                  /\ a ∈ StorageManager.failed_attempts st
                  /\ StorageManager.att_time_slot a
                     = Some (StorageManager.pd_time_slot p).

(** The longest a run of [send_message] with three attempts can sleep
    from attempt index [attempt] on: 3 s to wake the modem when it is not
    initialised, then per attempt the larger of the 30 s wait and the
    backoff of that attempt. *)
Definition worst_case (attempt : Z) (initialized : bool) : Q :=
  ((if initialized then 0 else 3)
   + (if attempt <=? 0 then 1230
      else if attempt <=? 1 then 930
      else if attempt <=? 2 then 30 else 0))%Q.

(** The texts handed to the link in a trace. *)
Definition sent_messages (tr : trace) : list message :=
  flat_map (fun e => match e with EvLinkSend msg _ => [msg] | _ => [] end) tr.

(** Waking the modem, opening the link and the communication test: what
    [initialize] does. *)
Definition is_link_setup (e : event) : bool :=
  match e with
  | EvSleepPin _ | EvLinkOpen _ | EvLinkTest _ => true
  | _ => false
  end.

(** A Hoare-style judgement on a computation of the wake cycle: from a
    world that satisfies [I] it appends events that satisfy [T], ends in
    a world that satisfies [I], and a value it completes with satisfies
    [Q]. *)
Definition keeps {A} (I : Main.World -> Prop) (T : trace -> Prop)
    (Q : A -> Prop) (m : Main.M A) : Prop :=
  forall w, I w ->
    exists evs,
      Main.w_trace (m w).2 = Main.w_trace w ++ evs
      /\ T evs
      /\ I (m w).2
      /\ forall a, (m w).1 = Main.Normal a -> Q a.

(** Events of the modem: its sleep pin, the link and the attempts. *)
Definition is_modem_event (e : event) : bool :=
  match e with
  | EvSleepPin _ | EvLinkOpen _ | EvLinkTest _ | EvSignalRead _
  | EvAttempt _ _ | EvLinkSend _ _ | EvLinkSleep => true
  | _ => false
  end.

(** Reads and writes of the files on the SD card. *)
Definition is_storage_event (e : event) : bool :=
  match e with
  | EvStateLoad | EvStateSave _ | EvLogReading _ | EvLogError _ => true
  | _ => false
  end.

(** Everything else: waiting, the LED, the done pin, the battery and
    sensor reads, mounting the card and releasing the managers. *)
Definition is_routine (e : event) : bool :=
  negb (is_modem_event e) && negb (is_storage_event e).

(** What the methods of the modem emit. *)
Definition satellite_event (e : event) : bool :=
  is_modem_event e || match e with EvSleep _ => true | _ => false end.

Definition is_sleep_pin (e : event) : bool :=
  match e with EvSleepPin _ => true | _ => false end.

(** The modem's sleep pin, if the trace drives it at all, is left high:
    the modem is asleep. *)
Definition modem_asleep (tr : trace) : Prop :=
  match last (List.filter is_sleep_pin tr) with
  | None | Some (EvSleepPin true) => True
  | Some _ => False
  end.

(** A state written to the card is the loaded one with the wake cycle
    counted once and the three settings untouched. *)
Definition saved_from (loaded : StorageManager.State) (e : event) : Prop :=
  match e with
  | EvStateSave st =>
      StorageManager.total_wake_cycles st
      = StorageManager.total_wake_cycles loaded + 1
      /\ StorageManager.sensor_calibration_offset st
         = StorageManager.sensor_calibration_offset loaded
      /\ StorageManager.battery_low_count st
         = StorageManager.battery_low_count loaded
      /\ StorageManager.system_errors st = StorageManager.system_errors loaded
  | _ => True
  end.

(** What the judgement asks of its two predicates: [T] holds of traces
    put end to end and of routine events, [I] looks at nothing but the
    storage manager. *)
Record trace_law (I : Main.World -> Prop) (T : trace -> Prop) : Prop := {
  law_app : forall a b, T a -> T b -> T (a ++ b);
  law_routine : forall tr, forallb is_routine tr = true -> T tr;
  law_storage :
    forall w w', Main.storage_mgr w' = Main.storage_mgr w -> I w -> I w'
}.

(** A trace without events of one kind. *)
Definition free_of (kind : event -> bool) (tr : trace) : Prop :=
  forallb (fun e => negb (kind e)) tr = true.

(** The storage manager does not exist or its card is not mounted. *)
Definition card_unused (w : Main.World) : Prop :=
  Main.storage_mgr w <> Some true.

Definition any_world (w : Main.World) : Prop := True.

(** A half of the header line of the reading log. *)
Definition is_header (c : Store.chunk) : bool :=
  match c with Store.Header1 | Store.Header2 => true | _ => false end.

(** The three writes that make the row of one reading. *)
Definition row (reading : nat) : list Store.chunk :=
  [Store.Row1 reading; Store.Row2 reading; Store.Row3 reading].

(** A run of calls of [log_sensor_reading] on a mounted card whose
    probe for the file is exact; each call comes with whether the open
    for appending returns, how many writes return, and the reading. *)
Definition log_all (calls : list (bool * nat * nat))
    (log : option (list Store.chunk)) : option (list Store.chunk) :=
  fold_left
    (fun log call =>
       (Store.log_sensor_reading true log true call.1.1 call.1.2 call.2).2)
    calls log.

(** A call in which nothing raises. *)
Definition complete_call (reading : nat) : bool * nat * nat := (true, 5%nat, reading).

(** A computation of the wake cycle that sleeps at most [c] seconds. *)
Definition takes {A} (c : Q) (m : Main.M A) : Prop :=
  forall w, exists evs,
    Main.w_trace (m w).2 = Main.w_trace w ++ evs /\ (elapsed evs <= c)%Q.

(** A state written to the card has the transmission record of the
    loaded one: the same successes and the same failed attempts. *)
Definition record_kept (loaded : StorageManager.State) (e : event) : Prop :=
  match e with
  | EvStateSave st =>
      StorageManager.last_successful_transmissions st
      = StorageManager.last_successful_transmissions loaded
      /\ StorageManager.failed_attempts st = StorageManager.failed_attempts loaded
  | _ => True
  end.

Section Readings.
Import PrimFloat.

(** The integers from [start] on, [n] of them. *)
Fixpoint zrange (start : Z) (n : nat) : list Z :=
  match n with
  | O => []
  | S k => start :: zrange (start + 1) k
  end.

(** The values of [AnalogIn.value]: the 16-bit counts. *)
Definition adc_counts : list Z := zrange 0 (Z.to_nat 65536).

(** The battery reading for an ADC count, as the rational that the
    battery oracle of the wake cycle hands over. *)
Definition adc_volts (raw_value : Z) : Q :=
  default 0%Q (Binary64.exact (PowerManager64.read_battery_voltage raw_value)).

(** The gauge for an ADC count, as [check_battery_status] computes it. *)
Definition adc_percentage (raw_value : Z) : option Z :=
  PowerManager64.estimate_battery_percentage
    (PowerManager64.read_battery_voltage raw_value).

(** The gauge at a count and at the next one: both are percentages, in
    order. *)
Definition gauge_step (raw_value : Z) : bool :=
  match adc_percentage raw_value, adc_percentage (raw_value + 1) with
  | Some p, Some q => (0 <=? p) && (p <=? q) && (q <=? 100)
  | _, _ => false
  end.

(** At an ADC count the rational reading is the value of the float, and
    the comparisons and the gauge over the rationals are those of the
    floats. *)
Definition reading_agrees (raw_value : Z) : bool :=
  let voltage := PowerManager64.read_battery_voltage raw_value in
  match Binary64.exact voltage with
  | Some v =>
      Bool.eqb (Qltb v Config.LOW_BATTERY_THRESHOLD)
               (PowerManager64.is_low_battery voltage)
      && Bool.eqb (Qltb v 3.0%Q) (PrimFloat.ltb voltage 3.0%float)
      && Bool.eqb (Qltb v 3.2%Q) (PrimFloat.ltb voltage 3.2%float)
      && match PowerManager64.estimate_battery_percentage voltage with
         | Some p => p =? PowerManager.estimate_battery_percentage v
         | None => false
         end
  | None => false
  end.

(** A count does not read 3.0 V: the counts up to 29788 read below, the
    counts from 29789 on read above. *)
Definition misses_three_volts (raw_value : Z) : bool :=
  let voltage := PowerManager64.read_battery_voltage raw_value in
  negb (PrimFloat.eqb voltage 3.0%float)
  && Bool.eqb (PrimFloat.ltb voltage 3.0%float) (raw_value <=? 29788)
  && Bool.eqb (PrimFloat.ltb 3.0%float voltage) (29789 <=? raw_value).


(** The offset that [calibrate_zero] computes from [n] samples of one
    pressure. *)
Definition steady_offset (pressure : PrimFloat.float) (n : nat) : PrimFloat.float :=
  PrimFloat.sub Sensor64.ATMOSPHERIC_PRESSURE
    (PrimFloat.div (Sensor64.sum (repeat pressure n))
                   (Binary64.of_int (Z.of_nat n))).


End Readings.

(** * Concrete inputs *)

(** Eleven failed attempts for slot 05:00, one a second. *)
Definition eleven_failures : list (Q * string * string) :=
  List.map (fun k => (inject_Z (Z.of_nat k), "05:00"%string, "RockBlock reported send failure"%string))
           (seq 1 11).

(** Slot 05:00 failed 100 s after boot, nothing else is recorded. *)
Definition failed_once : StorageManager.State :=
  {| StorageManager.last_successful_transmissions := ∅;
     StorageManager.failed_attempts :=
       [failure_record (100%Q, "05:00"%string, "RockBlock reported send failure"%string)];
     StorageManager.last_wake_time := 0;
     StorageManager.total_wake_cycles := 1;
     StorageManager.sensor_calibration_offset := 0;
     StorageManager.battery_low_count := 0;
     StorageManager.system_errors := [] |}.

(** 05:00 local time. *)
Definition five_o_clock : TimeManager.t :=
  {| TimeManager.tm_hour := 5; TimeManager.tm_min := 0 |}.

(** A modem that [perform_transmission] has initialised. *)
Definition ready_modem : Satellite.Modem :=
  {| Satellite.is_initialized := true; Satellite.has_rockblock := true;
     Satellite.n_open := 1; Satellite.n_signal := 1; Satellite.n_send := 0 |}.

(** A link with good signal that reports every send as failed. *)
Definition failing_link : Satellite.Link :=
  {| Satellite.lk_open := fun _ => true;
     Satellite.lk_signal := fun _ => SqValue 3;
     Satellite.lk_send := fun _ => SendFail |}.

(** A link that never has signal. *)
Definition poor_signal_link : Satellite.Link :=
  {| Satellite.lk_open := fun _ => true;
     Satellite.lk_signal := fun _ => SqValue 0;
     Satellite.lk_send := fun _ => SendOk |}.

(** A modem library that cannot be opened. *)
Definition unopened_link : Satellite.Link :=
  {| Satellite.lk_open := fun _ => false;
     Satellite.lk_signal := fun _ => SqRaise;
     Satellite.lk_send := fun _ => SendFail |}.

(** A link with good signal that confirms every send. *)
Definition confirming_link : Satellite.Link :=
  {| Satellite.lk_open := fun _ => true;
     Satellite.lk_signal := fun _ => SqValue 3;
     Satellite.lk_send := fun _ => SendOk |}.

(** The text ["WD:1"]. *)
Definition wd_message : message := [87; 68; 58; 49].

(** 338 times the letter e with acute accent (U+00E9), two bytes each. *)
Definition accented : message := replicate 338 233.

(** A power manager whose wake cycle began at clock reading 0. *)
Definition awake_since_boot : PowerManager.t :=
  {| PowerManager.wake_start_time := 0; PowerManager.battery_voltage := 3.9;
     PowerManager.is_low_battery := false; PowerManager.n_reads := 1 |}.

(** A wake cycle on the bench: SD card, clock, sensor and modem work, the
    link confirms, nothing is stored yet; the battery voltage, the local
    hour (two minutes past) and the outcome of [PowerManager()] vary. *)
Definition bench_env (volts : Q) (hour : Z) (power_ok : bool) : Main.Env :=
  {| Main.boot_clock := 0;
     Main.power_init_ok := power_ok;
     Main.battery :=
       {| PowerManager.bat_present := true;
          PowerManager.bat_volts := fun _ => Some volts |};
     Main.sd_mounts := true;
     Main.stored_state := None;
     Main.rtc := Some {| TimeManager.tm_hour := hour; TimeManager.tm_min := 2 |};
     Main.sensor_init_ok := true;
     Main.sensor_read_ok := fun _ => true;
     Main.modem_init_ok := true;
     Main.link := confirming_link;
     Main.formatted := Some wd_message |}.

(** The bench at 3.9 V with a real-time clock that does not answer:
    [TimeManager(i2c)] raises in the cycle body. *)
Definition no_clock_env : Main.Env :=
  {| Main.boot_clock := 0;
     Main.power_init_ok := true;
     Main.battery :=
       {| PowerManager.bat_present := true;
          PowerManager.bat_volts := fun _ => Some 3.9%Q |};
     Main.sd_mounts := true;
     Main.stored_state := None;
     Main.rtc := None;
     Main.sensor_init_ok := true;
     Main.sensor_read_ok := fun _ => true;
     Main.modem_init_ok := true;
     Main.link := confirming_link;
     Main.formatted := Some wd_message |}.

(** A link whose signal is good for the test and two attempts and then
    fades, and that reports every send as failed. *)
Definition fading_link : Satellite.Link :=
  {| Satellite.lk_open := fun _ => true;
     Satellite.lk_signal := fun n => if (n <? 3)%nat then SqValue 3 else SqValue 0;
     Satellite.lk_send := fun _ => SendFail |}.

(** The bench without an SD card, at a transmission time. *)
Definition no_card_env : Main.Env :=
  {| Main.boot_clock := 0;
     Main.power_init_ok := true;
     Main.battery :=
       {| PowerManager.bat_present := true;
          PowerManager.bat_volts := fun _ => Some 3.9%Q |};
     Main.sd_mounts := false;
     Main.stored_state := None;
     Main.rtc := Some five_o_clock;
     Main.sensor_init_ok := true;
     Main.sensor_read_ok := fun _ => true;
     Main.modem_init_ok := true;
     Main.link := confirming_link;
     Main.formatted := Some wd_message |}.

(** A card that holds the state [failed_once] and no backup. *)
Definition used_card : Store.Disk :=
  {| Store.state_file := Store.Object (Store.dump failed_once);
     Store.backup_file := Store.Absent |}.

(** The bench at a transmission time with a link whose sends fail and
    whose signal then fades, and a sensor that answers once and then
    raises. *)
Definition slowest_env : Main.Env :=
  {| Main.boot_clock := 0;
     Main.power_init_ok := true;
     Main.battery :=
       {| PowerManager.bat_present := true;
          PowerManager.bat_volts := fun _ => Some 3.9%Q |};
     Main.sd_mounts := true;
     Main.stored_state := None;
     Main.rtc := Some five_o_clock;
     Main.sensor_init_ok := true;
     Main.sensor_read_ok := fun n => (n <? 1)%nat;
     Main.modem_init_ok := true;
     Main.link := fading_link;
     Main.formatted := Some wd_message |}.

(** Slot 05:00 failed at clock reading 49900, nothing else is recorded. *)
Definition failed_recently : StorageManager.State :=
  {| StorageManager.last_successful_transmissions := ∅;
     StorageManager.failed_attempts :=
       [failure_record (49900%Q, "05:00"%string, "RockBlock reported send failure"%string)];
     StorageManager.last_wake_time := 0;
     StorageManager.total_wake_cycles := 1;
     StorageManager.sensor_calibration_offset := 0;
     StorageManager.battery_low_count := 0;
     StorageManager.system_errors := [] |}.

(** The bench at 08:02, outside both windows, 50000 s after the clock
    started, with the failure of slot 05:00 on the card and a link that
    confirms. *)
Definition retry_env : Main.Env :=
  {| Main.boot_clock := 50000;
     Main.power_init_ok := true;
     Main.battery :=
       {| PowerManager.bat_present := true;
          PowerManager.bat_volts := fun _ => Some 3.9%Q |};
     Main.sd_mounts := true;
     Main.stored_state := Some failed_recently;
     Main.rtc := Some {| TimeManager.tm_hour := 8; TimeManager.tm_min := 2 |};
     Main.sensor_init_ok := true;
     Main.sensor_read_ok := fun _ => true;
     Main.modem_init_ok := true;
     Main.link := confirming_link;
     Main.formatted := Some wd_message |}.

(** Tuesday 12 March 2024, 05:02:07. *)
Definition march_12th : TimeManager.struct_time :=
  {| TimeManager.st_year := 2024; TimeManager.st_mon := 3;
     TimeManager.st_mday := 12; TimeManager.st_hour := 5;
     TimeManager.st_min := 2; TimeManager.st_sec := 7;
     TimeManager.st_wday := 1 |}.

(** * The embedding on concrete inputs *)

Example slot_ids : List.map slot_id Config.TRANSMISSION_TIMES = ["05:00"; "13:00"]%string.
Proof. vm_compute. reflexivity. Qed.

(** * Rational comparisons *)

Lemma Qltb_lt (x y : Q) : Qltb x y = true <-> (x < y)%Q.
Proof.
  unfold Qltb. rewrite negb_true_iff, <- not_true_iff_false, Qle_bool_iff.
  split; [apply Qnot_le_lt | apply Qlt_not_le].
Qed.

Lemma Qltb_ge (x y : Q) : Qltb x y = false <-> (y <= x)%Q.
Proof.
  unfold Qltb. rewrite negb_false_iff. apply Qle_bool_iff.
Qed.

(** * The state store: [record_transmission_attempt] *)

Section RecordAttempt.
Import StorageManager.

Lemma cap_history_drop (l : list AttemptRecord) :
  cap_history l = drop (length l - 10)%nat l.
Proof.
  unfold cap_history. destruct (10 <? length l)%nat eqn:E; [reflexivity|].
  apply Nat.ltb_ge in E.
  replace (length l - 10)%nat with 0%nat by lia. reflexivity.
Qed.

Lemma cap_history_length (l : list AttemptRecord) :
  length (cap_history l) = Nat.min 10 (length l).
Proof. rewrite cap_history_drop, length_drop. lia. Qed.

Lemma record_failure_history st now S err :
  failed_attempts (record_transmission_attempt st now S false err)
  = cap_history (failed_attempts st ++ [failure_record (now, S, err)]).
Proof. reflexivity. Qed.

Lemma record_success_history st now S err a :
  a ∈ failed_attempts (record_transmission_attempt st now S true err)
  <-> a ∈ failed_attempts st /\ att_time_slot a <> Some S.
Proof.
  cbn. rewrite !list_elem_of_In, filter_In. unfold other_slot.
  rewrite negb_true_iff, bool_decide_eq_false. reflexivity.
Qed.

Lemma record_failures_snoc st attempts a :
  record_failures st (attempts ++ [a])
  = record_transmission_attempt (record_failures st attempts) a.1.1 a.1.2 false a.2.
Proof. unfold record_failures. rewrite fold_left_app. reflexivity. Qed.

(** After at least one recorded failure the history is the tail of
    everything recorded so far, cut to ten entries. *)
Lemma record_failures_history st attempts :
  attempts <> [] ->
  let l := failed_attempts st ++ List.map failure_record attempts in
  failed_attempts (record_failures st attempts) = drop (length l - 10)%nat l.
Proof.
  induction attempts as [|a attempts IH] using rev_ind; [congruence|].
  intros _ l. rewrite record_failures_snoc.
  destruct a as [[now S] err]. cbn [fst snd].
  rewrite record_failure_history, cap_history_drop.
  destruct attempts as [|b attempts'].
  - subst l. cbn. reflexivity.
  - specialize (IH ltac:(discriminate)). cbn zeta in IH. rewrite IH.
    remember (failed_attempts st ++ List.map failure_record (b :: attempts'))
      as older eqn:Holder.
    assert (Hl : l = older ++ [failure_record (now, S, err)]).
    { subst l older. rewrite List.map_app, app_assoc. reflexivity. }
    assert (Hlen : (0 < length older)%nat).
    { subst older. rewrite length_app. cbn. lia. }
    rewrite Hl, !length_app, length_drop. cbn [length].
    rewrite (drop_app_le older); [|lia].
    rewrite (drop_app_le (drop _ older)); [|rewrite length_drop; lia].
    rewrite drop_drop. f_equal. f_equal. lia.
Qed.

End RecordAttempt.

(** C8. [record_transmission_attempt] keeps the invariant of the state:
    recording a success for slot [S] leaves no failed-attempt record of
    [S] (the records of other slots stay) and sets the success entry of
    [S]; recording a failure appends one record and keeps the ten most
    recent; after more than ten recorded failures exactly the ten most
    recent remain. *)
Theorem record_attempt_invariant :
  (forall st now S err,
      let st' := StorageManager.record_transmission_attempt st now S true err in
      (forall a, a ∈ StorageManager.failed_attempts st'
                 <-> a ∈ StorageManager.failed_attempts st
                     /\ StorageManager.att_time_slot a <> Some S)
      /\ StorageManager.last_successful_transmissions st' !! S = Some now)
  /\ (forall st now S err,
      let l := StorageManager.failed_attempts st ++ [failure_record (now, S, err)] in
      let st' := StorageManager.record_transmission_attempt st now S false err in
      StorageManager.failed_attempts st' = drop (length l - 10)%nat l
      /\ (length (StorageManager.failed_attempts st') <= 10)%nat)
  /\ (forall st attempts,
      (10 < length attempts)%nat ->
      StorageManager.failed_attempts (record_failures st attempts)
      = drop (length attempts - 10)%nat (List.map failure_record attempts)
      /\ length (StorageManager.failed_attempts (record_failures st attempts)) = 10%nat).
Proof.
  split; [|split].
  - intros st now S err st'. split.
    + intros a. apply record_success_history.
    + subst st'. cbn. apply lookup_insert_eq.
  - intros st now S err l st'. subst st'.
    rewrite record_failure_history. fold l. split.
    + apply cap_history_drop.
    + rewrite cap_history_length. lia.
  - intros st attempts Hlen.
    assert (Hne : attempts <> []) by (intros ->; cbn in Hlen; lia).
    pose proof (record_failures_history st attempts Hne) as H. cbn zeta in H.
    rewrite H, length_drop, length_app, length_map.
    split; [|lia].
    rewrite drop_app_ge by lia. f_equal. lia.
Qed.

Lemma record_attempt_invariant_witness :
  (10 < length eleven_failures)%nat
  /\ StorageManager.failed_attempts (record_failures StorageManager.default_state eleven_failures)
     = drop 1 (List.map failure_record eleven_failures).
Proof.
  assert (H : (10 < length eleven_failures)%nat) by (vm_compute; lia).
  split; [exact H|].
  exact (proj1 (proj2 (proj2 record_attempt_invariant)
                  StorageManager.default_state eleven_failures H)).
Defined.

(** * The pending resolver: [get_pending_transmissions] *)

Section Resolver.
Import StorageManager.

Lemma pending_for_slot_id st tm now hm p :
  p ∈ pending_for_slot st tm now hm -> pd_time_slot p = slot_id hm.
Proof.
  unfold pending_for_slot.
  destruct (Qltb _ _); [intros H; inversion H|].
  destruct (List.filter _ _) as [|a l].
  - destruct (TimeManager.is_transmission_time tm 5) as [[] ?]; intros H.
    + apply list_elem_of_singleton in H. subst p. reflexivity.
    + inversion H.
  - intros H. apply list_elem_of_singleton in H. subst p. reflexivity.
Qed.

Lemma pending_elem st tm now p :
  p ∈ get_pending_transmissions st tm now
  <-> exists hm, hm ∈ Config.TRANSMISSION_TIMES /\ p ∈ pending_for_slot st tm now hm.
Proof.
  unfold get_pending_transmissions. rewrite !list_elem_of_In, in_concat. split.
  - intros (l & Hl & Hp). apply in_map_iff in Hl as (hm & <- & Hhm).
    exists hm. rewrite !list_elem_of_In. auto.
  - intros (hm & Hhm & Hp). exists (pending_for_slot st tm now hm).
    apply list_elem_of_In in Hhm. apply list_elem_of_In in Hp.
    split; [|exact Hp]. apply in_map. exact Hhm.
Qed.

(** The freshness check alone decides that a slot is left out. *)
Lemma pending_skips st tm now S :
  (now - default 0%Q (last_successful_transmissions st !! S) < 12 * 3600)%Q ->
  forall p, p ∈ get_pending_transmissions st tm now -> pd_time_slot p <> S.
Proof.
  intros Hfresh p Hp HS. apply pending_elem in Hp as (hm & _ & Hp).
  pose proof (pending_for_slot_id _ _ _ _ _ Hp) as Hid.
  rewrite Hid in HS. subst S.
  unfold pending_for_slot in Hp. apply Qltb_lt in Hfresh.
  rewrite Hfresh in Hp. inversion Hp.
Qed.

(** A success recorded less than twelve hours of monotonic time ago
    leaves the slot out. *)
Lemma pending_skips_fresh_success st tm now S t :
  last_successful_transmissions st !! S = Some t ->
  (now - t < 12 * 3600)%Q ->
  forall p, p ∈ get_pending_transmissions st tm now -> pd_time_slot p <> S.
Proof.
  intros Hs Hlt. apply pending_skips. rewrite Hs. exact Hlt.
Qed.

(** When the freshness check lets a configured slot through, its recent
    failures make it a retry, counted and with the last of them. *)
Lemma pending_retry st tm now hm :
  hm ∈ Config.TRANSMISSION_TIMES ->
  (12 * 3600 <= now - default 0%Q (last_successful_transmissions st !! slot_id hm))%Q ->
  let recent :=
    List.filter (is_recent_failure now (slot_id hm)) (failed_attempts st) in
  recent <> [] ->
  {| pd_time_slot := slot_id hm;
     pd_retry_count := length recent;
     pd_last_attempt := last recent |} ∈ get_pending_transmissions st tm now.
Proof.
  intros Hhm Hstale recent Hne. apply pending_elem. exists hm. split; [exact Hhm|].
  unfold pending_for_slot. apply Qltb_ge in Hstale. rewrite Hstale.
  fold recent. destruct recent as [|a l]; [congruence|].
  apply list_elem_of_singleton. reflexivity.
Qed.

(** The retry window: a failure of the slot counts exactly when it is
    less than six hours of monotonic time old. *)
Lemma recent_failure_window now S a :
  att_time_slot a = Some S ->
  is_recent_failure now S a = true
  <-> (now - default 0%Q (att_timestamp a) < 6 * 3600)%Q.
Proof.
  intros Hs. unfold is_recent_failure.
  rewrite andb_true_iff, bool_decide_eq_true, Qltb_lt. tauto.
Qed.

End Resolver.

(** C3. The resolver measures both windows on [time.monotonic()] and
    takes 0 for a slot without a success entry: for every state without a
    recorded success for slot [S], and whatever its failed attempts and
    the time of day, [S] is not pending while the monotonic clock is below
    twelve hours.  What [record_transmission_attempt] stores as the time
    of a success or of a failure is that clock reading, which restarts
    with every boot; the resolver compares it with the clock of the
    current cycle all the same, so a success stored in any earlier cycle
    keeps its slot out while the current clock is below twelve hours. *)
Theorem pending_excludes_unrecorded_slot :
  (forall st tm now S,
      StorageManager.last_successful_transmissions st !! S = None ->
      (now < 12 * 3600)%Q ->
      forall p, p ∈ StorageManager.get_pending_transmissions st tm now ->
                StorageManager.pd_time_slot p <> S)
  /\ (forall st now S err,
      StorageManager.last_successful_transmissions
        (StorageManager.record_transmission_attempt st now S true err) !! S = Some now
      /\ last (StorageManager.failed_attempts
                 (StorageManager.record_transmission_attempt st now S false err))
         = Some (failure_record (now, S, err)))
  /\ (forall st tm now S t,
      StorageManager.last_successful_transmissions st !! S = Some t ->
      (0 <= t)%Q ->
      (now < 12 * 3600)%Q ->
      forall p, p ∈ StorageManager.get_pending_transmissions st tm now ->
                StorageManager.pd_time_slot p <> S).
Proof.
  split; [|split].
  - intros st tm now S Hnone Hnow. apply pending_skips.
    rewrite Hnone. cbn [default from_option id]. lra.
  - intros st now S err. split.
    + cbn. apply lookup_insert_eq.
    + rewrite record_failure_history, cap_history_drop.
      rewrite drop_app_le by (rewrite length_app; cbn; lia).
      apply last_snoc.
  - intros st tm now S t Hsome Ht Hnow.
    apply (pending_skips_fresh_success st tm now S t Hsome). lra.
Qed.

Lemma pending_excludes_unrecorded_slot_witness :
  StorageManager.last_successful_transmissions failed_once !! "05:00"%string = None
  /\ (200 < 12 * 3600)%Q
  /\ forall p, p ∈ StorageManager.get_pending_transmissions failed_once five_o_clock 200 ->
               StorageManager.pd_time_slot p <> "05:00"%string.
Proof.
  assert (H1 : StorageManager.last_successful_transmissions failed_once !! "05:00"%string = None)
    by reflexivity.
  assert (H2 : (200 < 12 * 3600)%Q) by reflexivity.
  split; [exact H1|]. split; [exact H2|].
  exact (proj1 pending_excludes_unrecorded_slot failed_once five_o_clock 200%Q
               "05:00"%string H1 H2).
Defined.

(** When any configured slot is inside the tolerance window, every
    configured slot that passes the freshness check and has no recent
    failure is entered as newly pending. *)
Lemma pending_new_for_every_slot st tm now hm :
  hm ∈ Config.TRANSMISSION_TIMES ->
  (12 * 3600 <= now - default 0%Q
     (StorageManager.last_successful_transmissions st !! slot_id hm))%Q ->
  List.filter (StorageManager.is_recent_failure now (slot_id hm))
              (StorageManager.failed_attempts st) = [] ->
  (TimeManager.is_transmission_time tm 5).1 = true ->
  {| StorageManager.pd_time_slot := slot_id hm;
     StorageManager.pd_retry_count := 0;
     StorageManager.pd_last_attempt := None |}
    ∈ StorageManager.get_pending_transmissions st tm now.
Proof.
  intros Hhm Hstale Hnone Htime. apply pending_elem. exists hm. split; [exact Hhm|].
  unfold StorageManager.pending_for_slot.
  apply Qltb_ge in Hstale. rewrite Hstale, Hnone.
  destruct (TimeManager.is_transmission_time tm 5) as [is_time slot].
  cbn in Htime. subst is_time. apply list_elem_of_singleton. reflexivity.
Qed.

(** C4, evaluated on the code.  At 05:00 local time, 50000 s after boot
    and with nothing recorded, slot 13:00 is eight hours away from its
    window and is entered as newly pending all the same: the resolver asks
    whether some slot matches and drops the slot that did. *)
Theorem pending_marks_slot_outside_window :
  TimeManager.slot_in_window five_o_clock 5 (13, 0) = false
  /\ StorageManager.get_pending_transmissions StorageManager.default_state
       five_o_clock 50000
     = [ {| StorageManager.pd_time_slot := "05:00";
            StorageManager.pd_retry_count := 0;
            StorageManager.pd_last_attempt := None |};
         {| StorageManager.pd_time_slot := "13:00";
            StorageManager.pd_retry_count := 0;
            StorageManager.pd_last_attempt := None |} ].
Proof. split; vm_compute; reflexivity. Qed.

(** C9, evaluated on the code.  Slot 05:00 has no success entry and one
    failure that is 100 s old, well inside the retry window; 200 s after
    boot the resolver does not report the slot: the missing success entry
    counts as a success at clock reading 0. *)
Theorem pending_drops_retry_without_success :
  StorageManager.last_successful_transmissions failed_once !! "05:00"%string = None
  /\ List.filter (StorageManager.is_recent_failure 200 "05:00")
                 (StorageManager.failed_attempts failed_once)
     = StorageManager.failed_attempts failed_once
  /\ StorageManager.get_pending_transmissions failed_once five_o_clock 200 = [].
Proof. repeat split; vm_compute; reflexivity. Qed.

(** The two boundaries of C9 on the clock the resolver uses: a success
    eleven hours old leaves the slot out, one thirteen hours old does
    not; a failure 5 h 59 min old counts, one 6 h 01 min old does not. *)
Lemma pending_window_boundaries (now : Q) :
  Qltb (now - (now - 11 * 3600)) (12 * 3600) = true
  /\ Qltb (now - (now - 13 * 3600)) (12 * 3600) = false
  /\ Qltb (now - (now - (5 * 3600 + 59 * 60))) (6 * 3600) = true
  /\ Qltb (now - (now - (6 * 3600 + 60))) (6 * 3600) = false.
Proof.
  rewrite !Qltb_lt, !Qltb_ge. repeat split; lra.
Qed.

(** * The retry engine: [send_message] *)

Section ListSplit.
Context {A : Type}.

(** An element with property [P] that occurs in [l1 ++ l2] lies in
    [l2] when no element of [l1] has the property. *)
Lemma split_past (P : A -> bool) (l1 l2 pre post : list A) (x : A) :
  pre ++ x :: post = l1 ++ l2 ->
  forallb (fun y => negb (P y)) l1 = true ->
  P x = true ->
  exists pre', pre = l1 ++ pre' /\ pre' ++ x :: post = l2.
Proof.
  revert pre. induction l1 as [|a l1 IH]; intros pre Heq Hfree Hx.
  - exists pre. auto.
  - cbn in Hfree. apply andb_true_iff in Hfree as [Ha Hfree].
    destruct pre as [|b pre]; cbn in Heq; injection Heq as Hhd Htl.
    + subst a. rewrite Hx in Ha. discriminate.
    + subst b. destruct (IH pre Htl Hfree Hx) as (pre' & -> & Hrest).
      exists pre'. auto.
Qed.

Lemma filter_length_app (P : A -> bool) (l1 l2 : list A) :
  length (List.filter P (l1 ++ l2))
  = (length (List.filter P l1) + length (List.filter P l2))%nat.
Proof. rewrite List.filter_app, length_app. reflexivity. Qed.

Lemma filter_none (P : A -> bool) (l : list A) :
  forallb (fun y => negb (P y)) l = true -> List.filter P l = [].
Proof.
  induction l as [|a l IH]; cbn; [reflexivity|].
  intros H. apply andb_true_iff in H as [Ha Hl].
  apply negb_true_iff in Ha. rewrite Ha. auto.
Qed.

End ListSplit.

Section Attempt.
Import Satellite.
Variable link : Link.
Variable msg : message.
Variable max_attempts : Z.

Lemma signal_then_send_shape m r m1 e :
  is_initialized m = true ->
  signal_then_send link m msg = (r, m1, e) ->
  attempt_shape msg r e /\ is_initialized m1 = true.
Proof.
  intros Hinit. unfold signal_then_send, get_signal_quality, read_signal, send_step.
  rewrite Hinit.
  destruct (lk_signal link (n_signal m)) as [q| |] eqn:Hreply; cbn.
  - destruct (q <? 1) eqn:Hq; intros [= <- <- <-]; (split; [|reflexivity]).
    + apply (shape_poor msg [] (SqValue q) q); [reflexivity..|lia].
    + apply (shape_send msg [] q). reflexivity. lia.
  - intros [= <- <- <-]. split; [|reflexivity]. apply (shape_none msg []). reflexivity.
  - intros [= <- <- <-]. split; [|reflexivity].
    apply (shape_poor msg [] SqRaise (-1)); [reflexivity..|lia].
Qed.

Lemma shape_after_setup S r e :
  forallb setup_event S = true ->
  attempt_shape msg r e -> attempt_shape msg r (S ++ e).
Proof.
  intros HS H. destruct H as [S' H'|S' H'|S' reply q H' Hq Hlt|S' q reply H' Hq];
    rewrite ?app_assoc.
  - apply shape_no_link. rewrite forallb_app, HS, H'. reflexivity.
  - apply shape_none. rewrite forallb_app, HS, H'. reflexivity.
  - apply shape_poor; auto. rewrite forallb_app, HS, H'. reflexivity.
  - apply shape_send; auto. rewrite forallb_app, HS, H'. reflexivity.
Qed.

Lemma attempt_body_shape m attempt r m1 e :
  attempt_body link m msg attempt max_attempts = (r, m1, e) ->
  exists rest, e = EvAttempt (attempt + 1) max_attempts :: rest
               /\ attempt_shape msg r rest
               /\ (is_initialized m = true -> is_initialized m1 = true).
Proof.
  unfold attempt_body. destruct (is_initialized m) eqn:Hinit.
  - destruct (signal_then_send link m msg) as [[r' m'] e'] eqn:Hs.
    intros [= <- <- <-]. apply signal_then_send_shape in Hs as [Hs Hi]; [|exact Hinit].
    exists e'. auto.
  - unfold initialize. destruct (lk_open link (n_open m)).
    + destruct (lk_signal link (n_signal m)) as [q| |] eqn:Hreply.
      * match goal with
        | |- context [signal_then_send link ?m' msg] =>
            destruct (signal_then_send link m' msg) as [[r' m''] e'] eqn:Hs
        end.
        intros [= <- <- <-].
        apply signal_then_send_shape in Hs as [Hs Hi]; [|cbn; apply orb_true_r].
        eexists. split; [reflexivity|]. split; [|discriminate].
        apply (shape_after_setup
                 [EvSleepPin false; EvSleep 1; EvSleep 2;
                  EvLinkOpen true; EvLinkTest (SqValue q)]);
          [reflexivity|exact Hs].
      * intros [= <- <- <-]. eexists. split; [reflexivity|]. split; [|discriminate].
        apply shape_no_link. reflexivity.
      * intros [= <- <- <-]. eexists. split; [reflexivity|]. split; [|discriminate].
        apply shape_no_link. reflexivity.
    + intros [= <- <- <-]. eexists. split; [reflexivity|]. split; [|discriminate].
      apply shape_no_link. reflexivity.
Qed.

End Attempt.

Section ShapeFacts.
Import Satellite.
Variable msg : message.

Lemma forallb_weaken {A} (P Q : A -> bool) (l : list A) :
  (forall a, P a = true -> Q a = true) ->
  forallb P l = true -> forallb Q l = true.
Proof.
  intros HPQ. rewrite !forallb_forall. auto.
Qed.

Lemma setup_not_banner S :
  forallb setup_event S = true -> forallb (fun e => negb (is_banner e)) S = true.
Proof. apply forallb_weaken. intros []; cbn; congruence. Qed.

Lemma setup_not_unconfirmed S :
  forallb setup_event S = true -> forallb (fun e => negb (unconfirmed e)) S = true.
Proof. apply forallb_weaken. intros []; cbn; congruence. Qed.



(** No attempt contains a second banner. *)
Lemma shape_banner_free r rest :
  attempt_shape msg r rest -> forallb (fun e => negb (is_banner e)) rest = true.
Proof.
  intros [S H|S H|S reply q H _ _|S q reply H _];
    rewrite ?forallb_app, (setup_not_banner S H); reflexivity.
Qed.

(** Only an attempt that falls through to the backoff block has an
    unconfirmed event, and it is its last event. *)
Lemma shape_unconfirmed r rest :
  attempt_shape msg r rest ->
  match r with
  | FallThrough _ =>
      exists front u, rest = front ++ [u] /\ unconfirmed u = true
                      /\ forallb (fun e => negb (unconfirmed e)) front = true
  | _ => forallb (fun e => negb (unconfirmed e)) rest = true
  end.
Proof.
  intros [S H|S H|S reply q H Hq _|S q reply H _].
  - apply setup_not_unconfirmed, H.
  - exists S, (EvSignalRead SqNone). repeat split. apply setup_not_unconfirmed, H.
  - rewrite forallb_app, (setup_not_unconfirmed S H).
    destruct reply; cbn in *; congruence.
  - destruct reply as [| |text]; cbn [send_result].
    + rewrite forallb_app, (setup_not_unconfirmed S H). reflexivity.
    + exists (S ++ [EvSignalRead (SqValue q)]), (EvLinkSend msg SendFail).
      rewrite <- app_assoc, forallb_app, (setup_not_unconfirmed S H). auto.
    + exists (S ++ [EvSignalRead (SqValue q)]), (EvLinkSend msg (SendRaise text)).
      rewrite <- app_assoc, forallb_app, (setup_not_unconfirmed S H). auto.
Qed.

Lemma started_one n max r rest :
  attempt_shape msg r rest ->
  attempts_started (EvAttempt n max :: rest) = 1%nat.
Proof.
  intros H. unfold attempts_started. cbn.
  rewrite (filter_none _ _ (shape_banner_free _ _ H)). reflexivity.
Qed.

End ShapeFacts.

Section Loop.
Import Satellite.
Variable link : Link.
Variable msg : message.
Variable max_attempts : Z.

(** One unfolding of the loop, with the shape of the attempt. *)
Lemma loop_step remaining attempt m err out m' tr :
  attempt_loop link msg max_attempts (S remaining) attempt m err = (out, m', tr) ->
  exists r m1 rest,
    attempt_shape msg r rest
    /\ (is_initialized m = true -> is_initialized m1 = true)
    /\ match r with
       | Confirmed =>
           out = (true, attempt + 1, ""%string) /\ m' = m1
           /\ tr = EvAttempt (attempt + 1) max_attempts :: rest
       | Continue err1 =>
           exists e2,
             attempt_loop link msg max_attempts remaining (attempt + 1) m1 err1
             = (out, m', e2)
             /\ tr = (EvAttempt (attempt + 1) max_attempts :: rest) ++ e2
       | FallThrough err1 =>
           exists e2,
             attempt_loop link msg max_attempts remaining (attempt + 1) m1 err1
             = (out, m', e2)
             /\ tr = (EvAttempt (attempt + 1) max_attempts :: rest)
                     ++ backoff attempt max_attempts ++ e2
       end.
Proof.
  cbn [attempt_loop]. intros H.
  destruct (attempt_body link m msg attempt max_attempts) as [[r m1] e1] eqn:Hbody.
  apply attempt_body_shape in Hbody as (rest & -> & Hshape & Hinit).
  exists r, m1, rest. split; [exact Hshape|]. split; [exact Hinit|].
  destruct r as [|err1|err1].
  - injection H as <- <- <-. auto.
  - destruct (attempt_loop link msg max_attempts remaining (attempt + 1) m1 err1)
      as [[out2 m2] e2] eqn:Hrest.
    injection H as <- <- <-. exists e2. auto.
  - destruct (attempt_loop link msg max_attempts remaining (attempt + 1) m1 err1)
      as [[out2 m2] e2] eqn:Hrest.
    injection H as <- <- <-. exists e2. auto.
Qed.

Lemma loop_begins remaining attempt m err out m' tr :
  attempt_loop link msg max_attempts (S remaining) attempt m err = (out, m', tr) ->
  exists rest, tr = EvAttempt (attempt + 1) max_attempts :: rest.
Proof.
  intros H. apply loop_step in H as (r & m1 & rest & _ & _ & H).
  destruct r; [destruct H as (_ & _ & ->)|destruct H as (e2 & _ & ->)..];
    eexists; reflexivity.
Qed.

Lemma forallb_at {A} (P : A -> bool) pre x post :
  forallb P (pre ++ x :: post) = true -> P x = true.
Proof.
  rewrite forallb_app. cbn. rewrite !andb_true_iff. tauto.
Qed.

Lemma backoff_not_unconfirmed attempt :
  forallb (fun e => negb (unconfirmed e)) (backoff attempt max_attempts) = true.
Proof. unfold backoff. destruct (_ <? _); reflexivity. Qed.

Lemma backoff_not_banner attempt :
  List.filter is_banner (backoff attempt max_attempts) = [].
Proof. unfold backoff. destruct (_ <? _); reflexivity. Qed.

(** Pacing after an unconfirmed send.  In the trace of the loop, an
    unconfirmed event of the n-th attempt is followed by the backoff
    sleep of that attempt and the banner of the next one, or, in the
    last attempt, by nothing. *)
Lemma loop_pacing remaining :
  forall attempt m err out m' tr,
    attempt_loop link msg max_attempts remaining attempt m err = (out, m', tr) ->
    attempt + Z.of_nat remaining = max_attempts ->
    forall pre x post,
      tr = pre ++ x :: post -> unconfirmed x = true ->
      let n := attempt + Z.of_nat (attempts_started pre) in
      if n <? max_attempts
      then exists post',
          post = EvSleep (inject_Z (backoff_minutes (n - 1) * 60))
                 :: EvAttempt (n + 1) max_attempts :: post'
      else post = [].
Proof.
  induction remaining as [|remaining IH]; intros attempt m err out m' tr Hloop Hmax
    pre x post Htr Hx n.
  { cbn in Hloop. injection Hloop as _ _ <-. destruct pre; discriminate. }
  apply loop_step in Hloop as (r & m1 & rest & Hshape & _ & Hr).
  pose proof (shape_unconfirmed _ _ _ Hshape) as Hunc.
  pose proof (started_one msg (attempt + 1) max_attempts _ _ Hshape) as Hone.
  destruct r as [|err1|err1].
  - destruct Hr as (_ & _ & ->).
    assert (Hfree : forallb (fun e => negb (unconfirmed e))
                      (EvAttempt (attempt + 1) max_attempts :: rest) = true)
      by (cbn; exact Hunc).
    rewrite Htr in Hfree. apply forallb_at in Hfree. rewrite Hx in Hfree. discriminate.
  - destruct Hr as (e2 & Hrest & ->). symmetry in Htr.
    apply (split_past unconfirmed) in Htr as (pre' & -> & Htr); [|cbn; exact Hunc|exact Hx].
    specialize (IH _ _ _ _ _ _ Hrest ltac:(lia) pre' x post (eq_sym Htr) Hx).
    cbn zeta in IH. subst n. unfold attempts_started in *.
    rewrite filter_length_app, Hone.
    replace (attempt + Z.of_nat (1 + length (List.filter is_banner pre')))
      with (attempt + 1 + Z.of_nat (length (List.filter is_banner pre'))) by lia.
    exact IH.
  - destruct Hr as (e2 & Hrest & ->).
    destruct Hunc as (front & u & -> & Hu & Hfront). symmetry in Htr.
    rewrite app_comm_cons, <- app_assoc in Htr. cbn [app] in Htr.
    apply (split_past unconfirmed (EvAttempt (attempt + 1) max_attempts :: front)
             (u :: backoff attempt max_attempts ++ e2))
      in Htr as (pre' & -> & Htr); [|cbn; exact Hfront|exact Hx].
    assert (Hstarted : attempts_started (EvAttempt (attempt + 1) max_attempts :: front)
                       = 1%nat).
    { unfold attempts_started in *. rewrite app_comm_cons, filter_length_app in Hone.
      cbn in Hone |- *. destruct u; cbn in Hu, Hone; try discriminate; lia. }
    destruct pre' as [|p pre'']; cbn [app] in Htr; injection Htr as Hhd Htl.
    + subst n. rewrite app_nil_r, Hstarted.
      destruct (attempt + Z.of_nat 1 <? max_attempts) eqn:Hlast.
      * apply Z.ltb_lt in Hlast.
        destruct remaining as [|remaining']; [lia|].
        apply loop_begins in Hrest as (rest2 & ->).
        unfold backoff in Htl.
        replace (attempt <? max_attempts - 1) with true in Htl
          by (symmetry; apply Z.ltb_lt; lia).
        exists rest2. rewrite Htl. cbn [app]. change (Z.of_nat 1) with 1.
        replace (attempt + 1 - 1) with attempt by lia. reflexivity.
      * apply Z.ltb_ge in Hlast.
        destruct remaining as [|remaining']; [|lia].
        cbn in Hrest. injection Hrest as _ _ <-.
        unfold backoff in Htl.
        replace (attempt <? max_attempts - 1) with false in Htl
          by (symmetry; apply Z.ltb_ge; lia).
        rewrite Htl. reflexivity.
    + apply (split_past unconfirmed) in Htl as (pre3 & -> & Htl);
        [|apply backoff_not_unconfirmed|exact Hx].
      specialize (IH _ _ _ _ _ _ Hrest ltac:(lia) pre3 x post (eq_sym Htl) Hx).
      cbn zeta in IH. subst n. unfold attempts_started in *.
      rewrite filter_length_app, Hstarted. cbn [List.filter].
      replace (is_banner p) with false
        by (subst p; destruct u; cbn in Hu |- *; congruence).
      rewrite filter_length_app, backoff_not_banner. cbn [length].
      replace (attempt + Z.of_nat (1 + (0 + length (List.filter is_banner pre3))))
        with (attempt + 1 + Z.of_nat (length (List.filter is_banner pre3))) by lia.
      exact IH.
Qed.

End Loop.

Section Cooldown.
Import Satellite.
Variable link : Link.
Variable msg : message.
Variable max_attempts : Z.

Lemma setup_not_poor_read S :
  forallb setup_event S = true -> forallb (fun e => negb (poor_read e)) S = true.
Proof. apply forallb_weaken. intros []; cbn; congruence. Qed.

(** A poor reading occurs only in an attempt that ends with [continue],
    where the 30 s wait follows it and ends the attempt. *)
Lemma shape_poor_read r rest :
  attempt_shape msg r rest ->
  forallb (fun e => negb (poor_read e)) rest = true
  \/ exists front reply err,
      r = Continue err
      /\ rest = front ++ [EvSignalRead reply; EvSleep 30]
      /\ forallb (fun e => negb (poor_read e)) front = true.
Proof.
  intros [S H|S H|S reply q H Hq Hlt|S q reply H Hq].
  - left. apply setup_not_poor_read, H.
  - left. rewrite forallb_app, (setup_not_poor_read S H). reflexivity.
  - right. exists S, reply. eexists. repeat split. apply setup_not_poor_read, H.
  - left. rewrite forallb_app, (setup_not_poor_read S H). cbn. unfold poor. cbn.
    replace (q <? 1) with false by (symmetry; apply Z.ltb_ge; lia). reflexivity.
Qed.

Lemma backoff_not_poor_read attempt :
  forallb (fun e => negb (poor_read e)) (backoff attempt max_attempts) = true.
Proof. unfold backoff. destruct (_ <? _); reflexivity. Qed.

(** Pacing after poor signal: the reading is followed by the 30 s wait,
    and the wait by the next attempt or by nothing. *)
Lemma loop_cooldown remaining :
  forall attempt m err out m' tr,
    attempt_loop link msg max_attempts remaining attempt m err = (out, m', tr) ->
    forall pre x post,
      tr = pre ++ x :: post -> poor_read x = true ->
      exists post',
        post = EvSleep 30 :: post'
        /\ (post' = [] \/ exists n post'', post' = EvAttempt n max_attempts :: post'').
Proof.
  induction remaining as [|remaining IH]; intros attempt m err out m' tr Hloop
    pre x post Htr Hx.
  { cbn in Hloop. injection Hloop as _ _ <-. destruct pre; discriminate. }
  apply loop_step in Hloop as (r & m1 & rest & Hshape & _ & Hr).
  destruct (shape_poor_read _ _ Hshape) as [Hfree|(front & reply & err1 & -> & -> & Hfree)].
  - assert (Hfree' : forallb (fun e => negb (poor_read e))
                       (EvAttempt (attempt + 1) max_attempts :: rest) = true)
      by (cbn; exact Hfree).
    destruct r as [|err1|err1].
    + destruct Hr as (_ & _ & ->). rewrite Htr in Hfree'.
      apply forallb_at in Hfree'. rewrite Hx in Hfree'. discriminate.
    + destruct Hr as (e2 & Hrest & ->). symmetry in Htr.
      apply (split_past poor_read) in Htr as (pre' & -> & Htr); [|exact Hfree'|exact Hx].
      exact (IH _ _ _ _ _ _ Hrest pre' x post (eq_sym Htr) Hx).
    + destruct Hr as (e2 & Hrest & ->). symmetry in Htr.
      apply (split_past poor_read) in Htr as (pre' & -> & Htr); [|exact Hfree'|exact Hx].
      apply (split_past poor_read) in Htr as (pre'' & -> & Htr);
        [|apply backoff_not_poor_read|exact Hx].
      exact (IH _ _ _ _ _ _ Hrest pre'' x post (eq_sym Htr) Hx).
  - destruct Hr as (e2 & Hrest & ->). symmetry in Htr.
    rewrite app_comm_cons, <- app_assoc in Htr. cbn [app] in Htr.
    apply (split_past poor_read (EvAttempt (attempt + 1) max_attempts :: front)
             (EvSignalRead reply :: EvSleep 30 :: e2))
      in Htr as (pre' & -> & Htr); [|cbn; exact Hfree|exact Hx].
    destruct pre' as [|p pre'']; cbn [app] in Htr; injection Htr as Hhd Htl.
    + exists e2. split; [exact Htl|].
      destruct remaining as [|remaining'].
      * cbn in Hrest. injection Hrest as _ _ <-. left. reflexivity.
      * apply loop_begins in Hrest as (rest2 & ->). right. eauto.
    + destruct pre'' as [|p' pre3]; cbn [app] in Htl; injection Htl as Hhd' Htl.
      * subst x. discriminate.
      * exact (IH _ _ _ _ _ _ Hrest pre3 x post (eq_sym Htl) Hx).
Qed.

End Cooldown.

(** The progressive schedule: 5, 15, 30 minutes, the last entry from the
    third attempt on. *)
Lemma backoff_schedule (attempt : Z) :
  0 <= attempt ->
  Satellite.backoff_minutes attempt
  = if attempt =? 0 then 5 else if attempt =? 1 then 15 else 30.
Proof.
  intros H. unfold Satellite.backoff_minutes. cbn [length Config.RETRY_BACKOFF_MINUTES].
  destruct (attempt =? 0) eqn:E0; [apply Z.eqb_eq in E0; subst; reflexivity|].
  destruct (attempt =? 1) eqn:E1; [apply Z.eqb_eq in E1; subst; reflexivity|].
  apply Z.eqb_neq in E0, E1.
  replace (Z.min attempt (Z.of_nat 3 - 1)) with 2 by lia. reflexivity.
Qed.

(** C5, as the code has it.  In every run of [send_message]: an attempt
    whose send was made and not confirmed (or in which the comparison of
    the signal quality raised) is followed, unless it is the last one, by
    the backoff sleep of the schedule 5, 15, 30 minutes for its attempt
    number, and then by the next attempt; nothing follows in the last
    attempt.  An attempt that reads poor signal is followed by the fixed
    30 s wait and then directly by the next attempt, without the
    backoff. *)
Theorem send_message_pacing :
  forall link m msg max_attempts out m' tr,
    Satellite.send_message link m msg max_attempts = (out, m', tr) ->
    (forall pre x post,
        tr = pre ++ x :: post -> unconfirmed x = true ->
        let n := Z.of_nat (attempts_started pre) in
        if n <? max_attempts
        then exists post',
            post = EvSleep (inject_Z (Satellite.backoff_minutes (n - 1) * 60))
                   :: EvAttempt (n + 1) max_attempts :: post'
        else post = [])
    /\ (forall pre reply post,
        tr = pre ++ EvSignalRead reply :: post -> poor reply = true ->
        exists post',
          post = EvSleep 30 :: post'
          /\ (post' = [] \/ exists n post'', post' = EvAttempt n max_attempts :: post''))
    /\ (forall k, 0 <= k ->
        Satellite.backoff_minutes k = if k =? 0 then 5 else if k =? 1 then 15 else 30).
Proof.
  intros link m msg max_attempts out m' tr Hsend.
  split; [|split; [|apply backoff_schedule]].
  - intros pre x post Htr Hx. unfold Satellite.send_message in Hsend.
    destruct msg as [|c msg'].
    { injection Hsend as _ _ <-. destruct pre; discriminate. }
    destruct (Z.to_nat max_attempts) as [|k] eqn:Hk.
    { cbn in Hsend. injection Hsend as _ _ <-. destruct pre; discriminate. }
    rewrite <- Hk in Hsend.
    exact (loop_pacing link _ max_attempts _ 0 m _ out m' tr Hsend ltac:(lia)
             pre x post Htr Hx).
  - intros pre reply post Htr Hpoor. unfold Satellite.send_message in Hsend.
    destruct msg as [|c msg'].
    { injection Hsend as _ _ <-. destruct pre; discriminate. }
    exact (loop_cooldown link _ max_attempts _ 0 m _ out m' tr Hsend
             pre (EvSignalRead reply) post Htr Hpoor).
Qed.

Lemma send_message_pacing_witness :
  Satellite.send_message failing_link ready_modem wd_message 3
  = ((false, 3, "RockBlock reported send failure"%string),
     {| Satellite.is_initialized := true; Satellite.has_rockblock := true;
        Satellite.n_open := 1; Satellite.n_signal := 4; Satellite.n_send := 3 |},
     [EvAttempt 1 3; EvSignalRead (SqValue 3)]
       ++ EvLinkSend wd_message SendFail
       :: [EvSleep 300; EvAttempt 2 3; EvSignalRead (SqValue 3);
           EvLinkSend wd_message SendFail; EvSleep 900;
           EvAttempt 3 3; EvSignalRead (SqValue 3); EvLinkSend wd_message SendFail])
  /\ unconfirmed (EvLinkSend wd_message SendFail) = true
  /\ exists post',
      [EvSleep 300; EvAttempt 2 3; EvSignalRead (SqValue 3);
       EvLinkSend wd_message SendFail; EvSleep 900;
       EvAttempt 3 3; EvSignalRead (SqValue 3); EvLinkSend wd_message SendFail]
      = EvSleep (inject_Z (Satellite.backoff_minutes (1 - 1) * 60))
        :: EvAttempt (1 + 1) 3 :: post'.
Proof.
  assert (H : Satellite.send_message failing_link ready_modem wd_message 3
              = ((false, 3, "RockBlock reported send failure"%string),
                 {| Satellite.is_initialized := true; Satellite.has_rockblock := true;
                    Satellite.n_open := 1; Satellite.n_signal := 4;
                    Satellite.n_send := 3 |},
                 [EvAttempt 1 3; EvSignalRead (SqValue 3)]
                   ++ EvLinkSend wd_message SendFail
                   :: [EvSleep 300; EvAttempt 2 3; EvSignalRead (SqValue 3);
                       EvLinkSend wd_message SendFail; EvSleep 900;
                       EvAttempt 3 3; EvSignalRead (SqValue 3);
                       EvLinkSend wd_message SendFail]))
    by reflexivity.
  split; [exact H|]. split; [reflexivity|].
  exact (proj1 (send_message_pacing _ _ _ _ _ _ _ H) _ _ _ eq_refl eq_refl).
Defined.

(** C5 as stated fails: with poor signal on every attempt the three
    attempts are separated by the 30 s wait only; the 5 minute backoff
    that is due between the first and the second attempt is not slept. *)
Lemma backoff_skipped_on_poor_signal :
  (Satellite.send_message poor_signal_link ready_modem wd_message 3).2
  = [EvAttempt 1 3; EvSignalRead (SqValue 0); EvSleep 30;
     EvAttempt 2 3; EvSignalRead (SqValue 0); EvSleep 30;
     EvAttempt 3 3; EvSignalRead (SqValue 0); EvSleep 30]
  /\ ~ In (EvSleep (inject_Z (Satellite.backoff_minutes 0 * 60)))
          (Satellite.send_message poor_signal_link ready_modem wd_message 3).2.
Proof.
  split; [reflexivity|].
  vm_compute. intros H.
  repeat (destruct H as [H|H]; [discriminate H|]). exact H.
Qed.

Section Outcome.
Import Satellite.
Variable link : Link.
Variable msg : message.
Variable max_attempts : Z.














End Outcome.

Section Reading.
Import Satellite.
Variable link : Link.






Lemma loop_keeps_initialized msg max_attempts remaining :
  forall attempt m err out m' tr,
    attempt_loop link msg max_attempts remaining attempt m err = (out, m', tr) ->
    is_initialized m = true -> is_initialized m' = true.
Proof.
  induction remaining as [|remaining IH]; intros attempt m err out m' tr Hloop Hm.
  { cbn in Hloop. injection Hloop as _ <- _. exact Hm. }
  apply loop_step in Hloop as (r & m1 & rest & _ & Hkeep & Hr).
  destruct r as [|err1|err1].
  - destruct Hr as (_ & -> & _). auto.
  - destruct Hr as (e2 & Hrest & _). eapply IH; eauto.
  - destruct Hr as (e2 & Hrest & _). eapply IH; eauto.
Qed.



End Reading.



(** The branch about which the pacing theorem is silent: when the link
    cannot be opened, the three attempts follow each other with nothing
    but the 3 s that [initialize] itself sleeps. *)
Example no_pause_after_init_failure :
  Satellite.send_message unopened_link Satellite.fresh wd_message 3
  = ((false, 3, "Failed to initialize RockBlock"%string),
     {| Satellite.is_initialized := false; Satellite.has_rockblock := false;
        Satellite.n_open := 3; Satellite.n_signal := 0; Satellite.n_send := 0 |},
     [EvAttempt 1 3; EvSleepPin false; EvSleep 1; EvSleep 2; EvLinkOpen false;
      EvAttempt 2 3; EvSleepPin false; EvSleep 1; EvSleep 2; EvLinkOpen false;
      EvAttempt 3 3; EvSleepPin false; EvSleep 1; EvSleep 2; EvLinkOpen false]).
Proof. reflexivity. Qed.

(** * The wake budget and the retry loop *)

(** The budget check of the power manager: more than 300 s awake. *)
Lemma should_force_sleep_spec now pm :
  PowerManager.should_force_sleep now pm = true
  <-> (300 < now - PowerManager.wake_start_time pm)%Q.
Proof. unfold PowerManager.should_force_sleep. apply Qltb_lt. Qed.

Section FailingSends.
Import Satellite.
Variable link : Link.
Variable msg : message.
Hypothesis good_signal : forall n, exists q, lk_signal link n = SqValue q /\ 1 <= q.
Hypothesis sends_fail : forall n, lk_send link n = SendFail.

(** One attempt on an initialised modem: banner, reading, failed send. *)
Lemma attempt_send_fails m attempt max_attempts :
  is_initialized m = true ->
  exists q m1,
    attempt_body link m msg attempt max_attempts
    = (FallThrough "RockBlock reported send failure", m1,
       [EvAttempt (attempt + 1) max_attempts; EvSignalRead (SqValue q);
        EvLinkSend msg SendFail])
    /\ is_initialized m1 = true.
Proof.
  intros Hinit.
  unfold attempt_body, signal_then_send, get_signal_quality, read_signal, send_step.
  rewrite Hinit. destruct (good_signal (n_signal m)) as (q & -> & Hq).
  replace (q <? 1) with false by (symmetry; apply Z.ltb_ge; lia).
  cbn [n_send]. rewrite sends_fail. exists q. eexists. split; reflexivity.
Qed.

(** With three attempts the loop sleeps 5 and then 15 minutes. *)
Lemma three_failing_attempts m :
  is_initialized m = true ->
  exists q1 q2 q3 m',
    attempt_loop link msg 3 3 0 m ""%string
    = ((false, 3, "RockBlock reported send failure"%string), m',
       [EvAttempt 1 3; EvSignalRead (SqValue q1); EvLinkSend msg SendFail;
        EvSleep 300;
        EvAttempt 2 3; EvSignalRead (SqValue q2); EvLinkSend msg SendFail]
       ++ EvSleep 900
       :: [EvAttempt 3 3; EvSignalRead (SqValue q3); EvLinkSend msg SendFail]).
Proof.
  intros H0. cbn [attempt_loop].
  destruct (attempt_send_fails m 0 3 H0) as (q1 & m1 & -> & H1).
  destruct (attempt_send_fails m1 (0 + 1) 3 H1) as (q2 & m2 & -> & H2).
  destruct (attempt_send_fails m2 (0 + 1 + 1) 3 H2) as (q3 & m3 & -> & H3).
  exists q1, q2, q3, m3. reflexivity.
Qed.

End FailingSends.

(** C6, as the code has it.  [send_message] does not look at the elapsed
    wake time: with an initialised modem, good signal and a link that
    reports every send as failed, it sleeps 5 minutes and then 15 minutes
    between its three attempts; when the second sleep starts, at least
    300 s have passed since the first attempt, so [should_force_sleep]
    already holds for every wake cycle that began before the call; and
    the result is the ordinary send failure after 3 attempts. *)
Theorem send_message_ignores_wake_budget :
  forall link m msg pm now0,
    Satellite.is_initialized m = true ->
    (forall n, exists q, Satellite.lk_signal link n = SqValue q /\ 1 <= q) ->
    (forall n, Satellite.lk_send link n = SendFail) ->
    msg <> [] ->
    (PowerManager.wake_start_time pm < now0)%Q ->
    exists pre post m',
      Satellite.send_message link m msg Config.MAX_RETRY_ATTEMPTS
      = ((false, 3, "RockBlock reported send failure"%string), m',
         pre ++ EvSleep (inject_Z (Satellite.backoff_minutes 1 * 60)) :: post)
      /\ PowerManager.should_force_sleep (now0 + elapsed pre) pm = true.
Proof.
  intros link m msg pm now0 Hinit Hsig Hsend Hmsg Hawake.
  unfold Satellite.send_message. destruct msg as [|c msg']; [congruence|].
  change (Z.to_nat Config.MAX_RETRY_ATTEMPTS) with 3%nat.
  change Config.MAX_RETRY_ATTEMPTS with 3.
  destruct (three_failing_attempts link (Satellite.fit_message (c :: msg')) Hsig Hsend
              m Hinit) as (q1 & q2 & q3 & m' & ->).
  eexists _, _, m'. split; [reflexivity|].
  apply should_force_sleep_spec. cbn [elapsed fold_right slept]. lra.
Qed.

Lemma send_message_ignores_wake_budget_witness :
  Satellite.is_initialized ready_modem = true
  /\ (forall n, exists q, Satellite.lk_signal failing_link n = SqValue q /\ 1 <= q)
  /\ (forall n, Satellite.lk_send failing_link n = SendFail)
  /\ wd_message <> []
  /\ (PowerManager.wake_start_time awake_since_boot < 1)%Q
  /\ exists pre post m',
      Satellite.send_message failing_link ready_modem wd_message Config.MAX_RETRY_ATTEMPTS
      = ((false, 3, "RockBlock reported send failure"%string), m',
         pre ++ EvSleep (inject_Z (Satellite.backoff_minutes 1 * 60)) :: post)
      /\ PowerManager.should_force_sleep (1 + elapsed pre) awake_since_boot = true.
Proof.
  assert (H1 : Satellite.is_initialized ready_modem = true) by reflexivity.
  assert (H2 : forall n, exists q, Satellite.lk_signal failing_link n = SqValue q /\ 1 <= q)
    by (intros n; exists 3; split; [reflexivity|lia]).
  assert (H3 : forall n, Satellite.lk_send failing_link n = SendFail) by reflexivity.
  assert (H4 : wd_message <> []) by discriminate.
  assert (H5 : (PowerManager.wake_start_time awake_since_boot < 1)%Q) by reflexivity.
  do 5 (split; [assumption|]).
  exact (send_message_ignores_wake_budget failing_link ready_modem wd_message
           awake_since_boot 1%Q H1 H2 H3 H4 H5).
Defined.

(** C6 as stated fails: the wake cycle began at clock reading 0 and the
    send at reading 1; the 15 minute sleep starts at reading 301, with
    the budget of 300 s exceeded, and the loop goes on to a third attempt
    and returns the send failure, not a budget failure. *)
Lemma backoff_sleeps_past_budget :
  Satellite.send_message failing_link ready_modem wd_message 3
  = ((false, 3, "RockBlock reported send failure"%string),
     {| Satellite.is_initialized := true; Satellite.has_rockblock := true;
        Satellite.n_open := 1; Satellite.n_signal := 4; Satellite.n_send := 3 |},
     [EvAttempt 1 3; EvSignalRead (SqValue 3); EvLinkSend wd_message SendFail;
      EvSleep 300;
      EvAttempt 2 3; EvSignalRead (SqValue 3); EvLinkSend wd_message SendFail]
     ++ EvSleep 900
     :: [EvAttempt 3 3; EvSignalRead (SqValue 3); EvLinkSend wd_message SendFail])
  /\ PowerManager.should_force_sleep
       (1 + elapsed [EvAttempt 1 3; EvSignalRead (SqValue 3);
                     EvLinkSend wd_message SendFail; EvSleep 300;
                     EvAttempt 2 3; EvSignalRead (SqValue 3);
                     EvLinkSend wd_message SendFail])
       awake_since_boot = true.
Proof. split; reflexivity. Qed.

(** * The length limit of [send_message] *)

(** An empty message is turned down before the loop. *)
Lemma send_message_empty link m max_attempts :
  Satellite.send_message link m [] max_attempts
  = ((false, 0, "Empty message"%string), m, []).
Proof. reflexivity. Qed.

(** One byte per ASCII character. *)
Lemma encode_ascii_length (s : message) :
  forallb Utf8.is_ascii s = true -> length (Utf8.encode s) = length s.
Proof.
  induction s as [|c s IH]; [reflexivity|].
  cbn [forallb]. intros H. apply andb_true_iff in H as [Hc Hs].
  unfold Utf8.encode in *. cbn [flat_map]. rewrite length_app, (IH Hs).
  unfold Utf8.is_ascii in Hc. apply andb_true_iff in Hc as [_ Hc].
  unfold Utf8.encode_char. rewrite Hc. reflexivity.
Qed.

(** For a message of ASCII characters the check does what C10 says: a
    text longer than 340 is cut to its first 337 characters and the
    marker, 340 bytes in all; a shorter text is passed on as it is. *)
Lemma fit_message_ascii (s : message) :
  forallb Utf8.is_ascii s = true ->
  (340 < length s)%nat ->
  Satellite.fit_message s = take 337 s ++ Satellite.marker
  /\ length (Utf8.encode (Satellite.fit_message s)) = 340%nat.
Proof.
  intros Hascii Hlen. unfold Satellite.fit_message.
  rewrite (encode_ascii_length s Hascii).
  replace (340 <? length s)%nat with true by (symmetry; apply Nat.ltb_lt; lia).
  split; [reflexivity|].
  rewrite encode_ascii_length.
  - rewrite length_app, length_take.
    change (length Satellite.marker) with 3%nat. lia.
  - rewrite forallb_app. apply andb_true_iff. split; [|reflexivity].
    rewrite forallb_forall in Hascii |- *. intros c Hc. apply Hascii.
    apply list_elem_of_In. apply list_elem_of_In in Hc.
    exact (subseteq_take 337 s c Hc).
Qed.

Lemma fit_message_short (s : message) :
  (length (Utf8.encode s) <= 340)%nat -> Satellite.fit_message s = s.
Proof.
  intros H. unfold Satellite.fit_message.
  replace (340 <? length (Utf8.encode s))%nat with false
    by (symmetry; apply Nat.ltb_ge; lia).
  reflexivity.
Qed.

(** C10, evaluated on the code.  A text of 338 two-byte characters
    encodes to 676 bytes; [send_message] cuts it to 337 characters, not
    bytes, and hands 337 characters and the marker, 677 bytes, to the
    link. *)
Theorem multibyte_message_exceeds_limit :
  length (Utf8.encode accented) = 676%nat
  /\ (Satellite.send_message confirming_link ready_modem accented 3).2
     = [EvAttempt 1 3; EvSignalRead (SqValue 3);
        EvLinkSend (replicate 337 233 ++ Satellite.marker) SendOk]
  /\ length (Utf8.encode (replicate 337 233 ++ Satellite.marker)) = 677%nat.
Proof. repeat split; vm_compute; reflexivity. Qed.

(** * The wake cycle: [main] *)

Lemma done_pulses_app tr1 tr2 :
  done_pulses (tr1 ++ tr2) = (done_pulses tr1 + done_pulses tr2)%nat.
Proof. apply filter_length_app. Qed.

Lemma done_pulses_free tr :
  forallb (fun e => negb (is_done_pulse e)) tr = true -> done_pulses tr = 0%nat.
Proof. intros H. unfold done_pulses. rewrite (filter_none _ _ H). reflexivity. Qed.

Lemma blink_silent count duration :
  done_pulses (Main.blink_status_led count duration) = 0%nat.
Proof.
  unfold Main.blink_status_led.
  induction count as [|count IH]; [reflexivity|].
  cbn [replicate concat]. rewrite done_pulses_app, IH. reflexivity.
Qed.

Section SilentModem.
Import Satellite.
Variable link : Link.

Lemma setup_silent S : forallb setup_event S = true -> done_pulses S = 0%nat.
Proof.
  intros H. apply done_pulses_free. revert H. apply forallb_weaken.
  intros []; cbn; congruence.
Qed.

Lemma shape_silent msg r rest : attempt_shape msg r rest -> done_pulses rest = 0%nat.
Proof.
  intros [S H|S H|S reply q H _ _|S q reply H _];
    rewrite ?done_pulses_app, (setup_silent S H); reflexivity.
Qed.

Lemma backoff_silent attempt max_attempts :
  done_pulses (backoff attempt max_attempts) = 0%nat.
Proof. unfold backoff. destruct (_ <? _); reflexivity. Qed.

Lemma loop_silent msg max_attempts remaining :
  forall attempt m err out m' tr,
    attempt_loop link msg max_attempts remaining attempt m err = (out, m', tr) ->
    done_pulses tr = 0%nat.
Proof.
  induction remaining as [|remaining IH]; intros attempt m err out m' tr Hloop.
  { cbn in Hloop. injection Hloop as _ _ <-. reflexivity. }
  apply loop_step in Hloop as (r & m1 & rest & Hshape & _ & Hr).
  apply shape_silent in Hshape.
  assert (Hhead : done_pulses (EvAttempt (attempt + 1) max_attempts :: rest) = 0%nat)
    by exact Hshape.
  destruct r as [|err1|err1].
  - destruct Hr as (_ & _ & ->). exact Hhead.
  - destruct Hr as (e2 & Hrest & ->). apply IH in Hrest.
    rewrite done_pulses_app, Hrest, Hhead. reflexivity.
  - destruct Hr as (e2 & Hrest & ->). apply IH in Hrest.
    rewrite !done_pulses_app, Hrest, backoff_silent, Hhead. reflexivity.
Qed.

Lemma send_message_silent m msg max_attempts :
  done_pulses (send_message link m msg max_attempts).2 = 0%nat.
Proof.
  unfold send_message. destruct msg as [|c msg']; [reflexivity|].
  destruct (attempt_loop _ _ _ _ _ _ _) as [[out m'] tr] eqn:H.
  apply loop_silent in H. exact H.
Qed.

Lemma initialize_silent m : done_pulses (initialize link m).2 = 0%nat.
Proof.
  unfold initialize. destruct (lk_open link (n_open m)); reflexivity.
Qed.

Lemma get_signal_quality_silent m : done_pulses (get_signal_quality link m).2 = 0%nat.
Proof.
  unfold get_signal_quality, initialize, read_signal.
  destruct (is_initialized m); [reflexivity|].
  destruct (lk_open link (n_open m)); [|reflexivity].
  destruct (lk_signal link (n_signal m)); reflexivity.
Qed.

Lemma send_data_reading_silent m formatted :
  done_pulses (send_data_reading link m formatted).2 = 0%nat.
Proof.
  unfold send_data_reading. destruct formatted as [msg|]; [|reflexivity].
  pose proof (send_message_silent m msg Config.MAX_RETRY_ATTEMPTS) as Hs.
  destruct (send_message link m msg Config.MAX_RETRY_ATTEMPTS) as [[[[s a] e] m1] e1].
  pose proof (get_signal_quality_silent m1) as Hq.
  destruct (get_signal_quality link m1) as [[q m2] e2].
  cbn [snd] in *. rewrite done_pulses_app, Hs, Hq. reflexivity.
Qed.

Lemma sleep_silent m : done_pulses (sleep m) = 0%nat.
Proof. unfold sleep. destruct (has_rockblock m); reflexivity. Qed.

End SilentModem.

Lemma battery_read_silent bat pm :
  done_pulses (PowerManager.check_battery_status bat pm).2 = 0%nat.
Proof.
  unfold PowerManager.check_battery_status, PowerManager.read_battery_voltage.
  destruct (PowerManager.bat_present bat); [|reflexivity].
  destruct (PowerManager.bat_volts bat (PowerManager.n_reads pm)); reflexivity.
Qed.

Section Quiet.
Import Main.
Variable env : Env.

Lemma quiet_ret {A} (a : A) : quiet (mret a).
Proof. intros w. exists []. cbn. rewrite app_nil_r. auto. Qed.

Lemma quiet_bind {A B} (m : M A) (k : A -> M B) :
  quiet m -> (forall a, quiet (k a)) -> quiet (m ≫= k).
Proof.
  intros Hm Hk w. unfold mbind, M_bind.
  destruct (Hm w) as (e1 & Ht1 & Hd1 & Hp1).
  destruct (m w) as [[a| |text] w1]; cbn [snd] in *.
  - destruct (Hk a w1) as (e2 & Ht2 & Hd2 & Hp2).
    exists (e1 ++ e2). rewrite Ht2, Ht1, app_assoc, done_pulses_app, Hd1, Hd2, Hp2, Hp1.
    auto.
  - exists e1. auto.
  - exists e1. auto.
Qed.

Lemma quiet_emit evs : done_pulses evs = 0%nat -> quiet (emit evs).
Proof. intros H w. exists evs. cbn. auto. Qed.

Lemma quiet_raise {A} text : quiet (@raise A text).
Proof. intros w. exists []. cbn. rewrite app_nil_r. auto. Qed.

Lemma quiet_update f :
  (forall w, w_trace (f w) = w_trace w /\ given (power_mgr (f w)) = given (power_mgr w)) ->
  quiet (update f).
Proof.
  intros H w. exists []. cbn. rewrite app_nil_r. destruct (H w). auto.
Qed.

Lemma quiet_monotonic : quiet (monotonic env).
Proof. intros w. exists []. cbn. rewrite app_nil_r. auto. Qed.

Lemma quiet_when b m : quiet m -> quiet (when b m).
Proof. intros H. destruct b; [exact H|apply quiet_ret]. Qed.

Lemma quiet_check_battery_status : quiet (check_battery_status env).
Proof.
  intros w. unfold check_battery_status.
  destruct (power_mgr w) as [pm|] eqn:Hpm.
  - pose proof (battery_read_silent (battery env) pm) as Hs.
    destruct (PowerManager.check_battery_status (battery env) pm) as [[status pm1] evs].
    exists evs. split; [reflexivity|]. split; [exact Hs|reflexivity].
  - exists []. cbn. rewrite app_nil_r, Hpm. auto.
Qed.

Lemma quiet_try_read_sensor : quiet (try_read_sensor env).
Proof.
  intros w. unfold try_read_sensor. destruct (sensor w).
  - eexists. cbn. split; [reflexivity|]. auto.
  - exists []. cbn. rewrite app_nil_r. auto.
Qed.

End Quiet.

Create HintDb quiet.

#[local] Hint Resolve quiet_ret quiet_raise quiet_monotonic quiet_check_battery_status
  quiet_try_read_sensor blink_silent sleep_silent initialize_silent
  send_data_reading_silent : quiet.

(** Takes a computation of the cycle apart along its binds and branches. *)
Ltac quiet_auto :=
  repeat first
    [ apply quiet_bind; [|intros]
    | apply quiet_when
    | apply quiet_emit
    | apply quiet_update; intros; split; reflexivity
    | solve [eauto with quiet]
    | match goal with
      | |- quiet (if ?b then _ else _) => destruct b
      | |- quiet (match ?x with _ => _ end) => destruct x
      | |- quiet (let '(_, _) := ?x in _) => destruct x
      | |- done_pulses (if ?b then _ else _) = _ => destruct b
      end
    | reflexivity ].

Section QuietCycle.
Import Main.
Variable env : Env.

Lemma quiet_new_storage_manager : quiet (new_storage_manager env).
Proof. unfold new_storage_manager. quiet_auto. Qed.

Lemma quiet_load_state : quiet (load_state env).
Proof. unfold load_state. quiet_auto. Qed.

Lemma quiet_new_time_manager : quiet (new_time_manager env).
Proof. unfold new_time_manager. quiet_auto. Qed.

Lemma quiet_new_sensor : quiet (new_sensor env).
Proof. unfold new_sensor. quiet_auto. Qed.

Lemma quiet_read_sensor : quiet (read_sensor env).
Proof. unfold read_sensor. quiet_auto. Qed.

Lemma quiet_perform_transmission : quiet (perform_transmission env).
Proof.
  unfold perform_transmission.
  destruct (modem_init_ok env); [|apply quiet_ret].
  apply quiet_bind; [apply quiet_emit; reflexivity|intros _].
  pose proof (initialize_silent (link env) Satellite.fresh) as Hinit.
  destruct (Satellite.initialize (link env) Satellite.fresh) as [[ok m1] e1].
  apply quiet_bind; [apply quiet_emit; exact Hinit|intros _].
  destruct ok; [|quiet_auto].
  apply quiet_bind; [apply quiet_try_read_sensor|intros sensed].
  destruct sensed; [|quiet_auto].
  pose proof (send_data_reading_silent (link env) m1 (formatted env)) as Hsend.
  destruct (Satellite.send_data_reading (link env) m1 (formatted env))
    as [[result m2] e2].
  apply quiet_bind; [apply quiet_emit; exact Hsend|intros _].
  quiet_auto.
Qed.

Lemma quiet_print_system_diagnostics : quiet (print_system_diagnostics env).
Proof.
  intros w. unfold print_system_diagnostics, PowerManager.get_power_diagnostics.
  destruct (power_mgr w) as [pm|] eqn:Hpm.
  - pose proof (battery_read_silent (battery env) pm) as Hs.
    destruct (PowerManager.check_battery_status (battery env) pm) as [[status pm1] evs].
    destruct (quiet_try_read_sensor env (set_power_mgr pm1 (add_events evs w)))
      as (e2 & Ht & Hd & Hp).
    exists (evs ++ e2). cbn [snd] in *. rewrite Ht, Hp, done_pulses_app, Hs, Hd.
    cbn. rewrite app_assoc. auto.
  - destruct (quiet_try_read_sensor env w) as (e2 & Ht & Hd & Hp).
    exists e2. cbn [snd] in *. rewrite Hpm in Hp. auto.
Qed.

Hint Resolve quiet_new_storage_manager quiet_load_state quiet_new_time_manager
  quiet_new_sensor quiet_read_sensor quiet_perform_transmission
  quiet_print_system_diagnostics : quiet.

Lemma quiet_transmit_and_record mounted tx_slot state :
  quiet (transmit_and_record env mounted tx_slot state).
Proof. unfold transmit_and_record. quiet_auto. Qed.

Hint Resolve quiet_transmit_and_record : quiet.

(** After the emergency check the [try] block sends no done signal. *)
Lemma quiet_cycle battery_status : quiet (cycle env battery_status).
Proof. unfold cycle. quiet_auto. Qed.

End QuietCycle.

Section MainTrace.
Import Main.
Variable env : Env.

Lemma cleanup_silent w : done_pulses (cleanup_resources w) = 0%nat.
Proof.
  unfold cleanup_resources.
  destruct (given (power_mgr w)), (given (storage_mgr w)), (given (sensor w));
    reflexivity.
Qed.

(** The [finally] block: some battery reading, cleanup and blinking,
    then the done signal if [power_mgr] was assigned, then 2 s. *)
Lemma on_exit_trace w :
  exists evs,
    w_trace (on_exit env w)
    = w_trace w ++ evs
      ++ (if given (power_mgr w) then PowerManager.signal_done else [])
      ++ [EvSleep 2]
    /\ done_pulses evs = 0%nat.
Proof.
  unfold on_exit, PowerManager.prepare_for_sleep.
  destruct (power_mgr w) as [pm|] eqn:Hpm.
  - pose proof (battery_read_silent (battery env) pm) as Hs.
    destruct (PowerManager.check_battery_status (battery env) pm) as [[status pm1] evs].
    set (w1 := set_power_mgr pm1 (add_events evs w)).
    exists (evs ++ cleanup_resources w1 ++ blink_status_led 2 0.5).
    split.
    + cbn [w_trace add_events set_power_mgr power_mgr given w1].
      rewrite <- !app_assoc. reflexivity.
    + cbn [snd] in Hs.
      rewrite !done_pulses_app, Hs, cleanup_silent, blink_silent. reflexivity.
  - exists (cleanup_resources w ++ blink_status_led 2 0.5).
    split.
    + cbn [w_trace add_events]. rewrite Hpm. cbn [given].
      rewrite <- !app_assoc. reflexivity.
    + rewrite !done_pulses_app, cleanup_silent, blink_silent. reflexivity.
Qed.

(** The [except] block sends no done signal. *)
Lemma on_exception_trace w :
  exists evs,
    w_trace (on_exception w) = w_trace w ++ evs
    /\ done_pulses evs = 0%nat
    /\ power_mgr (on_exception w) = power_mgr w.
Proof.
  unfold on_exception. eexists. split; [reflexivity|]. split; [|reflexivity].
  rewrite done_pulses_app, blink_silent.
  destruct (storage_mgr w) as [[]|]; reflexivity.
Qed.

(** The [try] block up to the emergency check, when [PowerManager()]
    returns: the start-up blink, the done pin driven low, one battery
    reading. *)
Lemma body_prelude :
  power_init_ok env = true ->
  exists w2 pm1,
    body env start
    = match PowerManager.recommend (opening_status env) with
      | PowerManager.emergency_shutdown =>
          (emit (PowerManager.handle_emergency_shutdown false);; return_) w2
      | _ => cycle env (opening_status env) w2
      end
    /\ done_pulses (w_trace w2) = 0%nat
    /\ power_mgr w2 = Some pm1
    /\ storage_mgr w2 = None /\ sensor w2 = None.
Proof.
  intros Hok. unfold body, new_power_manager, opening_status.
  destruct (power_init_ok env); [|discriminate].
  pose proof (battery_read_silent (battery env)
                (PowerManager.create
                   (boot_clock env + elapsed (blink_status_led 3 0.1))%Q).1) as Hs.
  destruct (PowerManager.check_battery_status (battery env)
              (PowerManager.create
                 (boot_clock env + elapsed (blink_status_led 3 0.1))%Q).1)
    as [[status pm1] evs] eqn:Hread.
  exists {| w_trace := blink_status_led 3 0.1 ++ [EvDonePin false] ++ evs;
            power_mgr := Some pm1; storage_mgr := None;
            time_mgr := None; sensor := None |}, pm1.
  split; [|split; [|auto]].
  - unfold mbind, M_bind, emit, update, monotonic, Main.check_battery_status.
    cbn [start add_events set_power_mgr w_trace power_mgr storage_mgr time_mgr sensor
         app PowerManager.create fst snd].
    cbn [PowerManager.create fst] in Hread. rewrite Hread.
    cbn [fst snd].
    destruct (PowerManager.recommend status); reflexivity.
  - cbn [w_trace snd] in *. rewrite !done_pulses_app, blink_silent, Hs. reflexivity.
Qed.

End MainTrace.

Section MainDone.
Import Main.
Variable env : Env.

(** From the end of the [try] block on, with [power_mgr] assigned: one
    done signal, the last thing but the final 2 s. *)
Lemma finish_with_power_mgr (r : outcome unit) w :
  given (power_mgr w) = true ->
  let final :=
    on_exit env match r with Raised _ => on_exception w | _ => w end in
  done_pulses (w_trace final) = S (done_pulses (w_trace w))
  /\ exists pre, w_trace final = pre ++ PowerManager.signal_done ++ [EvSleep 2].
Proof.
  intros Hpm final.
  assert (Hmid : exists evs w1,
             match r with Raised _ => on_exception w | _ => w end = w1
             /\ w_trace w1 = w_trace w ++ evs /\ done_pulses evs = 0%nat
             /\ given (power_mgr w1) = true).
  { destruct r as [[]| |text].
    - exists [], w. rewrite app_nil_r. auto.
    - exists [], w. rewrite app_nil_r. auto.
    - destruct (on_exception_trace w) as (evs & Ht & Hd & Hp).
      exists evs, (on_exception w). rewrite Hp. auto. }
  destruct Hmid as (evs & w1 & Hw1 & Ht1 & Hd1 & Hp1).
  subst final. rewrite Hw1.
  destruct (on_exit_trace env w1) as (evs2 & Ht2 & Hd2).
  rewrite Hp1, Ht1 in Ht2. rewrite Ht2. split.
  - rewrite !done_pulses_app, Hd1, Hd2. cbn. lia.
  - exists ((w_trace w ++ evs) ++ evs2). rewrite <- !app_assoc. reflexivity.
Qed.

Lemma main_without_power_mgr :
  power_init_ok env = false -> done_pulses (main env) = 0%nat.
Proof.
  intros Hok. unfold main, run, body, new_power_manager.
  destruct (power_init_ok env); [discriminate|]. reflexivity.
Qed.

Lemma main_with_power_mgr :
  power_init_ok env = true ->
  done_pulses (main env)
  = match PowerManager.recommend (opening_status env) with
    | PowerManager.emergency_shutdown => 2%nat
    | _ => 1%nat
    end
  /\ exists pre, main env = pre ++ PowerManager.signal_done ++ [EvSleep 2].
Proof.
  intros Hok. unfold main, run.
  destruct (body_prelude env Hok) as (w2 & pm1 & Hbody & Hd2 & Hpm & _).
  rewrite Hbody.
  assert (Hquiet : forall r w3,
             cycle env (opening_status env) w2 = (r, w3) ->
             done_pulses (w_trace w3) = 0%nat /\ given (power_mgr w3) = true).
  { intros r w3 Hc.
    destruct (quiet_cycle env (opening_status env) w2) as (evs & Ht & Hd & Hp).
    rewrite Hc in Ht, Hp. cbn [snd] in Ht, Hp.
    rewrite Ht, Hp, Hpm, done_pulses_app, Hd2, Hd. auto. }
  destruct (PowerManager.recommend (opening_status env)).
  4: { unfold mbind, M_bind, emit, return_.
       pose proof (finish_with_power_mgr Returned
                     (add_events (PowerManager.handle_emergency_shutdown false) w2))
         as Hfin.
       cbn [add_events power_mgr] in Hfin. rewrite Hpm in Hfin.
       specialize (Hfin eq_refl). cbn zeta in Hfin.
       destruct Hfin as (Hcount & Hend). split; [|exact Hend].
       rewrite Hcount. cbn [w_trace add_events].
       rewrite done_pulses_app, Hd2. reflexivity. }
  all: destruct (cycle env (opening_status env) w2) as [r w3] eqn:Hc;
    destruct (Hquiet r w3 eq_refl) as (Hd3 & Hp3);
    destruct (finish_with_power_mgr r w3 Hp3) as (Hcount & Hend);
    (split; [rewrite Hcount, Hd3; reflexivity|exact Hend]).
Qed.

End MainDone.

(** C1, as the code has it.  On every path of [main] on which
    [PowerManager()] returned, the [finally] block sends the done signal
    once, as the last action before the final 2 s, also when the cycle
    body raised; on the emergency-shutdown path
    [handle_emergency_shutdown] has sent it once before, which makes two
    signals if the timer leaves the power on; when [PowerManager()]
    raises, [power_mgr] is [None] and no done signal is sent. *)
Theorem main_done_signal :
  forall env,
    done_pulses (Main.main env)
    = (if Main.power_init_ok env
       then match PowerManager.recommend (opening_status env) with
            | PowerManager.emergency_shutdown => 2
            | _ => 1
            end
       else 0)%nat
    /\ (Main.power_init_ok env = true ->
        exists pre, Main.main env = pre ++ PowerManager.signal_done ++ [EvSleep 2]).
Proof.
  intros env. destruct (Main.power_init_ok env) eqn:Hok.
  - destruct (main_with_power_mgr env Hok) as (Hcount & Hend). auto.
  - split; [apply main_without_power_mgr, Hok|discriminate].
Qed.

(** * The emergency shutdown *)

(** A reading below 3.0 V is also below the low-battery threshold, and
    the decision is the emergency shutdown, whatever the state of the
    power manager. *)
Lemma check_battery_status_emergency bat pm v :
  PowerManager.bat_present bat = true ->
  PowerManager.bat_volts bat (PowerManager.n_reads pm) = Some v ->
  (v < 3.0)%Q ->
  PowerManager.recommend (PowerManager.check_battery_status bat pm).1.1
  = PowerManager.emergency_shutdown.
Proof.
  intros Hpresent Hread Hv.
  unfold PowerManager.check_battery_status, PowerManager.read_battery_voltage.
  rewrite Hpresent, Hread. cbn [fst snd PowerManager.recommend PowerManager.is_low_battery].
  unfold PowerManager.recommendation_for, Config.LOW_BATTERY_THRESHOLD.
  replace (Qltb v 3.2) with true by (symmetry; apply Qltb_lt; lra).
  replace (Qltb v 3.0) with true by (symmetry; apply Qltb_lt; lra).
  reflexivity.
Qed.

(** The whole wake cycle on the emergency path. *)
Lemma main_emergency_trace env v :
  Main.power_init_ok env = true ->
  PowerManager.bat_present (Main.battery env) = true ->
  PowerManager.bat_volts (Main.battery env) 0 = Some v ->
  (v < 3.0)%Q ->
  Main.main env
  = Main.blink_status_led 3 0.1
    ++ [EvDonePin false; EvBatteryRead (Some v)]
    ++ PowerManager.signal_done
    ++ [EvBatteryRead (PowerManager.bat_volts (Main.battery env) 1);
        EvDeinit "power_mgr"]
    ++ Main.blink_status_led 2 0.5
    ++ PowerManager.signal_done ++ [EvSleep 2].
Proof.
  intros Hok Hpresent Hread Hv.
  unfold Main.main, Main.run, Main.body, Main.new_power_manager.
  destruct (Main.power_init_ok env); [|discriminate].
  unfold mbind, Main.M_bind, Main.emit, Main.update, Main.monotonic, Main.return_,
    Main.check_battery_status.
  cbn [Main.start Main.add_events Main.set_power_mgr Main.w_trace Main.power_mgr
       Main.storage_mgr Main.time_mgr Main.sensor app PowerManager.create fst snd].
  pose proof (check_battery_status_emergency (Main.battery env)
                (PowerManager.create
                   (Main.boot_clock env + elapsed (Main.blink_status_led 3 0.1))%Q).1
                v Hpresent Hread Hv) as Hrec.
  unfold PowerManager.check_battery_status, PowerManager.read_battery_voltage in *.
  cbn [PowerManager.create fst PowerManager.n_reads] in *.
  rewrite Hpresent, Hread in *. cbn [fst snd PowerManager.recommend] in *.
  rewrite Hrec.
  unfold Main.on_exit, PowerManager.prepare_for_sleep, PowerManager.check_battery_status,
    PowerManager.read_battery_voltage.
  cbn [Main.add_events Main.set_power_mgr Main.w_trace Main.power_mgr
       Main.storage_mgr Main.time_mgr Main.sensor PowerManager.n_reads].
  rewrite Hpresent.
  destruct (PowerManager.bat_volts (Main.battery env) 1); reflexivity.
Qed.

(** For a battery reading below 3.0 V [check_battery_status] recommends
    the emergency shutdown, and the cycle then does no sensor and no
    transmission work and still ends with the done signal of the
    [finally] block. *)
Theorem emergency_shutdown_below_three_volts :
  (forall bat pm v,
      PowerManager.bat_present bat = true ->
      PowerManager.bat_volts bat (PowerManager.n_reads pm) = Some v ->
      (v < 3.0)%Q ->
      PowerManager.recommend (PowerManager.check_battery_status bat pm).1.1
      = PowerManager.emergency_shutdown)
  /\ (forall env v,
      Main.power_init_ok env = true ->
      PowerManager.bat_present (Main.battery env) = true ->
      PowerManager.bat_volts (Main.battery env) 0 = Some v ->
      (v < 3.0)%Q ->
      forallb (fun e => negb (is_work e)) (Main.main env) = true
      /\ exists pre, Main.main env = pre ++ PowerManager.signal_done ++ [EvSleep 2]).
Proof.
  split; [exact check_battery_status_emergency|].
  intros env v Hok Hpresent Hread Hv.
  rewrite (main_emergency_trace env v Hok Hpresent Hread Hv). split; [reflexivity|].
  eexists. rewrite !app_assoc. reflexivity.
Qed.

Lemma main_done_signal_witness :
  Main.power_init_ok (bench_env 3.9 5 true) = true
  /\ exists pre,
      Main.main (bench_env 3.9 5 true) = pre ++ PowerManager.signal_done ++ [EvSleep 2].
Proof.
  split; [reflexivity|].
  exact (proj2 (main_done_signal (bench_env 3.9 5 true)) eq_refl).
Defined.

(** C1 as stated fails: at 2.9 V the emergency path sends the done
    signal twice, once in [handle_emergency_shutdown] and once in the
    [finally] block; when [PowerManager()] raises it is not sent at all. *)
Lemma done_signal_twice_or_never :
  done_pulses (Main.main (bench_env 2.9 5 true)) = 2%nat
  /\ done_pulses (Main.main (bench_env 3.9 5 false)) = 0%nat.
Proof. split; vm_compute; reflexivity. Qed.

Lemma emergency_shutdown_below_three_volts_witness :
  Main.power_init_ok (bench_env 2.9 5 true) = true
  /\ PowerManager.bat_present (Main.battery (bench_env 2.9 5 true)) = true
  /\ PowerManager.bat_volts (Main.battery (bench_env 2.9 5 true)) 0 = Some 2.9%Q
  /\ (2.9 < 3.0)%Q
  /\ forallb (fun e => negb (is_work e)) (Main.main (bench_env 2.9 5 true)) = true
  /\ exists pre,
      Main.main (bench_env 2.9 5 true) = pre ++ PowerManager.signal_done ++ [EvSleep 2].
Proof.
  assert (H1 : Main.power_init_ok (bench_env 2.9 5 true) = true) by reflexivity.
  assert (H2 : PowerManager.bat_present (Main.battery (bench_env 2.9 5 true)) = true)
    by reflexivity.
  assert (H3 : PowerManager.bat_volts (Main.battery (bench_env 2.9 5 true)) 0
               = Some 2.9%Q) by reflexivity.
  assert (H4 : (2.9 < 3.0)%Q) by reflexivity.
  do 4 (split; [assumption|]).
  exact (proj2 emergency_shutdown_below_three_volts (bench_env 2.9 5 true) 2.9%Q
           H1 H2 H3 H4).
Defined.

(** An exception in the cycle body: the clock does not answer, the error
    is logged, and the [finally] block sends the one done signal. *)
Example main_after_exception :
  Main.main no_clock_env
  = Main.blink_status_led 3 0.1
    ++ [EvDonePin false; EvBatteryRead (Some 3.9%Q); EvSdMount true; EvStateLoad]
    ++ Main.blink_status_led 10 0.1
    ++ [EvLogError "SYSTEM"; EvBatteryRead (Some 3.9%Q);
        EvDeinit "power_mgr"; EvDeinit "storage_mgr"]
    ++ Main.blink_status_led 2 0.5
    ++ PowerManager.signal_done ++ [EvSleep 2]
  /\ done_pulses (Main.main no_clock_env) = 1%nat.
Proof. split; vm_compute; reflexivity. Qed.

(** * The battery reading of an ADC count *)

Section BatteryCounts.
Import PrimFloat.

Lemma zrange_In (x : Z) (n : nat) (start : Z) :
  start <= x < start + Z.of_nat n -> In x (zrange start n).
Proof.
  revert start. induction n as [|n IH]; intros start H; [lia|].
  cbn [zrange]. destruct (Z.eq_dec start x) as [->|Hne]; [left; reflexivity|].
  right. apply IH. lia.
Qed.

(** What is checked on the list of the counts holds of every count. *)
Lemma adc_counts_forall (check : Z -> bool) :
  forallb check adc_counts = true ->
  forall raw_value, 0 <= raw_value <= 65535 -> check raw_value = true.
Proof.
  intros Hall raw_value Hraw. rewrite forallb_forall in Hall. apply Hall.
  apply zrange_In. lia.
Qed.

Lemma readings_agree : forallb reading_agrees adc_counts = true.
Proof. vm_compute. reflexivity. Qed.

(** On the readings of the ADC the rationals do what the floats do: the
    rational handed to the wake cycle is the value of the float that
    [read_battery_voltage] computes, the comparisons with 3.2 and 3.0,
    and with them the decision of [check_battery_status], are the same
    on both, and the gauge over the rationals is the [int()] of the
    float product. *)
Lemma adc_reading_agrees raw_value :
  0 <= raw_value <= 65535 ->
  Binary64.exact (PowerManager64.read_battery_voltage raw_value)
  = Some (adc_volts raw_value)
  /\ Qltb (adc_volts raw_value) 3.0
     = PrimFloat.ltb (PowerManager64.read_battery_voltage raw_value) 3.0%float
  /\ PowerManager.recommendation_for
       (Qltb (adc_volts raw_value) Config.LOW_BATTERY_THRESHOLD)
       (adc_volts raw_value)
     = PowerManager64.recommendation_for
         (PowerManager64.is_low_battery
            (PowerManager64.read_battery_voltage raw_value))
         (PowerManager64.read_battery_voltage raw_value)
  /\ PowerManager64.estimate_battery_percentage
       (PowerManager64.read_battery_voltage raw_value)
     = Some (PowerManager.estimate_battery_percentage (adc_volts raw_value)).
Proof.
  intros Hraw.
  pose proof (adc_counts_forall reading_agrees readings_agree raw_value Hraw) as H.
  unfold reading_agrees in H. unfold adc_volts. cbv zeta in H.
  destruct (Binary64.exact (PowerManager64.read_battery_voltage raw_value))
    as [v|]; [|discriminate].
  cbn [default from_option id].
  destruct (PowerManager64.estimate_battery_percentage
              (PowerManager64.read_battery_voltage raw_value)) as [p|];
    [|rewrite andb_false_r in H; discriminate].
  rewrite !andb_true_iff in H. destruct H as [[[H1 H2] H3] H4].
  apply Bool.eqb_prop in H1, H2, H3. apply Z.eqb_eq in H4. subst p.
  split; [reflexivity|]. split; [exact H2|]. split; [|reflexivity].
  unfold PowerManager.recommendation_for, PowerManager64.recommendation_for.
  rewrite H1, H2, H3. reflexivity.
Qed.

(** No count reads 3.0 V: the reading of count 29788 is the last below
    it, the reading of count 29789 the first above. *)
Lemma three_volts_is_no_reading raw_value :
  0 <= raw_value <= 65535 ->
  PrimFloat.eqb (PowerManager64.read_battery_voltage raw_value) 3.0%float = false
  /\ PrimFloat.ltb (PowerManager64.read_battery_voltage raw_value) 3.0%float
     = (raw_value <=? 29788)
  /\ PrimFloat.ltb 3.0%float (PowerManager64.read_battery_voltage raw_value)
     = (29789 <=? raw_value).
Proof.
  intros Hraw.
  assert (Hall : forallb misses_three_volts adc_counts = true)
    by (vm_compute; reflexivity).
  pose proof (adc_counts_forall misses_three_volts Hall raw_value Hraw) as H.
  unfold misses_three_volts in H. cbv zeta in H.
  rewrite !andb_true_iff in H. destruct H as [[Hne Hlow] Hhigh].
  apply negb_true_iff in Hne. apply Bool.eqb_prop in Hlow, Hhigh. auto.
Qed.

(** The same in the rationals of the battery oracle. *)
Lemma adc_volts_below_three raw_value :
  0 <= raw_value <= 65535 ->
  Qltb (adc_volts raw_value) 3.0 = (raw_value <=? 29788).
Proof.
  intros Hraw.
  destruct (three_volts_is_no_reading raw_value Hraw) as (_ & Hlow & _).
  destruct (adc_reading_agrees raw_value Hraw) as (_ & H2 & _).
  rewrite H2. exact Hlow.
Qed.

(** The wake cycle on the readings of the ADC: up to count 29788 the
    recommendation is the emergency shutdown, and the cycle does no
    sensor and no transmission work and ends with the done signal; from
    count 29789 on the recommendation is another one. *)
Lemma emergency_shutdown_by_count env raw_value :
  Main.power_init_ok env = true ->
  PowerManager.bat_present (Main.battery env) = true ->
  PowerManager.bat_volts (Main.battery env) 0 = Some (adc_volts raw_value) ->
  0 <= raw_value <= 65535 ->
  (raw_value <= 29788 ->
   PowerManager.recommend (opening_status env) = PowerManager.emergency_shutdown
   /\ forallb (fun e => negb (is_work e)) (Main.main env) = true
   /\ exists pre, Main.main env = pre ++ PowerManager.signal_done ++ [EvSleep 2])
  /\ (29789 <= raw_value ->
      PowerManager.recommend (opening_status env) <> PowerManager.emergency_shutdown).
Proof.
  intros Hok Hpresent Hread Hraw.
  pose proof (adc_volts_below_three raw_value Hraw) as Hbelow.
  split; intros Hcount.
  - replace (raw_value <=? 29788) with true in Hbelow
      by (symmetry; apply Z.leb_le; exact Hcount).
    apply Qltb_lt in Hbelow.
    split; [|split].
    + apply check_battery_status_emergency with (v := adc_volts raw_value);
        [exact Hpresent|exact Hread|exact Hbelow].
    + rewrite (main_emergency_trace env _ Hok Hpresent Hread Hbelow). reflexivity.
    + rewrite (main_emergency_trace env _ Hok Hpresent Hread Hbelow).
      eexists. rewrite !app_assoc. reflexivity.
  - replace (raw_value <=? 29788) with false in Hbelow
      by (symmetry; apply Z.leb_gt; lia).
    unfold opening_status, PowerManager.check_battery_status,
      PowerManager.read_battery_voltage.
    rewrite Hpresent. cbn [PowerManager.create fst snd PowerManager.n_reads].
    rewrite Hread. cbn [fst snd PowerManager.recommend PowerManager.is_low_battery].
    unfold PowerManager.recommendation_for. rewrite Hbelow.
    destruct (Qltb (adc_volts raw_value) Config.LOW_BATTERY_THRESHOLD);
      [destruct (Qltb (adc_volts raw_value) 3.2)|]; discriminate.
Qed.

(** The two counts next to 3.0 V on the bench at 07:02: at count 29788
    (2.99994 V) the emergency shutdown, at count 29789 (3.00004 V)
    [conserve_power], and the cycle reads the sensor and logs the
    reading. *)
Example counts_next_to_three_volts :
  PowerManager.recommend (opening_status (bench_env (adc_volts 29788) 7 true))
  = PowerManager.emergency_shutdown
  /\ PowerManager.recommend (opening_status (bench_env (adc_volts 29789) 7 true))
     = PowerManager.conserve_power
  /\ In (EvSensorRead true) (Main.main (bench_env (adc_volts 29789) 7 true))
  /\ In (EvLogReading None) (Main.main (bench_env (adc_volts 29789) 7 true)).
Proof.
  split; [vm_compute; reflexivity|]. split; [vm_compute; reflexivity|].
  vm_compute. split; tauto.
Qed.

(** The gauge cuts where the float product is rounded below an integer:
    at 3.3 V the product is 24.99999999999998 and at 3.9 V it is
    74.99999999999997. *)
Example gauge_truncates :
  PowerManager64.estimate_battery_percentage 3.3%float = Some 24
  /\ PowerManager64.estimate_battery_percentage 3.9%float = Some 74
  /\ PowerManager64.estimate_battery_percentage 0%float = Some 0.
Proof. repeat split; vm_compute; reflexivity. Qed.

End BatteryCounts.

(** * The time oracle: windows, countdown, daylight saving *)

(** X1.  [is_transmission_time] returns either [(True, slot)], where
    [slot] is the first configured time within the tolerance, or
    [(False, None)], and the latter exactly when no configured time is
    within the tolerance: the flag and the slot never disagree. *)
Theorem transmission_time_first_match :
  forall tm tolerance,
    match TimeManager.is_transmission_time tm tolerance with
    | (true, Some slot) =>
        exists before after,
          Config.TRANSMISSION_TIMES = before ++ slot :: after
          /\ TimeManager.minutes_diff tm slot <= tolerance
          /\ Forall (fun t => tolerance < TimeManager.minutes_diff tm t) before
    | (false, None) =>
        Forall (fun t => tolerance < TimeManager.minutes_diff tm t)
               Config.TRANSMISSION_TIMES
    | _ => False
    end.
Proof.
  intros tm tolerance. unfold TimeManager.is_transmission_time.
  induction Config.TRANSMISSION_TIMES as [|target rest IH];
    cbn [TimeManager.first_match].
  - constructor.
  - destruct (TimeManager.minutes_diff tm target <=? tolerance) eqn:Hin.
    + apply Z.leb_le in Hin. exists [], rest. auto.
    + apply Z.leb_gt in Hin.
      destruct (TimeManager.first_match tm tolerance rest) as [[] [slot|]];
        try exact IH.
      * destruct IH as (before & after & -> & Hslot & Hbefore).
        exists (target :: before), after. auto.
      * constructor; assumption.
Qed.

(** X2.  The distance that [is_transmission_time] measures is the one on
    the 24-hour dial: for a clock reading and a target within the day it
    is the smaller of the two ways round, so it never exceeds 12 hours
    and 23:58 is 4 minutes from 00:02. *)
Theorem minutes_diff_circular :
  forall tm target,
    valid_clock tm ->
    0 <= target.1 < 24 -> 0 <= target.2 < 60 ->
    let d := Z.abs (minute_of_day tm - (target.1 * 60 + target.2)) in
    TimeManager.minutes_diff tm target = Z.min d (24 * 60 - d)
    /\ 0 <= TimeManager.minutes_diff tm target <= 12 * 60.
Proof.
  intros tm [th tmin] [Hh Hm] Hth Htm d. cbn [fst snd] in *.
  unfold TimeManager.minutes_diff, minute_of_day in *. cbn [fst snd]. fold d.
  destruct (12 * 60 <? d) eqn:Hd; [apply Z.ltb_lt in Hd|apply Z.ltb_ge in Hd]; lia.
Qed.

Lemma minutes_diff_circular_witness :
  valid_clock {| TimeManager.tm_hour := 23; TimeManager.tm_min := 58 |}
  /\ TimeManager.minutes_diff
       {| TimeManager.tm_hour := 23; TimeManager.tm_min := 58 |} (0, 2) = 4.
Proof.
  assert (H : valid_clock {| TimeManager.tm_hour := 23; TimeManager.tm_min := 58 |})
    by (unfold valid_clock; cbn; lia).
  split; [exact H|].
  exact (proj1 (minutes_diff_circular
                  {| TimeManager.tm_hour := 23; TimeManager.tm_min := 58 |} (0, 2)
                  H ltac:(cbn; lia) ltac:(cbn; lia))).
Defined.

(** X3.  With the configured times 05:00 and 13:00 and the tolerance of
    5 minutes that [main] and the resolver use, a valid clock reading is
    a transmission time exactly from 04:55 to 05:05, for slot 05:00, and
    from 12:55 to 13:05, for slot 13:00. *)
Theorem transmission_windows :
  forall tm,
    valid_clock tm ->
    TimeManager.is_transmission_time tm 5
    = if (295 <=? minute_of_day tm) && (minute_of_day tm <=? 305)
      then (true, Some (5, 0))
      else if (775 <=? minute_of_day tm) && (minute_of_day tm <=? 785)
           then (true, Some (13, 0))
           else (false, None).
Proof.
  intros tm [Hh Hm]. unfold minute_of_day in *.
  unfold TimeManager.is_transmission_time, Config.TRANSMISSION_TIMES.
  cbn [TimeManager.first_match]. unfold TimeManager.minutes_diff. cbn [fst snd].
  repeat match goal with
         | |- context [?a <? ?b] => destruct (Z.ltb_spec a b)
         | |- context [?a <=? ?b] => destruct (Z.leb_spec a b)
         end; cbn [andb]; try reflexivity; lia.
Qed.

Lemma transmission_windows_witness :
  valid_clock five_o_clock
  /\ TimeManager.is_transmission_time five_o_clock 5 = (true, Some (5, 0)).
Proof.
  assert (H : valid_clock five_o_clock) by (unfold valid_clock; cbn; lia).
  split; [exact H|]. exact (transmission_windows five_o_clock H).
Defined.

(** X4.  [minutes_until_next_transmission] counts to the next configured
    time strictly ahead on the dial: for a valid clock reading the result
    is between 1 and 1440, the clock shows a configured time that many
    minutes later, and it shows none at any minute before that.  At a
    configured time itself the count is to the following one, never 0. *)
Theorem next_transmission_countdown :
  forall tm,
    valid_clock tm ->
    let r := TimeManager.minutes_until_next_transmission tm in
    0 < r <= 24 * 60
    /\ (exists slot, slot ∈ Config.TRANSMISSION_TIMES
                     /\ (minute_of_day tm + r) mod (24 * 60) = slot.1 * 60 + slot.2)
    /\ (forall k slot, 0 < k < r -> slot ∈ Config.TRANSMISSION_TIMES ->
                       (minute_of_day tm + k) mod (24 * 60) <> slot.1 * 60 + slot.2).
Proof.
  intros tm [Hh Hm]. unfold minute_of_day.
  unfold TimeManager.minutes_until_next_transmission, TimeManager.next_over,
    Config.TRANSMISSION_TIMES.
  cbn [fold_left TimeManager.min_with]. unfold TimeManager.minutes_until.
  cbn [fst snd].
  set (cur := TimeManager.tm_hour tm * 60 + TimeManager.tm_min tm).
  assert (Hcur : 0 <= cur < 1440) by (unfold cur; lia).
  clearbody cur.
  assert (Hslots : forall slot : Z * Z,
             slot ∈ [(5, 0); (13, 0)] -> slot.1 * 60 + slot.2 = 300
                                         \/ slot.1 * 60 + slot.2 = 780).
  { intros slot Hin. repeat apply elem_of_cons in Hin as [->|Hin]; cbn; try lia.
    apply elem_of_nil in Hin as []. }
  destruct (Z.ltb_spec cur (5 * 60 + 0)), (Z.ltb_spec cur (13 * 60 + 0));
    try lia.
  - repeat split; try lia.
    + exists (5, 0). split; [repeat constructor|]. cbn [fst snd].
      Z.div_mod_to_equations. lia.
    + intros k slot Hk Hin. apply Hslots in Hin.
      Z.div_mod_to_equations. lia.
  - repeat split; try lia.
    + exists (13, 0). split; [repeat constructor|]. cbn [fst snd].
      Z.div_mod_to_equations. lia.
    + intros k slot Hk Hin. apply Hslots in Hin.
      Z.div_mod_to_equations. lia.
  - repeat split; try lia.
    + exists (5, 0). split; [repeat constructor|]. cbn [fst snd].
      Z.div_mod_to_equations. lia.
    + intros k slot Hk Hin. apply Hslots in Hin.
      Z.div_mod_to_equations. lia.
Qed.

Lemma next_transmission_countdown_witness :
  valid_clock five_o_clock
  /\ 0 < TimeManager.minutes_until_next_transmission five_o_clock <= 24 * 60.
Proof.
  assert (H : valid_clock five_o_clock) by (unfold valid_clock; cbn; lia).
  split; [exact H|].
  exact (proj1 (next_transmission_countdown five_o_clock H)).
Defined.

(** X5.  Outside the two change weeks [is_daylight_saving_time] follows
    the calendar rule whatever the day of the week: off from December to
    February, on from April to October, in March off up to the 7th and on
    from the 15th, and in November off from the 7th. *)
Theorem dst_outside_change_weeks :
  forall dt,
    let month := TimeManager.st_mon dt in
    let day := TimeManager.st_mday dt in
    (month < 3 \/ 11 < month -> TimeManager.is_daylight_saving_time dt = false)
    /\ (3 < month < 11 -> TimeManager.is_daylight_saving_time dt = true)
    /\ (month = 3 -> day <= 7 -> TimeManager.is_daylight_saving_time dt = false)
    /\ (month = 3 -> 15 <= day -> TimeManager.is_daylight_saving_time dt = true)
    /\ (month = 11 -> 7 <= day -> TimeManager.is_daylight_saving_time dt = false).
Proof.
  intros dt month day. unfold TimeManager.is_daylight_saving_time.
  fold month day.
  pose proof (Z.mod_pos_bound (TimeManager.st_mday dt - TimeManager.st_wday dt - 1) 7
                ltac:(lia)) as Hw.
  unfold TimeManager.first_day_weekday.
  set (w := (TimeManager.st_mday dt - TimeManager.st_wday dt - 1) mod 7) in *.
  clearbody w month day.
  destruct (Z.eqb_spec w 0);
  repeat apply conj; intros;
    repeat match goal with
           | |- context [?a <? ?b] => destruct (Z.ltb_spec a b)
           | |- context [?a <=? ?b] => destruct (Z.leb_spec a b)
           | |- context [?a =? ?b] => destruct (Z.eqb_spec a b)
           end; cbn [orb andb]; try reflexivity; lia.
Qed.

Lemma dst_outside_change_weeks_witness :
  TimeManager.is_daylight_saving_time
    {| TimeManager.st_year := 2024; TimeManager.st_mon := 3;
       TimeManager.st_mday := 20; TimeManager.st_hour := 0;
       TimeManager.st_min := 0; TimeManager.st_sec := 0;
       TimeManager.st_wday := 2 |} = true.
Proof.
  refine (proj1 (proj2 (proj2 (proj2 (dst_outside_change_weeks _)))) _ _);
    cbn; [reflexivity|lia].
Defined.

(** X6.  Inside the change weeks the day on which
    [is_daylight_saving_time] switches is fixed by the weekday [w] of the
    1st of the month (Monday is 0): in March it is on from day [8 + w],
    in November it is on before day [1 + w].  That day is a Sunday only
    when the month begins on a Thursday; in every other year the switch
    is not on the second Sunday of March or the first Sunday of
    November. *)
Theorem dst_switch_day :
  forall dt,
    let w := weekday_of_first dt in
    (TimeManager.st_mon dt = 3 ->
     TimeManager.is_daylight_saving_time dt = (8 + w <=? TimeManager.st_mday dt))
    /\ (TimeManager.st_mon dt = 11 ->
        TimeManager.is_daylight_saving_time dt = (TimeManager.st_mday dt <? 1 + w))
    /\ (weekday_of_day dt (8 + w) = 6 <-> w = 3)
    /\ (weekday_of_day dt (1 + w) = 6 <-> w = 3).
Proof.
  intros dt w.
  assert (Hw : 0 <= w < 7) by (apply Z.mod_pos_bound; lia).
  assert (Hfdw : TimeManager.first_day_weekday dt = if w =? 0 then 0 else 7 - w).
  { unfold TimeManager.first_day_weekday, w, weekday_of_first.
    destruct (Z.eqb_spec ((TimeManager.st_wday dt - (TimeManager.st_mday dt - 1)) mod 7) 0);
      Z.div_mod_to_equations; lia. }
  unfold TimeManager.is_daylight_saving_time. rewrite Hfdw.
  unfold weekday_of_day. fold w. clearbody w.
  repeat apply conj.
  - intros ->. cbn. destruct (Z.eqb_spec w 0) as [->|Hne]; cbn.
    + reflexivity.
    + destruct (Z.eqb_spec (7 - w) 0); [lia|]. f_equal. lia.
  - intros ->. cbn. destruct (Z.eqb_spec w 0) as [->|Hne]; cbn.
    + reflexivity.
    + destruct (Z.eqb_spec (7 - w) 0); [lia|]. f_equal. lia.
  - Z.div_mod_to_equations. lia.
  - Z.div_mod_to_equations. lia.
  - Z.div_mod_to_equations. lia.
  - Z.div_mod_to_equations. lia.
Qed.

Lemma dst_switch_day_witness :
  weekday_of_first march_12th = 4
  /\ TimeManager.is_daylight_saving_time march_12th = true.
Proof.
  split; [reflexivity|].
  exact (proj1 (dst_switch_day march_12th) eq_refl).
Defined.

(** * The timestamp *)

Lemma string_length_app (s1 s2 : string) :
  String.length (s1 +:+ s2) = (String.length s1 + String.length s2)%nat.
Proof.
  induction s1 as [|c s1 IH]; [reflexivity|].
  change (String c s1 +:+ s2) with (String c (s1 +:+ s2)).
  cbn [String.length]. rewrite IH. reflexivity.
Qed.

Lemma fmt02d_width n : 0 <= n <= 99 -> String.length (fmt02d n) = 2%nat.
Proof.
  intros Hn.
  assert (Hall : forallb (fun n => Nat.eqb (String.length (fmt02d n)) 2)
                         (seqZ 0 100) = true) by (vm_compute; reflexivity).
  rewrite forallb_forall in Hall.
  apply Nat.eqb_eq, Hall, list_elem_of_In, elem_of_seqZ. lia.
Qed.

Lemma fmt04d_width n :
  0 <= n <= 9999 -> String.length (TimeManager.fmt04d n) = 4%nat.
Proof.
  intros Hn.
  assert (Hall : forallb (fun n => Nat.eqb (String.length (TimeManager.fmt04d n)) 4)
                         (seqZ 0 10000) = true) by (vm_compute; reflexivity).
  rewrite forallb_forall in Hall.
  apply Nat.eqb_eq, Hall, list_elem_of_In, elem_of_seqZ. lia.
Qed.

(** X7.  [get_timestamp_string] is fixed-width: for a year of up to four
    digits and two-digit fields it is always 15 characters long, the
    date in the first 8 and the time in the last 6. *)
Theorem timestamp_width :
  forall dt,
    0 <= TimeManager.st_year dt <= 9999 ->
    0 <= TimeManager.st_mon dt <= 99 ->
    0 <= TimeManager.st_mday dt <= 99 ->
    0 <= TimeManager.st_hour dt <= 99 ->
    0 <= TimeManager.st_min dt <= 99 ->
    0 <= TimeManager.st_sec dt <= 99 ->
    String.length (TimeManager.get_timestamp_string dt) = 15%nat.
Proof.
  intros dt Hy Hmo Hd Hh Hmi Hs. unfold TimeManager.get_timestamp_string.
  rewrite !string_length_app, fmt04d_width, !fmt02d_width by assumption.
  reflexivity.
Qed.

Lemma timestamp_width_witness :
  TimeManager.get_timestamp_string march_12th = "20240312_050207"
  /\ String.length (TimeManager.get_timestamp_string march_12th) = 15%nat.
Proof.
  split; [reflexivity|].
  apply (timestamp_width march_12th); cbn; lia.
Defined.

(** * The battery gauge and the power decision *)

Lemma Qle_bool_false (x y : Q) : Qle_bool x y = false <-> (y < x)%Q.
Proof.
  rewrite <- not_true_iff_false, Qle_bool_iff. split; [apply Qnot_le_lt|apply Qlt_not_le].
Qed.

Lemma adc_gauge_step raw_value :
  0 <= raw_value <= 65535 -> gauge_step raw_value = true.
Proof. apply adc_counts_forall. vm_compute. reflexivity. Qed.

Lemma adc_gauge_from (k : nat) :
  forall raw1,
    0 <= raw1 -> raw1 + Z.of_nat k <= 65535 ->
    exists p1 p2,
      adc_percentage raw1 = Some p1
      /\ adc_percentage (raw1 + Z.of_nat k) = Some p2
      /\ 0 <= p1 /\ p1 <= p2 /\ p2 <= 100.
Proof.
  induction k as [|k IH]; intros raw1 H0 Hk.
  - pose proof (adc_gauge_step raw1 ltac:(lia)) as Hs. unfold gauge_step in Hs.
    replace (raw1 + Z.of_nat 0) with raw1 by lia.
    destruct (adc_percentage raw1) as [p|]; [|discriminate].
    destruct (adc_percentage (raw1 + 1)) as [q|]; [|discriminate].
    rewrite !andb_true_iff, !Z.leb_le in Hs.
    exists p, p. repeat split; try reflexivity; lia.
  - destruct (IH raw1 H0 ltac:(lia)) as (p1 & p2 & E1 & E2 & Hp).
    pose proof (adc_gauge_step (raw1 + Z.of_nat k) ltac:(lia)) as Hs.
    unfold gauge_step in Hs. rewrite E2 in Hs.
    replace (raw1 + Z.of_nat (S k)) with (raw1 + Z.of_nat k + 1) by lia.
    destruct (adc_percentage (raw1 + Z.of_nat k + 1)) as [q|]; [|discriminate].
    rewrite !andb_true_iff, !Z.leb_le in Hs.
    exists p1, q. repeat split; try assumption; try reflexivity; lia.
Qed.

(** X8.  The battery gauge on the readings of the ADC, in binary64.  For
    every count that the monitor can return, [_estimate_battery_percentage]
    of the voltage that [read_battery_voltage] computes from it returns
    (its [int()] does not raise) a percentage between 0 and 100, and a
    higher count never gives a lower percentage. *)
Theorem battery_percentage_monotone :
  forall raw1 raw2,
    0 <= raw1 -> raw1 <= raw2 -> raw2 <= 65535 ->
    exists p1 p2,
      PowerManager64.estimate_battery_percentage
        (PowerManager64.read_battery_voltage raw1) = Some p1
      /\ PowerManager64.estimate_battery_percentage
           (PowerManager64.read_battery_voltage raw2) = Some p2
      /\ 0 <= p1 /\ p1 <= p2 /\ p2 <= 100.
Proof.
  intros raw1 raw2 H0 Hle Hmax.
  destruct (adc_gauge_from (Z.to_nat (raw2 - raw1)) raw1 H0 ltac:(lia))
    as (p1 & p2 & E1 & E2 & Hp).
  replace (raw1 + Z.of_nat (Z.to_nat (raw2 - raw1))) with raw2 in E2 by lia.
  exists p1, p2. auto.
Qed.

(** Count 32767 reads 3.29995 V and count 38725 reads 3.89993 V. *)
Lemma battery_percentage_monotone_witness :
  PowerManager64.estimate_battery_percentage
    (PowerManager64.read_battery_voltage 32767) = Some 24
  /\ PowerManager64.estimate_battery_percentage
       (PowerManager64.read_battery_voltage 38725) = Some 74
  /\ exists p1 p2,
      PowerManager64.estimate_battery_percentage
        (PowerManager64.read_battery_voltage 32767) = Some p1
      /\ PowerManager64.estimate_battery_percentage
           (PowerManager64.read_battery_voltage 38725) = Some p2
      /\ 0 <= p1 /\ p1 <= p2 /\ p2 <= 100.
Proof.
  split; [vm_compute; reflexivity|]. split; [vm_compute; reflexivity|].
  apply (battery_percentage_monotone 32767 38725); lia.
Defined.

(** X9.  [check_battery_status] never recommends ["monitor_closely"]:
    the low flag is only ever set together with a voltage under 3.2 V,
    and a reading that fails or a missing monitor reports 0.0 V.  The
    recommendation is emergency shutdown exactly when the flag is set and
    the reported voltage is under 3.0 V, conserve power when it is set
    otherwise, and normal when it is clear. *)
Theorem battery_recommendation_cases :
  forall bat pm,
    let status := (PowerManager.check_battery_status bat pm).1.1 in
    PowerManager.recommend status <> PowerManager.monitor_closely
    /\ PowerManager.recommend status
       = if PowerManager.is_low status
         then if Qltb (PowerManager.voltage status) 3.0
              then PowerManager.emergency_shutdown
              else PowerManager.conserve_power
         else PowerManager.normal.
Proof.
  intros bat pm.
  unfold PowerManager.check_battery_status, PowerManager.read_battery_voltage.
  destruct (PowerManager.bat_present bat);
    [destruct (PowerManager.bat_volts bat (PowerManager.n_reads pm)) as [v|]|];
    cbn [fst snd PowerManager.recommend PowerManager.is_low PowerManager.voltage
         PowerManager.is_low_battery];
    unfold PowerManager.recommendation_for, Config.LOW_BATTERY_THRESHOLD.
  - destruct (Qltb v 3.2) eqn:Hlow; [|split; [discriminate|reflexivity]].
    destruct (Qltb v 3.0); split; (discriminate || reflexivity).
  - destruct (PowerManager.is_low_battery pm); split; (discriminate || reflexivity).
  - destruct (PowerManager.is_low_battery pm); split; (discriminate || reflexivity).
Qed.

(** X10.  On a freshly constructed power manager, as [main] uses it,
    [should_skip_transmission] of [check_battery_status] says skip
    exactly when the battery monitor exists and its reading succeeds with
    less than 3.2 V.  Without a monitor, or when the reading raises, the
    cycle is never skipped and never shut down. *)
Theorem skip_transmission_iff_low_reading :
  forall now bat,
    let pm := (PowerManager.create now).1 in
    let status := (PowerManager.check_battery_status bat pm).1.1 in
    (PowerManager.should_skip_transmission status).1 = true
    <-> PowerManager.bat_present bat = true
        /\ exists v, PowerManager.bat_volts bat 0 = Some v /\ (v < 3.2)%Q.
Proof.
  intros now bat. cbn [PowerManager.create fst].
  unfold PowerManager.should_skip_transmission, PowerManager.check_battery_status,
    PowerManager.read_battery_voltage.
  cbn [PowerManager.n_reads].
  destruct (PowerManager.bat_present bat);
    [destruct (PowerManager.bat_volts bat 0) as [v|]|];
    cbn [fst snd PowerManager.recommend PowerManager.is_low_battery];
    unfold PowerManager.recommendation_for, Config.LOW_BATTERY_THRESHOLD.
  - destruct (Qltb v 3.2) eqn:Hlow.
    + apply Qltb_lt in Hlow.
      destruct (Qltb v 3.0); cbn [fst]; (split; [|reflexivity]);
        intros _; (split; [reflexivity|]); exists v; auto.
    + apply Qltb_ge in Hlow. cbn [fst]. split; [discriminate|].
      intros [_ (v' & [= <-] & Hlt)]. lra.
  - cbn [fst]. split; [discriminate|]. intros [_ (v' & [=] & _)].
  - cbn [fst]. split; [discriminate|]. intros [[=] _].
Qed.

(** * The pending list and the record, composed *)

Section PendingList.
Import StorageManager.

Lemma last_elem_of {A} (l : list A) (a : A) : last l = Some a -> a ∈ l.
Proof.
  induction l as [|x [|y l] IH]; cbn; intros H; [discriminate| |].
  - injection H as ->. left.
  - right. apply IH. exact H.
Qed.

Lemma pending_for_slot_cases st tm now hm :
  pending_for_slot st tm now hm = []
  \/ exists p, pending_for_slot st tm now hm = [p]
               /\ pd_time_slot p = slot_id hm
               /\ well_formed_pending st p.
Proof.
  unfold pending_for_slot.
  destruct (Qltb _ _); [left; reflexivity|].
  destruct (List.filter _ _) as [|a l] eqn:Hrecent.
  - destruct (TimeManager.is_transmission_time tm 5) as [[] ?]; [right|left; reflexivity].
    eexists. split; [reflexivity|]. split; [reflexivity|]. left. auto.
  - right. eexists. split; [reflexivity|]. split; [reflexivity|]. right.
    cbn [pd_retry_count pd_last_attempt pd_time_slot]. split.
    + rewrite <- Hrecent. split; [rewrite Hrecent; cbn; lia|].
      apply filter_length_le.
    + destruct (last (a :: l)) as [b|] eqn:Hlast.
      * exists b. split; [reflexivity|].
        apply last_elem_of in Hlast. rewrite <- Hrecent in Hlast.
        apply list_elem_of_In, filter_In in Hlast as [Hin Hb].
        split; [apply list_elem_of_In; exact Hin|].
        unfold is_recent_failure in Hb.
        apply andb_true_iff in Hb as [Hb _]. apply bool_decide_eq_true in Hb. exact Hb.
      * apply last_None in Hlast. discriminate.
Qed.

Lemma pending_slots_sublist st tm now (targets : list (Z * Z)) :
  sublist (List.map pd_time_slot
             (concat (List.map (pending_for_slot st tm now) targets)))
          (List.map slot_id targets).
Proof.
  induction targets as [|hm rest IH]; cbn [List.map concat]; [constructor|].
  destruct (pending_for_slot_cases st tm now hm) as [->|(p & -> & Hid & _)].
  - cbn [app]. apply sublist_cons. exact IH.
  - cbn [app List.map]. rewrite Hid. apply sublist_skip. exact IH.
Qed.

End PendingList.

(** X11.  The list that [get_pending_transmissions] returns names only
    configured slots, each at most once and in the configured order, so
    it has at most two entries.  An entry is either new, with retry count
    0 and no last attempt, or a retry, whose count is at least 1 and at
    most the number of stored failures and whose last attempt is a stored
    failure of that slot. *)
Theorem pending_list_shape :
  forall st tm now,
    sublist (List.map StorageManager.pd_time_slot
               (StorageManager.get_pending_transmissions st tm now))
            ["05:00"; "13:00"]%string
    /\ (length (StorageManager.get_pending_transmissions st tm now) <= 2)%nat
    /\ Forall (well_formed_pending st)
              (StorageManager.get_pending_transmissions st tm now).
Proof.
  intros st tm now.
  pose proof (pending_slots_sublist st tm now Config.TRANSMISSION_TIMES) as Hsub.
  split; [exact Hsub|]. split.
  - apply sublist_length in Hsub. rewrite length_map in Hsub. exact Hsub.
  - apply Forall_forall. intros p Hp.
    apply pending_elem in Hp as (hm & _ & Hp).
    destruct (pending_for_slot_cases st tm now hm) as [Hnil|(q & Hq & _ & Hwf)].
    + rewrite Hnil in Hp. inversion Hp.
    + rewrite Hq in Hp. apply list_elem_of_singleton in Hp. subst p. exact Hwf.
Qed.

Section RecordThenResolve.
Import StorageManager.

(** Recording a success for one slot changes nothing in the iteration
    of the resolver for another slot. *)
Lemma pending_for_other_slot st t S err tm now hm :
  slot_id hm <> S ->
  pending_for_slot (record_transmission_attempt st t S true err) tm now hm
  = pending_for_slot st tm now hm.
Proof.
  intros Hne. unfold pending_for_slot.
  cbn [record_transmission_attempt set_failed_attempts set_success
       last_successful_transmissions failed_attempts].
  rewrite lookup_insert_ne by congruence.
  replace (List.filter (is_recent_failure now (slot_id hm))
             (List.filter (other_slot S) (failed_attempts st)))
    with (List.filter (is_recent_failure now (slot_id hm)) (failed_attempts st));
    [reflexivity|].
  induction (failed_attempts st) as [|a l IH]; [reflexivity|].
  cbn [List.filter].
  destruct (is_recent_failure now (slot_id hm) a) eqn:Hrecent.
  - assert (Hother : other_slot S a = true).
    { unfold is_recent_failure in Hrecent. apply andb_true_iff in Hrecent as [Hs _].
      apply bool_decide_eq_true in Hs. unfold other_slot.
      rewrite negb_true_iff, bool_decide_eq_false. congruence. }
    rewrite Hother. cbn [List.filter]. rewrite Hrecent, IH. reflexivity.
  - destruct (other_slot S a); [cbn [List.filter]; rewrite Hrecent|]; exact IH.
Qed.

Lemma filter_pending_slot (S : string) (l : list Pending) :
  (forall p, p ∈ l -> pd_time_slot p = S) ->
  List.filter (fun p => negb (bool_decide (pd_time_slot p = S))) l = [].
Proof.
  induction l as [|p l IH]; intros Hall; [reflexivity|].
  cbn [List.filter]. rewrite bool_decide_eq_true_2 by (apply Hall; left).
  cbn [negb]. apply IH. intros q Hq. apply Hall. right. exact Hq.
Qed.

(** A failure that ends the history and is recent is the last recent
    failure. *)
Lemma recent_failures_snoc (P : AttemptRecord -> bool) l r :
  P r = true ->
  List.filter P (cap_history (l ++ [r])) <> []
  /\ last (List.filter P (cap_history (l ++ [r]))) = Some r.
Proof.
  intros Hr. rewrite cap_history_drop.
  rewrite drop_app_le by (rewrite length_app; cbn; lia).
  rewrite List.filter_app. cbn [List.filter]. rewrite Hr.
  split; [intros H; apply app_eq_nil in H as [_ [=]]|apply last_snoc].
Qed.

End RecordThenResolve.

(** X12.  Recording a success for a slot and then asking the resolver:
    the slot is not pending at any clock reading less than 12 hours past
    the recorded one, and the entries of all other slots are what they
    were before the success was recorded. *)
Theorem recorded_success_silences_slot :
  forall st t S err tm now,
    let st' := StorageManager.record_transmission_attempt st t S true err in
    let other := fun p => negb (bool_decide (StorageManager.pd_time_slot p = S)) in
    List.filter other (StorageManager.get_pending_transmissions st' tm now)
    = List.filter other (StorageManager.get_pending_transmissions st tm now)
    /\ ((now - t < 12 * 3600)%Q ->
        List.filter other (StorageManager.get_pending_transmissions st' tm now)
        = StorageManager.get_pending_transmissions st' tm now).
Proof.
  intros st t S err tm now st' other. split.
  - unfold StorageManager.get_pending_transmissions.
    induction Config.TRANSMISSION_TIMES as [|hm rest IH]; [reflexivity|].
    cbn [List.map concat]. rewrite !List.filter_app, IH. f_equal.
    destruct (decide (slot_id hm = S)) as [Heq|Hne].
    + unfold other. rewrite !filter_pending_slot; [reflexivity| |];
        intros p Hp; apply pending_for_slot_id in Hp; congruence.
    + unfold st'. rewrite pending_for_other_slot by exact Hne. reflexivity.
  - intros Hfresh.
    assert (Hskip : forall p,
               p ∈ StorageManager.get_pending_transmissions st' tm now ->
               StorageManager.pd_time_slot p <> S).
    { apply (pending_skips_fresh_success st' tm now S t); [|exact Hfresh].
      cbn. apply lookup_insert_eq. }
    induction (StorageManager.get_pending_transmissions st' tm now) as [|p l IH];
      [reflexivity|].
    cbn [List.filter]. unfold other at 1.
    rewrite bool_decide_eq_false_2 by (apply Hskip; left). cbn [negb].
    f_equal. apply IH. intros q Hq. apply Hskip. right. exact Hq.
Qed.

Lemma recorded_success_silences_slot_witness :
  StorageManager.get_pending_transmissions
    (StorageManager.record_transmission_attempt failed_once 50000 "05:00" true "")
    five_o_clock 50100
  = [ {| StorageManager.pd_time_slot := "13:00";
         StorageManager.pd_retry_count := 0;
         StorageManager.pd_last_attempt := None |} ]
  /\ List.filter
       (fun p => negb (bool_decide (StorageManager.pd_time_slot p = "05:00"%string)))
       (StorageManager.get_pending_transmissions
          (StorageManager.record_transmission_attempt failed_once 50000 "05:00" true "")
          five_o_clock 50100)
     = StorageManager.get_pending_transmissions
         (StorageManager.record_transmission_attempt failed_once 50000 "05:00" true "")
         five_o_clock 50100.
Proof.
  split; [vm_compute; reflexivity|].
  apply (proj2 (recorded_success_silences_slot failed_once 50000 "05:00" ""
                  five_o_clock 50100)).
  reflexivity.
Defined.

(** X13.  Recording a failure for a configured slot and then asking the
    resolver: when the slot passes the freshness check, it is handed out
    as a retry at every clock reading less than 6 hours past the recorded
    one, with a retry count of at least 1 and the failure just recorded
    as its last attempt. *)
Theorem recorded_failure_is_retried :
  forall st t hm err tm now,
    hm ∈ Config.TRANSMISSION_TIMES ->
    (12 * 3600 <= now - default 0%Q
       (StorageManager.last_successful_transmissions st !! slot_id hm))%Q ->
    (now - t < 6 * 3600)%Q ->
    exists p,
      p ∈ StorageManager.get_pending_transmissions
            (StorageManager.record_transmission_attempt st t (slot_id hm) false err)
            tm now
      /\ StorageManager.pd_time_slot p = slot_id hm
      /\ (1 <= StorageManager.pd_retry_count p)%nat
      /\ StorageManager.pd_last_attempt p = Some (failure_record (t, slot_id hm, err)).
Proof.
  intros st t hm err tm now Hhm Hstale Hrecent.
  set (st' := StorageManager.record_transmission_attempt st t (slot_id hm) false err).
  set (r := failure_record (t, slot_id hm, err)).
  assert (Hr : StorageManager.is_recent_failure now (slot_id hm) r = true).
  { apply recent_failure_window; [reflexivity|exact Hrecent]. }
  destruct (recent_failures_snoc (StorageManager.is_recent_failure now (slot_id hm))
              (StorageManager.failed_attempts st) r Hr) as [Hne Hlast].
  pose proof (pending_retry st' tm now hm Hhm Hstale) as Hin.
  cbn zeta in Hin. unfold st' in Hin at 1 2 3.
  rewrite record_failure_history in Hin. fold r in Hin.
  specialize (Hin Hne). rewrite Hlast in Hin.
  eexists. split; [exact Hin|].
  cbn [StorageManager.pd_time_slot StorageManager.pd_retry_count
       StorageManager.pd_last_attempt].
  split; [reflexivity|]. split; [|reflexivity].
  destruct (List.filter _ _); [congruence|cbn; lia].
Qed.

Lemma recorded_failure_is_retried_witness :
  exists p,
    p ∈ StorageManager.get_pending_transmissions
          (StorageManager.record_transmission_attempt
             StorageManager.default_state 50000 (slot_id (5, 0)) false "timeout")
          five_o_clock 50100
    /\ StorageManager.pd_time_slot p = slot_id (5, 0)
    /\ (1 <= StorageManager.pd_retry_count p)%nat
    /\ StorageManager.pd_last_attempt p
       = Some (failure_record (50000%Q, slot_id (5, 0), "timeout"%string)).
Proof.
  apply (recorded_failure_is_retried StorageManager.default_state 50000 (5, 0)
           "timeout" five_o_clock 50100).
  - left.
  - vm_compute. discriminate.
  - reflexivity.
Defined.

(** * How long [send_message] can block *)

Lemma elapsed_app (tr1 tr2 : trace) :
  (elapsed (tr1 ++ tr2) == elapsed tr1 + elapsed tr2)%Q.
Proof.
  induction tr1 as [|e tr1 IH].
  - change (elapsed ([] ++ tr2)) with (elapsed tr2).
    change (elapsed []) with 0%Q. lra.
  - change (elapsed ((e :: tr1) ++ tr2)) with (slept e + elapsed (tr1 ++ tr2))%Q.
    change (elapsed (e :: tr1)) with (slept e + elapsed tr1)%Q.
    rewrite IH. lra.
Qed.

Section BlockingTime.
Import Satellite.
Variable link : Link.
Variable msg : message.

(** Seconds slept by one attempt, by how it ends and whether the modem
    had to be woken. *)
Lemma attempt_body_elapsed m attempt max_attempts r m1 e :
  attempt_body link m msg attempt max_attempts = (r, m1, e) ->
  if is_initialized m
  then is_initialized m1 = true
       /\ (elapsed e == match r with Continue _ => 30 | _ => 0 end)%Q
  else match r with
       | Continue _ =>
           (is_initialized m1 = false /\ (elapsed e == 3)%Q)
           \/ (is_initialized m1 = true /\ (elapsed e == 33)%Q)
       | _ => is_initialized m1 = true /\ (elapsed e == 3)%Q
       end.
Proof.
  unfold attempt_body, signal_then_send, get_signal_quality, initialize,
    read_signal, send_step.
  destruct (is_initialized m) eqn:Hinit.
  - destruct (lk_signal link (n_signal m)) as [q| |];
      [destruct (q <? 1)| |destruct (-1 <? 1) eqn:E; [|discriminate E]];
      try destruct (lk_send link _);
      intros [= <- <- <-]; (split; [reflexivity|]); vm_compute; reflexivity.
  - destruct (lk_open link (n_open m));
      [|intros [= <- <- <-]; left; split; [reflexivity|vm_compute; reflexivity]].
    destruct (lk_signal link (n_signal m)) as [q0| |];
      [|intros [= <- <- <-]; left; split;
        [reflexivity|vm_compute; reflexivity]..].
    cbn [is_initialized n_signal n_send orb].
    destruct (lk_signal link (S (n_signal m))) as [q| |];
      [destruct (q <? 1)| |destruct (-1 <? 1) eqn:E; [|discriminate E]];
      try destruct (lk_send link _);
      intros [= <- <- <-];
      try (right; split; [reflexivity|vm_compute; reflexivity]);
      (split; [reflexivity|vm_compute; reflexivity]).
Qed.

Lemma backoff_elapsed attempt :
  0 <= attempt < 3 ->
  (elapsed (backoff attempt 3)
   == if attempt =? 0 then 300 else if attempt =? 1 then 900 else 0)%Q.
Proof.
  intros H. assert (attempt = 0 \/ attempt = 1 \/ attempt = 2) as [->|[->| ->]] by lia;
    vm_compute; reflexivity.
Qed.

Lemma attempt_loop_elapsed remaining :
  forall attempt m err out m' tr,
    0 <= attempt -> attempt + Z.of_nat remaining = 3 ->
    attempt_loop link msg 3 remaining attempt m err = (out, m', tr) ->
    (elapsed tr <= worst_case attempt (is_initialized m))%Q.
Proof.
  induction remaining as [|remaining IH]; intros attempt m err out m' tr Hlo Hsum.
  - cbn [attempt_loop]. intros [= <- <- <-]. unfold worst_case.
    destruct (is_initialized m);
      replace (attempt <=? 0) with false by lia;
      replace (attempt <=? 1) with false by lia;
      replace (attempt <=? 2) with false by lia; cbn; lra.
  - cbn [attempt_loop].
    destruct (attempt_body link m msg attempt 3) as [[r m1] e1] eqn:Hbody.
    pose proof (attempt_body_elapsed _ _ _ _ _ _ Hbody) as He1.
    pose proof (backoff_elapsed attempt ltac:(lia)) as Hback.
    assert (Hnext : forall err1 out2 m2 e2,
               attempt_loop link msg 3 remaining (attempt + 1) m1 err1 = (out2, m2, e2) ->
               (elapsed e2 <= worst_case (attempt + 1) (is_initialized m1))%Q).
    { intros err1 out2 m2 e2. apply IH; lia. }
    assert (Hcase : attempt = 0 \/ attempt = 1 \/ attempt = 2) by lia.
    destruct r as [|err1|err1].
    + intros [= <- <- <-]. unfold worst_case.
      destruct (is_initialized m); destruct He1 as [_ He1]; rewrite He1;
        destruct Hcase as [->|[->| ->]]; cbn; lra.
    + destruct (attempt_loop link msg 3 remaining (attempt + 1) m1 err1)
        as [[out2 m2] e2] eqn:Hrest.
      intros [= <- <- <-]. apply Hnext in Hrest. rewrite elapsed_app.
      unfold worst_case in *.
      destruct (is_initialized m).
      * destruct He1 as [Hm1 He1]. rewrite Hm1 in Hrest. rewrite He1.
        destruct Hcase as [->|[->| ->]];
          change (0 + 1) with 1 in *; change (1 + 1) with 2 in *;
          change (2 + 1) with 3 in *; cbn [Z.leb Z.eqb Pos.eqb Z.compare Pos.compare Pos.compare_cont] in *; lra.
      * destruct He1 as [[Hm1 He1]|[Hm1 He1]]; rewrite Hm1 in Hrest; rewrite He1;
          destruct Hcase as [->|[->| ->]];
          change (0 + 1) with 1 in *; change (1 + 1) with 2 in *;
          change (2 + 1) with 3 in *; cbn [Z.leb Z.eqb Pos.eqb Z.compare Pos.compare Pos.compare_cont] in *; lra.
    + destruct (attempt_loop link msg 3 remaining (attempt + 1) m1 err1)
        as [[out2 m2] e2] eqn:Hrest.
      intros [= <- <- <-]. apply Hnext in Hrest. rewrite !elapsed_app, Hback.
      unfold worst_case in *.
      destruct (is_initialized m); destruct He1 as [Hm1 He1];
        rewrite Hm1 in Hrest; rewrite He1;
        destruct Hcase as [->|[->| ->]];
          change (0 + 1) with 1 in *; change (1 + 1) with 2 in *;
          change (2 + 1) with 3 in *; cbn [Z.leb Z.eqb Pos.eqb Z.compare Pos.compare Pos.compare_cont] in *; lra.
Qed.

End BlockingTime.

(** X14.  With the default of three attempts [send_message] sleeps at
    most 1233 s in all, 20 minutes and 33 seconds, whatever the modem
    answers: 3 s to wake it, the backoffs of 300 s and 900 s and one
    30 s wait; 1230 s when the modem is already initialised.  The bound
    is reached on a link whose sends fail twice and whose signal then
    fades. *)
Theorem send_message_blocking_time :
  (forall link m msg,
      (elapsed (Satellite.send_message link m msg Config.MAX_RETRY_ATTEMPTS).2
       <= if Satellite.is_initialized m then 1230 else 1233)%Q)
  /\ (elapsed (Satellite.send_message fading_link Satellite.fresh wd_message
                 Config.MAX_RETRY_ATTEMPTS).2 == 1233)%Q.
Proof.
  split; [|vm_compute; reflexivity].
  intros link m msg. unfold Satellite.send_message, Config.MAX_RETRY_ATTEMPTS.
  destruct msg as [|c msg'].
  - cbn. destruct (Satellite.is_initialized m); lra.
  - destruct (Satellite.attempt_loop link (Satellite.fit_message (c :: msg')) 3
                (Z.to_nat 3) 0 m "") as [[out m'] tr] eqn:Hloop.
    apply attempt_loop_elapsed in Hloop; [|lia|reflexivity].
    cbn [snd]. unfold worst_case in Hloop. cbn in Hloop.
    destruct (Satellite.is_initialized m); lra.
Qed.

(** * What is handed to the link *)

Section SentMessages.
Import Satellite.
Variable link : Link.
Variable msg : message.
Variable max_attempts : Z.

Lemma sent_messages_app tr1 tr2 :
  sent_messages (tr1 ++ tr2) = sent_messages tr1 ++ sent_messages tr2.
Proof. apply flat_map_app. Qed.

Lemma setup_sends_nothing S :
  forallb setup_event S = true -> sent_messages S = [].
Proof.
  induction S as [|e S IH]; [reflexivity|]. cbn [forallb].
  intros H. apply andb_true_iff in H as [He HS].
  change (sent_messages (e :: S))
    with (match e with EvLinkSend x _ => [x] | _ => [] end ++ sent_messages S).
  rewrite (IH HS). destruct e; try discriminate He; reflexivity.
Qed.

Lemma shape_sent r rest :
  attempt_shape msg r rest -> Forall (fun x => x = msg) (sent_messages rest).
Proof.
  intros [S H|S H|S reply q H _ _|S q reply H _];
    rewrite ?sent_messages_app, (setup_sends_nothing S H); cbn;
    repeat constructor.
Qed.

Lemma backoff_sends_nothing attempt : sent_messages (backoff attempt max_attempts) = [].
Proof. unfold backoff. destruct (attempt <? max_attempts - 1); reflexivity. Qed.

Lemma loop_sent remaining :
  forall attempt m err out m' tr,
    attempt_loop link msg max_attempts remaining attempt m err = (out, m', tr) ->
    Forall (fun x => x = msg) (sent_messages tr).
Proof.
  induction remaining as [|remaining IH]; intros attempt m err out m' tr Hloop.
  - cbn in Hloop. injection Hloop as _ _ <-. constructor.
  - apply loop_step in Hloop as (r & m1 & rest & Hshape & _ & Hr).
    apply shape_sent in Hshape.
    destruct r as [|err1|err1].
    + destruct Hr as (_ & _ & ->). exact Hshape.
    + destruct Hr as (e2 & Hrest & ->). apply IH in Hrest.
      rewrite sent_messages_app. apply Forall_app. split; assumption.
    + destruct Hr as (e2 & Hrest & ->). apply IH in Hrest.
      rewrite !sent_messages_app, backoff_sends_nothing.
      apply Forall_app. split; assumption.
Qed.

End SentMessages.

(** X15.  Every text that [send_message] hands to the link, in every
    attempt, is the message after the length check.  A message of at most
    340 bytes passes the check unchanged, and for a message of ASCII
    characters what is sent never exceeds 340 bytes. *)
Theorem sent_text_is_checked_message :
  forall link m msg max_attempts,
    Forall (fun x => x = Satellite.fit_message msg)
           (sent_messages (Satellite.send_message link m msg max_attempts).2)
    /\ ((length (Utf8.encode msg) <= 340)%nat -> Satellite.fit_message msg = msg)
    /\ (forallb Utf8.is_ascii msg = true ->
        (length (Utf8.encode (Satellite.fit_message msg)) <= 340)%nat).
Proof.
  intros link m msg max_attempts. split; [|split].
  - unfold Satellite.send_message. destruct msg as [|c msg']; [constructor|].
    destruct (Satellite.attempt_loop link (Satellite.fit_message (c :: msg'))
                max_attempts (Z.to_nat max_attempts) 0 m "") as [[out m'] tr] eqn:Hloop.
    exact (loop_sent link _ max_attempts _ _ _ _ _ _ _ Hloop).
  - apply fit_message_short.
  - intros Hascii. destruct (le_lt_dec (length msg) 340) as [Hle|Hgt].
    + rewrite fit_message_short; rewrite encode_ascii_length by exact Hascii; lia.
    + destruct (fit_message_ascii msg Hascii Hgt) as [_ ->]. lia.
Qed.

Lemma sent_text_is_checked_message_witness :
  sent_messages (Satellite.send_message failing_link ready_modem wd_message 3).2
  = [wd_message; wd_message; wd_message]
  /\ Satellite.fit_message wd_message = wd_message.
Proof.
  split; [reflexivity|].
  apply (proj1 (proj2 (sent_text_is_checked_message failing_link ready_modem
                         wd_message 3))).
  cbn. lia.
Defined.

(** * An initialised modem is not set up again *)

Section NoSetup.
Import Satellite.
Variable link : Link.
Variable msg : message.
Variable max_attempts : Z.

Lemma read_signal_no_setup m q m1 e :
  read_signal link m = (q, m1, e) ->
  is_initialized m1 = is_initialized m
  /\ forallb (fun x => negb (is_link_setup x)) e = true.
Proof. unfold read_signal. intros [= <- <- <-]. split; reflexivity. Qed.

Lemma attempt_body_no_setup m attempt r m1 e :
  is_initialized m = true ->
  attempt_body link m msg attempt max_attempts = (r, m1, e) ->
  is_initialized m1 = true
  /\ forallb (fun x => negb (is_link_setup x)) e = true.
Proof.
  intros Hinit. unfold attempt_body, signal_then_send, get_signal_quality.
  rewrite Hinit.
  destruct (read_signal link m) as [[quality m0] e0] eqn:Hread.
  apply read_signal_no_setup in Hread as [Hm0 He0]. rewrite Hinit in Hm0.
  destruct quality as [q|].
  - destruct (q <? 1).
    + intros [= <- <- <-]. split; [exact Hm0|].
      cbn [app forallb is_link_setup negb andb]. rewrite forallb_app, He0. reflexivity.
    + unfold send_step. intros [= <- <- <-]. split; [exact Hm0|].
      cbn [app forallb is_link_setup negb andb]. rewrite forallb_app, He0. reflexivity.
  - intros [= <- <- <-]. split; [exact Hm0|].
    cbn [app forallb is_link_setup negb andb]. exact He0.
Qed.

Lemma attempt_loop_no_setup remaining :
  forall attempt m err out m' tr,
    is_initialized m = true ->
    attempt_loop link msg max_attempts remaining attempt m err = (out, m', tr) ->
    is_initialized m' = true
    /\ forallb (fun x => negb (is_link_setup x)) tr = true.
Proof.
  induction remaining as [|remaining IH]; intros attempt m err out m' tr Hinit.
  - cbn [attempt_loop]. intros [= <- <- <-]. auto.
  - cbn [attempt_loop].
    destruct (attempt_body link m msg attempt max_attempts) as [[r m1] e1] eqn:Hbody.
    apply (attempt_body_no_setup _ _ _ _ _ Hinit) in Hbody as [Hm1 He1].
    destruct r as [|err1|err1].
    + intros [= <- <- <-]. auto.
    + destruct (attempt_loop link msg max_attempts remaining (attempt + 1) m1 err1)
        as [[out2 m2] e2] eqn:Hrest.
      apply (IH _ _ _ _ _ _ Hm1) in Hrest as [Hm2 He2].
      intros [= <- <- <-]. rewrite forallb_app, He1, He2. auto.
    + destruct (attempt_loop link msg max_attempts remaining (attempt + 1) m1 err1)
        as [[out2 m2] e2] eqn:Hrest.
      apply (IH _ _ _ _ _ _ Hm1) in Hrest as [Hm2 He2].
      intros [= <- <- <-]. rewrite !forallb_app, He1, He2.
      unfold backoff. destruct (attempt <? max_attempts - 1); auto.
Qed.

End NoSetup.

(** X16.  Once the modem is initialised, [send_data_reading] (and with
    it [send_message] and [get_signal_quality]) never wakes it or opens
    and tests the link again, in any attempt and whatever the link
    answers, and the modem is still initialised afterwards. *)
Theorem initialized_modem_not_set_up_again :
  forall link m formatted,
    Satellite.is_initialized m = true ->
    Satellite.is_initialized (Satellite.send_data_reading link m formatted).1.2 = true
    /\ forallb (fun x => negb (is_link_setup x))
               (Satellite.send_data_reading link m formatted).2 = true.
Proof.
  intros link m formatted Hinit. unfold Satellite.send_data_reading.
  destruct formatted as [msg|]; [|cbn; auto].
  destruct (Satellite.send_message link m msg Config.MAX_RETRY_ATTEMPTS)
    as [[[[success attempts] error] m1] e1] eqn:Hsend.
  assert (Hm1 : Satellite.is_initialized m1 = true
                /\ forallb (fun x => negb (is_link_setup x)) e1 = true).
  { unfold Satellite.send_message in Hsend. destruct msg as [|c msg'].
    - injection Hsend as _ _ _ <- <-. auto.
    - exact (attempt_loop_no_setup link _ _ _ _ _ _ _ _ _ Hinit Hsend). }
  destruct Hm1 as [Hm1 He1].
  unfold Satellite.get_signal_quality. rewrite Hm1.
  destruct (Satellite.read_signal link m1) as [[quality m2] e2] eqn:Hread.
  apply read_signal_no_setup in Hread as [Hm2 He2].
  cbn [fst snd]. rewrite forallb_app, He1, He2, Hm2. auto.
Qed.

Lemma initialized_modem_not_set_up_again_witness :
  Satellite.is_initialized ready_modem = true
  /\ forallb (fun x => negb (is_link_setup x))
             (Satellite.send_data_reading failing_link ready_modem
                (Some wd_message)).2 = true.
Proof.
  split; [reflexivity|].
  exact (proj2 (initialized_modem_not_set_up_again failing_link ready_modem
                  (Some wd_message) eq_refl)).
Defined.

(** * Judgements on the wake cycle *)

Section Keeps.
Import Main.
Variable I : World -> Prop.
Variable T : trace -> Prop.
Hypothesis law : trace_law I T.
Variable env : Env.

Lemma T_app a b : T a -> T b -> T (a ++ b).
Proof. apply law. Qed.

Lemma T_routine tr : forallb is_routine tr = true -> T tr.
Proof. apply law. Qed.

Lemma I_storage w w' : storage_mgr w' = storage_mgr w -> I w -> I w'.
Proof. apply law. Qed.

Hint Resolve T_app T_routine : core.

Lemma law_nil : T [].
Proof. apply T_routine. reflexivity. Qed.

Lemma keeps_ret {A} (Q : A -> Prop) (a : A) : Q a -> keeps I T Q (mret a).
Proof.
  intros Ha w Hw. exists []. cbn. rewrite app_nil_r.
  split; [reflexivity|]. split; [apply law_nil|]. split; [exact Hw|].
  intros a' [= <-]. exact Ha.
Qed.

Lemma keeps_bind {A B} (Q : A -> Prop) (R : B -> Prop) (m : M A) (k : A -> M B) :
  keeps I T Q m -> (forall a, Q a -> keeps I T R (k a)) -> keeps I T R (m ≫= k).
Proof.
  intros Hm Hk w Hw. unfold mbind, M_bind.
  destruct (Hm w Hw) as (e1 & Ht1 & HT1 & HI1 & HQ1).
  destruct (m w) as [[a| |text] w1]; cbn [fst snd] in *.
  - destruct (Hk a (HQ1 a eq_refl) w1 HI1) as (e2 & Ht2 & HT2 & HI2 & HQ2).
    exists (e1 ++ e2). rewrite Ht2, Ht1, app_assoc. auto.
  - exists e1. repeat split; auto. intros b [=].
  - exists e1. repeat split; auto. intros b [=].
Qed.

Lemma keeps_post {A} (Q R : A -> Prop) (m : M A) :
  (forall a, Q a -> R a) -> keeps I T Q m -> keeps I T R m.
Proof.
  intros HQR Hm w Hw. destruct (Hm w Hw) as (evs & Ht & HT & HI & HQ).
  exists evs. repeat split; auto.
Qed.

Lemma keeps_emit evs : T evs -> keeps I T (fun _ => True) (emit evs).
Proof.
  intros HT w Hw. exists evs. cbn. repeat split; auto.
  apply (I_storage w); [reflexivity|exact Hw].
Qed.

Lemma keeps_raise {A} (Q : A -> Prop) text : keeps I T Q (raise text).
Proof.
  intros w Hw. exists []. cbn. rewrite app_nil_r.
  repeat split; auto using law_nil. intros a [=].
Qed.

Lemma keeps_return {A} (Q : A -> Prop) : keeps I T Q return_.
Proof.
  intros w Hw. exists []. cbn. rewrite app_nil_r.
  repeat split; auto using law_nil. intros a [=].
Qed.

Lemma keeps_update f :
  (forall w, w_trace (f w) = w_trace w /\ storage_mgr (f w) = storage_mgr w) ->
  keeps I T (fun _ => True) (update f).
Proof.
  intros Hf w Hw. exists []. cbn. rewrite app_nil_r. destruct (Hf w) as [Ht Hs].
  repeat split; auto using law_nil. apply (I_storage w); assumption.
Qed.

Lemma keeps_monotonic : keeps I T (fun _ => True) (monotonic env).
Proof.
  intros w Hw. exists []. cbn. rewrite app_nil_r. repeat split; auto using law_nil.
Qed.

Lemma keeps_when b m :
  keeps I T (fun _ => True) m -> keeps I T (fun _ : unit => True) (when b m).
Proof. intros H. destruct b; [exact H|apply keeps_ret; exact Logic.I]. Qed.

Lemma battery_read_routine bat pm :
  forallb is_routine (PowerManager.check_battery_status bat pm).2 = true.
Proof.
  unfold PowerManager.check_battery_status, PowerManager.read_battery_voltage.
  destruct (PowerManager.bat_present bat); [|reflexivity].
  destruct (PowerManager.bat_volts bat (PowerManager.n_reads pm)); reflexivity.
Qed.

Lemma blink_routine count duration :
  forallb is_routine (blink_status_led count duration) = true.
Proof.
  unfold blink_status_led. induction count as [|count IH]; [reflexivity|].
  cbn [replicate concat]. rewrite forallb_app, IH. reflexivity.
Qed.

Lemma keeps_new_power_manager : keeps I T (fun _ => True) (new_power_manager env).
Proof.
  unfold new_power_manager. destruct (power_init_ok env); [|apply keeps_raise].
  eapply keeps_bind; [apply keeps_monotonic|intros now _].
  cbn [PowerManager.create].
  eapply keeps_bind; [apply keeps_emit, T_routine; reflexivity|intros _ _].
  apply keeps_update. intros w. split; reflexivity.
Qed.

Lemma keeps_check_battery_status :
  keeps I T (fun _ => True) (Main.check_battery_status env).
Proof.
  intros w Hw. unfold Main.check_battery_status.
  destruct (power_mgr w) as [pm|].
  - pose proof (battery_read_routine (battery env) pm) as Hr.
    destruct (PowerManager.check_battery_status (battery env) pm) as [[status pm1] evs].
    exists evs. cbn [fst snd] in *. repeat split; auto.
    apply (I_storage w); [reflexivity|exact Hw].
  - exists []. cbn. rewrite app_nil_r. repeat split; auto using law_nil.
Qed.

Lemma keeps_new_time_manager : keeps I T (fun _ => True) (new_time_manager env).
Proof.
  unfold new_time_manager. destruct (rtc env) as [tm|]; [|apply keeps_raise].
  eapply keeps_bind; [|intros _ _; apply keeps_ret; exact Logic.I].
  apply keeps_update. intros w. split; reflexivity.
Qed.

Lemma keeps_new_sensor : keeps I T (fun _ => True) (new_sensor env).
Proof.
  unfold new_sensor. destruct (sensor_init_ok env); [|apply keeps_raise].
  apply keeps_update. intros w. split; reflexivity.
Qed.

Lemma keeps_try_read_sensor : keeps I T (fun _ => True) (try_read_sensor env).
Proof.
  intros w Hw. unfold try_read_sensor. destruct (sensor w) as [n|].
  - exists [EvSensorRead (sensor_read_ok env n)]. cbn. repeat split; auto.
    apply (I_storage w); [reflexivity|exact Hw].
  - exists []. cbn. rewrite app_nil_r. repeat split; auto using law_nil.
Qed.

Lemma keeps_read_sensor : keeps I T (fun _ => True) (read_sensor env).
Proof.
  unfold read_sensor.
  eapply keeps_bind; [apply keeps_try_read_sensor|intros ok _].
  destruct ok; [apply keeps_ret; exact Logic.I|apply keeps_raise].
Qed.

Lemma keeps_print_system_diagnostics :
  keeps I T (fun _ => True) (print_system_diagnostics env).
Proof.
  intros w Hw. unfold print_system_diagnostics, PowerManager.get_power_diagnostics.
  assert (Hw1 : exists evs w1,
             match power_mgr w with
             | Some pm =>
                 let '(pm1, evs) :=
                   let '(_, pm1, evs) :=
                     PowerManager.check_battery_status (battery env) pm in (pm1, evs) in
                 set_power_mgr pm1 (add_events evs w)
             | None => w
             end = w1
             /\ w_trace w1 = w_trace w ++ evs /\ T evs /\ I w1).
  { destruct (power_mgr w) as [pm|].
    - pose proof (battery_read_routine (battery env) pm) as Hr.
      destruct (PowerManager.check_battery_status (battery env) pm)
        as [[status pm1] evs].
      exists evs, (set_power_mgr pm1 (add_events evs w)). cbn [snd] in Hr.
      repeat split; auto. apply (I_storage w); [reflexivity|exact Hw].
    - exists [], w. rewrite app_nil_r. repeat split; auto using law_nil. }
  destruct Hw1 as (e1 & w1 & -> & Ht1 & HT1 & HI1).
  destruct (keeps_try_read_sensor w1 HI1) as (e2 & Ht2 & HT2 & HI2 & _).
  exists (e1 ++ e2). cbn [fst snd]. rewrite Ht2, Ht1, app_assoc. repeat split; auto.
Qed.

(** The [finally] block, and the [except] block when it writes nothing
    that [T] forbids. *)
Lemma on_exit_keeps :
  keeps I T (fun _ => True) (update (on_exit env)).
Proof.
  intros w Hw. unfold update, on_exit, PowerManager.prepare_for_sleep. cbn [fst snd].
  assert (Hw1 : exists evs w1,
             match power_mgr w with
             | Some pm =>
                 let '(pm1, evs) :=
                   let '(_, pm1, evs) :=
                     PowerManager.check_battery_status (battery env) pm in (pm1, evs) in
                 set_power_mgr pm1 (add_events evs w)
             | None => w
             end = w1
             /\ w_trace w1 = w_trace w ++ evs /\ T evs /\ I w1).
  { destruct (power_mgr w) as [pm|].
    - pose proof (battery_read_routine (battery env) pm) as Hr.
      destruct (PowerManager.check_battery_status (battery env) pm)
        as [[status pm1] evs].
      exists evs, (set_power_mgr pm1 (add_events evs w)). cbn [snd] in Hr.
      repeat split; auto. apply (I_storage w); [reflexivity|exact Hw].
    - exists [], w. rewrite app_nil_r. repeat split; auto using law_nil. }
  destruct Hw1 as (e1 & w1 & -> & Ht1 & HT1 & HI1).
  eexists. cbn [w_trace add_events]. rewrite Ht1, <- app_assoc.
  split; [reflexivity|]. split; [|split; [|auto]].
  - apply T_app; [exact HT1|]. apply T_routine.
    rewrite !forallb_app, blink_routine. unfold cleanup_resources.
    destruct (given (power_mgr w1)), (given (storage_mgr w1)), (given (sensor w1));
      reflexivity.
  - apply (I_storage w1); [reflexivity|exact HI1].
Qed.

Lemma on_exception_keeps :
  (forall w, I w -> storage_mgr w = Some true -> T [EvLogError "SYSTEM"]) ->
  keeps I T (fun _ => True) (update on_exception).
Proof.
  intros Hlog w Hw. unfold update, on_exception. cbn [fst snd].
  eexists. cbn [w_trace add_events]. split; [reflexivity|].
  split; [|split; [|auto]].
  - apply T_app; [apply T_routine, blink_routine|].
    destruct (storage_mgr w) as [[]|] eqn:Hs; [|apply law_nil..].
    apply (Hlog w Hw Hs).
  - apply (I_storage w); [reflexivity|exact Hw].
Qed.

(** The [try] block up to the emergency check, when [PowerManager()]
    returns, with the events so far. *)
Lemma body_prelude_trace :
  power_init_ok env = true ->
  exists evs pm1,
    forallb is_routine evs = true
    /\ body env start
       = match PowerManager.recommend (opening_status env) with
         | PowerManager.emergency_shutdown =>
             (emit (PowerManager.handle_emergency_shutdown false);; return_)
         | _ => cycle env (opening_status env)
         end {| w_trace := evs; power_mgr := Some pm1; storage_mgr := None;
                time_mgr := None; sensor := None |}.
Proof.
  intros Hok. unfold body, new_power_manager, opening_status.
  destruct (power_init_ok env); [|discriminate].
  pose proof (battery_read_routine (battery env)
                (PowerManager.create
                   (boot_clock env + elapsed (blink_status_led 3 0.1))%Q).1) as Hr.
  destruct (PowerManager.check_battery_status (battery env)
              (PowerManager.create
                 (boot_clock env + elapsed (blink_status_led 3 0.1))%Q).1)
    as [[status pm1] evs] eqn:Hread.
  exists (blink_status_led 3 0.1 ++ [EvDonePin false] ++ evs), pm1.
  split.
  - cbn [snd] in Hr. rewrite !forallb_app, blink_routine, Hr. reflexivity.
  - unfold mbind, M_bind, emit, update, monotonic, Main.check_battery_status.
    cbn [start add_events set_power_mgr w_trace power_mgr storage_mgr time_mgr sensor
         app PowerManager.create fst snd].
    cbn [PowerManager.create fst] in Hread. rewrite Hread.
    cbn [fst snd].
    destruct (PowerManager.recommend status); reflexivity.
Qed.

(** The [try] block from the judgement on the cycle for the battery
    status read first. *)
Lemma body_keeps :
  (PowerManager.recommend (opening_status env) <> PowerManager.emergency_shutdown ->
   keeps I T (fun _ => True) (cycle env (opening_status env))) ->
  I start ->
  exists evs, w_trace (body env start).2 = evs /\ T evs /\ I (body env start).2.
Proof.
  intros Hcycle Hstart.
  destruct (power_init_ok env) eqn:Hok.
  - destruct (body_prelude_trace Hok) as (evs & pm1 & Hr & ->).
    set (w2 := {| w_trace := evs; power_mgr := Some pm1; storage_mgr := None;
                  time_mgr := None; sensor := None |}).
    assert (HI2 : I w2) by (apply (I_storage start); [reflexivity|exact Hstart]).
    destruct (PowerManager.recommend (opening_status env)) eqn:Hrec.
    4: { eexists. split; [reflexivity|]. cbn. split.
         - apply T_app; [apply T_routine, Hr|]. apply T_routine. reflexivity.
         - apply (I_storage w2); [reflexivity|exact HI2]. }
    all: destruct (Hcycle ltac:(discriminate) w2 HI2) as (e3 & Ht3 & HT3 & HI3 & _);
      eexists; (split; [reflexivity|]); rewrite Ht3;
      (split; [apply T_app; [apply T_routine, Hr|exact HT3]|exact HI3]).
  - unfold body, new_power_manager. rewrite Hok. eexists. cbn.
    split; [reflexivity|]. split.
    + apply T_routine. reflexivity.
    + apply (I_storage start); [reflexivity|exact Hstart].
Qed.

(** [main] from its three blocks. *)
Lemma main_keeps :
  I start ->
  (PowerManager.recommend (opening_status env) <> PowerManager.emergency_shutdown ->
   keeps I T (fun _ => True) (cycle env (opening_status env))) ->
  (forall w, I w -> storage_mgr w = Some true -> T [EvLogError "SYSTEM"]) ->
  T (main env).
Proof.
  intros Hstart Hcycle Hlog. unfold main, run.
  destruct (body_keeps Hcycle Hstart) as (e1 & Ht1 & HT1 & HI1).
  destruct (body env start) as [r w1]. cbn [fst snd] in *.
  assert (Hmid : exists e2 w2,
             match r with Raised _ => on_exception w1 | _ => w1 end = w2
             /\ w_trace w2 = w_trace w1 ++ e2 /\ T e2 /\ I w2).
  { destruct r as [[]| |text].
    - exists [], w1. rewrite app_nil_r. auto using law_nil.
    - exists [], w1. rewrite app_nil_r. auto using law_nil.
    - destruct (on_exception_keeps Hlog w1 HI1) as (e2 & Ht2 & HT2 & HI2 & _).
      exists e2, (on_exception w1). auto. }
  destruct Hmid as (e2 & w2 & -> & Ht2 & HT2 & HI2).
  destruct (on_exit_keeps w2 HI2) as (e3 & Ht3 & HT3 & _).
  cbn [update fst snd] in Ht3. rewrite Ht3, Ht2, Ht1. auto.
Qed.

End Keeps.

(** * What the modem's methods emit *)

Section SatelliteEvents.
Import Satellite.
Variable link : Link.

Lemma initialize_events m : forallb satellite_event (initialize link m).2 = true.
Proof.
  unfold initialize. destruct (lk_open link (n_open m)); reflexivity.
Qed.

Lemma get_signal_quality_events m :
  forallb satellite_event (get_signal_quality link m).2 = true.
Proof.
  unfold get_signal_quality, initialize, read_signal.
  destruct (is_initialized m); [reflexivity|].
  destruct (lk_open link (n_open m)); [|reflexivity].
  destruct (lk_signal link (n_signal m)); reflexivity.
Qed.

Lemma shape_events msg r rest :
  attempt_shape msg r rest -> forallb satellite_event rest = true.
Proof.
  assert (Hsetup : forall S, forallb setup_event S = true ->
                             forallb satellite_event S = true).
  { intros S. apply forallb_weaken. intros []; cbn; congruence. }
  intros [S H|S H|S reply q H _ _|S q reply H _];
    rewrite ?forallb_app, (Hsetup S H); reflexivity.
Qed.

Lemma loop_events msg max_attempts remaining :
  forall attempt m err out m' tr,
    attempt_loop link msg max_attempts remaining attempt m err = (out, m', tr) ->
    forallb satellite_event tr = true.
Proof.
  induction remaining as [|remaining IH]; intros attempt m err out m' tr Hloop.
  { cbn in Hloop. injection Hloop as _ _ <-. reflexivity. }
  apply loop_step in Hloop as (r & m1 & rest & Hshape & _ & Hr).
  apply shape_events in Hshape.
  destruct r as [|err1|err1].
  - destruct Hr as (_ & _ & ->). exact Hshape.
  - destruct Hr as (e2 & Hrest & ->). apply IH in Hrest.
    rewrite forallb_app, Hrest. cbn [forallb]. rewrite Hshape. reflexivity.
  - destruct Hr as (e2 & Hrest & ->). apply IH in Hrest.
    rewrite !forallb_app, Hrest. cbn [forallb]. rewrite Hshape.
    unfold backoff. destruct (attempt <? max_attempts - 1); reflexivity.
Qed.

Lemma send_data_reading_events m formatted :
  forallb satellite_event (send_data_reading link m formatted).2 = true.
Proof.
  unfold send_data_reading. destruct formatted as [msg|]; [|reflexivity].
  destruct (send_message link m msg Config.MAX_RETRY_ATTEMPTS)
    as [[[[s a] e] m1] e1] eqn:Hsend.
  assert (He1 : forallb satellite_event e1 = true).
  { unfold send_message in Hsend. destruct msg as [|c msg'].
    - injection Hsend as _ _ _ _ <-. reflexivity.
    - exact (loop_events _ _ _ _ _ _ _ _ _ Hsend). }
  pose proof (get_signal_quality_events m1) as Hq.
  destruct (get_signal_quality link m1) as [[q m2] e2].
  cbn [snd] in *. rewrite forallb_app, He1, Hq. reflexivity.
Qed.

Lemma sleep_events m : forallb satellite_event (sleep m) = true.
Proof. unfold sleep. destruct (has_rockblock m); reflexivity. Qed.

End SatelliteEvents.

Section Cycle.
Import Main.
Variable I : World -> Prop.
Variable T : trace -> Prop.
Hypothesis law : trace_law I T.
Variable env : Env.
Variable status : PowerManager.BatteryStatus.
Variable Keep : StorageManager.State -> Prop.

(** The state the cycle starts from when the card is mounted. *)
#[local] Abbreviation loaded :=
  (default StorageManager.default_state (stored_state env)).

Hypothesis I_mount : forall w, I w -> I (set_storage_mgr (sd_mounts env) w).
Hypothesis T_transmission :
  (PowerManager.should_skip_transmission status).1 = false ->
  keeps I T (fun _ => True) (perform_transmission env).
Hypothesis T_load : sd_mounts env = true -> T [EvStateLoad].
Hypothesis T_log_error : sd_mounts env = true -> T [EvLogError "POWER"].
Hypothesis T_log_reading : sd_mounts env = true -> forall o, T [EvLogReading o].
Hypothesis T_save :
  sd_mounts env = true -> forall st, Keep st -> T [EvStateSave st].
Hypothesis Keep_count : forall now, Keep (StorageManager.count_wake now loaded).
Hypothesis Keep_record :
  forall tm slot st now success err,
    rtc env = Some tm ->
    (TimeManager.is_transmission_time tm 5).2 = Some slot ->
    Keep st ->
    Keep (StorageManager.record_transmission_attempt st now (slot_id slot) success err).

Lemma keeps_new_storage_manager :
  keeps I T (fun mounted => mounted = sd_mounts env) (new_storage_manager env).
Proof.
  intros w Hw. exists [EvSdMount (sd_mounts env)]. cbn.
  split; [reflexivity|]. split; [apply (T_routine I T law); reflexivity|].
  split; [|intros a [= <-]; reflexivity].
  apply (I_storage I T law (set_storage_mgr (sd_mounts env) w)); [reflexivity|].
  apply I_mount, Hw.
Qed.

Lemma keeps_load_state :
  sd_mounts env = true ->
  keeps I T (fun st => st = loaded) (load_state env).
Proof.
  intros Hm. unfold load_state.
  eapply (keeps_bind I T law); [apply (keeps_emit I T law), T_load, Hm|intros _ _].
  apply (keeps_ret I T law). reflexivity.
Qed.

Lemma keeps_clock : keeps I T (fun tm => rtc env = Some tm) (new_time_manager env).
Proof.
  unfold new_time_manager. destruct (rtc env) as [tm|]; [|apply (keeps_raise I T law)].
  eapply (keeps_bind I T law (fun _ => True));
    [|intros _ _; apply (keeps_ret I T law); reflexivity].
  apply (keeps_update I T law). intros w. split; reflexivity.
Qed.

Lemma keeps_transmit_and_record tm tx_slot state :
  (PowerManager.should_skip_transmission status).1 = false ->
  rtc env = Some tm ->
  (TimeManager.is_transmission_time tm 5).2 = tx_slot ->
  (sd_mounts env = true -> Keep state) ->
  keeps I T (fun st => sd_mounts env = true -> Keep st)
        (transmit_and_record env (sd_mounts env) tx_slot state).
Proof.
  intros Hskip Hrtc Hslot Hstate. unfold transmit_and_record.
  eapply (keeps_bind I T law); [apply T_transmission, Hskip|intros result _].
  case_eq (sd_mounts env); intros Hm; [|apply (keeps_ret I T law); discriminate].
  eapply (keeps_bind I T law); [apply (keeps_read_sensor I T law)|intros _ _].
  eapply (keeps_bind I T law);
    [apply (keeps_emit I T law), T_log_reading; exact Hm|intros _ _].
  destruct tx_slot as [slot|];
    [|apply (keeps_ret I T law); intros _; exact (Hstate Hm)].
  eapply (keeps_bind I T law); [apply (keeps_monotonic I T law)|intros now _].
  apply (keeps_ret I T law). intros _.
  exact (Keep_record tm slot _ _ _ _ Hrtc Hslot (Hstate Hm)).
Qed.

Lemma keeps_when_mounted evs :
  (sd_mounts env = true -> T evs) ->
  keeps I T (fun _ => True) (when (sd_mounts env) (emit evs)).
Proof.
  intros HT. case_eq (sd_mounts env); intros Hm.
  - apply (keeps_emit I T law), HT, Hm.
  - apply (keeps_ret I T law). exact Logic.I.
Qed.

(** The cycle after the emergency check. *)
Lemma keeps_cycle : keeps I T (fun _ => True) (cycle env status).
Proof.
  unfold cycle.
  eapply (keeps_bind I T law); [apply keeps_new_storage_manager|intros mounted ->].
  eapply (keeps_bind I T law
            (fun st => sd_mounts env = true -> st = loaded)).
  { case_eq (sd_mounts env); intros Hm.
    - eapply (keeps_post I T); [|apply keeps_load_state, Hm]. auto.
    - apply (keeps_ret I T law). discriminate. }
  intros loaded' Hloaded.
  eapply (keeps_bind I T law); [apply (keeps_monotonic I T law)|intros now _].
  assert (Hstate : sd_mounts env = true ->
                   Keep (StorageManager.count_wake now loaded')).
  { intros Hm. rewrite (Hloaded Hm). apply Keep_count. }
  eapply (keeps_bind I T law); [apply keeps_clock|intros tm Hrtc].
  eapply (keeps_bind I T law); [apply (keeps_new_sensor I T law)|intros _ _].
  destruct (TimeManager.is_transmission_time tm 5) as [is_tx_time tx_slot] eqn:Htx.
  eapply (keeps_bind I T law); [apply (keeps_monotonic I T law)|intros now' _].
  eapply (keeps_bind I T law (fun st => sd_mounts env = true -> Keep st)).
  { destruct (is_tx_time || _).
    - case_eq (PowerManager.should_skip_transmission status).
      intros skip_tx reason Hskip. destruct skip_tx.
      + eapply (keeps_bind I T law (fun _ => True));
          [|intros _ _; apply (keeps_ret I T law), Hstate].
        apply keeps_when_mounted, T_log_error.
      + apply (keeps_transmit_and_record tm);
          [rewrite Hskip; reflexivity|exact Hrtc|rewrite Htx; reflexivity
          |exact Hstate].
    - eapply (keeps_bind I T law); [apply (keeps_read_sensor I T law)|intros _ _].
      eapply (keeps_bind I T law (fun _ => True));
        [|intros _ _; apply (keeps_ret I T law), Hstate].
      apply keeps_when_mounted. intros Hm. apply T_log_reading, Hm. }
  intros state Hsaved.
  eapply (keeps_bind I T law (fun _ => True));
    [|intros _ _; apply (keeps_print_system_diagnostics I T law)].
  apply keeps_when_mounted. intros Hm. apply T_save; [exact Hm|]. apply Hsaved, Hm.
Qed.

End Cycle.

Section Transmission.
Import Main.
Variable env : Env.

(** [perform_transmission] as a whole: it emits events of the modem and
    routine ones, leaves the storage manager alone, and, when it emits
    anything, ends by driving the modem's sleep pin high. *)
Lemma perform_transmission_trace w :
  exists evs,
    w_trace (perform_transmission env w).2 = w_trace w ++ evs
    /\ storage_mgr (perform_transmission env w).2 = storage_mgr w
    /\ forallb (fun e => satellite_event e || is_routine e) evs = true
    /\ (evs = [] \/ exists pre, evs = pre ++ [EvSleepPin true]).
Proof.
  unfold perform_transmission.
  destruct (modem_init_ok env).
  2: { exists []. cbn. rewrite app_nil_r. auto. }
  pose proof (initialize_events (link env) Satellite.fresh) as He1.
  destruct (Satellite.initialize (link env) Satellite.fresh) as [[ok m1] e1].
  cbn [snd] in He1.
  assert (Hsat : forall tr, forallb satellite_event tr = true ->
                            forallb (fun e => satellite_event e || is_routine e) tr = true).
  { intros tr. apply forallb_weaken. intros e ->. reflexivity. }
  assert (Hsleep : forall m, exists pre, Satellite.sleep m = pre ++ [EvSleepPin true]).
  { intros m. unfold Satellite.sleep. eexists. reflexivity. }
  destruct ok.
  - unfold mbind, M_bind, emit, try_read_sensor.
    cbn [add_events w_trace sensor power_mgr storage_mgr time_mgr].
    destruct (sensor w) as [n|].
    + destruct (sensor_read_ok env n).
      * pose proof (send_data_reading_events (link env) m1 (formatted env)) as He2.
        destruct (Satellite.send_data_reading (link env) m1 (formatted env))
          as [[result m2] e2].
        cbn [snd] in He2. destruct (Hsleep m2) as (pre & Hpre).
        eexists. cbn [fst snd add_events set_sensor w_trace storage_mgr mret M_ret].
        rewrite <- !app_assoc. split; [reflexivity|]. split; [reflexivity|]. split.
        -- rewrite !forallb_app, (Hsat _ He1), (Hsat _ He2),
             (Hsat _ (sleep_events m2)).
           destruct (Satellite.tx_success result); reflexivity.
        -- right. rewrite Hpre. eexists. rewrite !app_assoc. reflexivity.
      * destruct (Hsleep m1) as (pre & Hpre).
        eexists. cbn [fst snd add_events set_sensor w_trace storage_mgr mret M_ret].
        rewrite <- !app_assoc. split; [reflexivity|]. split; [reflexivity|]. split.
        -- rewrite !forallb_app, (Hsat _ He1), (Hsat _ (sleep_events m1)). reflexivity.
        -- right. rewrite Hpre. eexists. rewrite !app_assoc. reflexivity.
    + destruct (Hsleep m1) as (pre & Hpre).
      eexists. cbn [fst snd add_events set_sensor w_trace storage_mgr mret M_ret].
      rewrite <- !app_assoc. split; [reflexivity|]. split; [reflexivity|]. split.
      -- rewrite !forallb_app, (Hsat _ He1), (Hsat _ (sleep_events m1)). reflexivity.
      -- right. rewrite Hpre. eexists. rewrite !app_assoc. reflexivity.
  - destruct (Hsleep m1) as (pre & Hpre).
    unfold mbind, M_bind, emit.
    eexists. cbn [fst snd add_events set_sensor w_trace storage_mgr mret M_ret].
    rewrite <- !app_assoc. split; [reflexivity|]. split; [reflexivity|]. split.
    + rewrite !forallb_app, (Hsat _ He1), (Hsat _ (sleep_events m1)). reflexivity.
    + right. rewrite Hpre. eexists. rewrite !app_assoc. reflexivity.
Qed.

Variable I : World -> Prop.
Variable T : trace -> Prop.
Hypothesis law : trace_law I T.
Hypothesis T_satellite : forall tr, forallb satellite_event tr = true -> T tr.

Lemma T_mixed tr :
  forallb (fun e => satellite_event e || is_routine e) tr = true -> T tr.
Proof.
  induction tr as [|e tr IH]; [intros _; apply (law_nil I T law)|].
  cbn [forallb]. intros H. apply andb_true_iff in H as [He Htr].
  change (e :: tr) with ([e] ++ tr). apply (T_app I T law); [|exact (IH Htr)].
  apply orb_true_iff in He as [He|He].
  - apply T_satellite. cbn. rewrite He. reflexivity.
  - apply (T_routine I T law). cbn. rewrite He. reflexivity.
Qed.

Lemma keeps_perform_transmission :
  keeps I T (fun _ => True) (perform_transmission env).
Proof.
  intros w Hw. destruct (perform_transmission_trace w) as (evs & Ht & Hs & Hev & _).
  exists evs. split; [exact Ht|]. split; [exact (T_mixed evs Hev)|].
  split; [|auto]. exact (I_storage I T law w _ Hs Hw).
Qed.

End Transmission.

(** * Four properties of the whole wake cycle *)

Section CycleLaws.
Import Main.

Lemma free_of_law (kind : event -> bool) :
  (forall e, is_routine e = true -> kind e = false) ->
  trace_law any_world (free_of kind).
Proof.
  intros Hkind. split.
  - unfold free_of. intros a b Ha Hb. rewrite forallb_app, Ha, Hb. reflexivity.
  - unfold free_of. intros tr. apply forallb_weaken. intros e He.
    rewrite (Hkind e He). reflexivity.
  - intros w w' _ _. exact Logic.I.
Qed.

Lemma card_unused_law : trace_law card_unused (free_of is_storage_event).
Proof.
  split.
  - unfold free_of. intros a b Ha Hb. rewrite forallb_app, Ha, Hb. reflexivity.
  - unfold free_of. intros tr. apply forallb_weaken. intros e He.
    unfold is_routine in He. apply andb_true_iff in He as [_ He]. exact He.
  - unfold card_unused. intros w w' ->. exact id.
Qed.

Lemma saved_from_law loaded : trace_law any_world (Forall (saved_from loaded)).
Proof.
  split.
  - intros a b Ha Hb. apply Forall_app. auto.
  - intros tr Htr. apply Forall_forall. intros e He.
    rewrite forallb_forall in Htr. apply list_elem_of_In, Htr in He.
    destruct e; try exact Logic.I. discriminate He.
  - intros w w' _ _. exact Logic.I.
Qed.

Lemma modem_asleep_law : trace_law any_world modem_asleep.
Proof.
  split.
  - unfold modem_asleep. intros a b Ha Hb. rewrite List.filter_app, last_app.
    destruct (last (List.filter is_sleep_pin b)); assumption.
  - unfold modem_asleep. intros tr Htr.
    replace (List.filter is_sleep_pin tr) with (@nil event); [exact Logic.I|].
    symmetry. apply filter_none. revert Htr. apply forallb_weaken.
    intros []; cbn; congruence.
  - intros w w' _ _. exact Logic.I.
Qed.

Lemma record_keeps_settings loaded st now S success err :
  saved_from loaded (EvStateSave st) ->
  saved_from loaded
    (EvStateSave (StorageManager.record_transmission_attempt st now S success err)).
Proof. destruct success; exact id. Qed.

(** A first reading under 3.2 V makes the policy skip. *)
Lemma low_reading_skips env v :
  PowerManager.bat_present (battery env) = true ->
  PowerManager.bat_volts (battery env) 0 = Some v ->
  (v < 3.2)%Q ->
  (PowerManager.should_skip_transmission (opening_status env)).1 = true.
Proof.
  intros Hpresent Hread Hv.
  unfold opening_status, PowerManager.should_skip_transmission,
    PowerManager.check_battery_status, PowerManager.read_battery_voltage.
  cbn [PowerManager.create fst PowerManager.n_reads].
  rewrite Hpresent, Hread.
  cbn [fst snd PowerManager.recommend PowerManager.is_low_battery].
  unfold PowerManager.recommendation_for, Config.LOW_BATTERY_THRESHOLD.
  replace (Qltb v 3.2) with true by (symmetry; apply Qltb_lt; exact Hv).
  destruct (Qltb v 3.0); reflexivity.
Qed.

End CycleLaws.

(** X17.  When the first battery reading of the cycle is under 3.2 V,
    [main] never touches the modem: no sleep-pin change, no link opened,
    no signal query, no attempt and no send appear anywhere in the
    cycle, whatever the clock and the stored state say. *)
Theorem low_battery_leaves_modem_alone :
  forall env v,
    PowerManager.bat_present (Main.battery env) = true ->
    PowerManager.bat_volts (Main.battery env) 0 = Some v ->
    (v < 3.2)%Q ->
    free_of is_modem_event (Main.main env).
Proof.
  intros env v Hpresent Hread Hv.
  assert (Hlaw : trace_law any_world (free_of is_modem_event)).
  { apply free_of_law. intros e He. unfold is_routine in He.
    apply andb_true_iff in He as [He _]. apply negb_true_iff in He. exact He. }
  apply (main_keeps any_world _ Hlaw); [exact Logic.I| |reflexivity].
  intros _. apply (keeps_cycle any_world _ Hlaw env _ (fun _ => True));
    try (intros; exact Logic.I); try (intros; reflexivity).
  intros Hskip. rewrite (low_reading_skips env v Hpresent Hread Hv) in Hskip.
  discriminate Hskip.
Qed.

Lemma low_battery_leaves_modem_alone_witness :
  free_of is_modem_event (Main.main (bench_env 3.1 5 true)).
Proof.
  apply (low_battery_leaves_modem_alone (bench_env 3.1 5 true) 3.1);
    reflexivity.
Defined.

(** X18.  When the SD card does not mount, [main] reads and writes no
    file: the state is neither loaded nor saved and no row goes to the
    reading log or the error log, also when the cycle raises. *)
Theorem unmounted_card_is_not_used :
  forall env,
    Main.sd_mounts env = false ->
    free_of is_storage_event (Main.main env).
Proof.
  intros env Hsd.
  apply (main_keeps card_unused _ card_unused_law).
  - discriminate.
  - intros _.
    apply (keeps_cycle card_unused _ card_unused_law env _ (fun _ => True));
      try (rewrite Hsd; discriminate); try (intros; exact Logic.I).
    intros _. apply (keeps_perform_transmission env card_unused _ card_unused_law).
    unfold free_of. intros tr. apply forallb_weaken. intros []; cbn; congruence.
  - intros w Hw Hs. contradiction.
Qed.

Lemma unmounted_card_is_not_used_witness :
  free_of is_storage_event (Main.main no_card_env)
  /\ sends (Main.main no_card_env) = 1%nat.
Proof.
  split; [|reflexivity].
  apply (unmounted_card_is_not_used no_card_env). reflexivity.
Defined.

(** X19.  Every state that [main] writes to the card is the loaded state
    (the defaults when there is no readable file) with the wake cycle
    counted exactly once; the calibration offset, the low-battery count
    and the list of system errors are written back as they were loaded:
    [main] never changes them. *)
Theorem saved_state_counts_the_cycle :
  forall env,
    Forall (saved_from (default StorageManager.default_state (Main.stored_state env)))
           (Main.main env).
Proof.
  intros env.
  set (loaded := default StorageManager.default_state (Main.stored_state env)).
  apply (main_keeps any_world _ (saved_from_law loaded));
    [exact Logic.I| |intros; repeat constructor].
  intros _.
  apply (keeps_cycle any_world _ (saved_from_law loaded) env _
           (fun st => saved_from loaded (EvStateSave st)));
    try (intros; repeat constructor; fail).
  - intros _. apply (keeps_perform_transmission env any_world _ (saved_from_law loaded)).
    intros tr Htr. apply Forall_forall. intros e He.
    rewrite forallb_forall in Htr. apply list_elem_of_In, Htr in He.
    destruct e; try exact Logic.I. discriminate He.
  - intros _ st Hst. constructor; [exact Hst|constructor].
  - intros tm slot st now success err _ _. apply record_keeps_settings.
Qed.

(** X20.  [main] never leaves the modem awake: if the cycle drives the
    modem's sleep pin at all, the last thing it does to it is to set it
    high, whether the transmission succeeded, failed or was cut short by
    an exception. *)
Theorem modem_is_left_asleep :
  forall env, modem_asleep (Main.main env).
Proof.
  intros env.
  apply (main_keeps any_world _ modem_asleep_law);
    [exact Logic.I| |intros; exact Logic.I].
  intros _. apply (keeps_cycle any_world _ modem_asleep_law env _ (fun _ => True));
    try (intros; exact Logic.I).
  intros _ w Hw.
  destruct (perform_transmission_trace env w) as (evs & Ht & _ & _ & Hend).
  exists evs. split; [exact Ht|]. split; [|split; [exact Logic.I|auto]].
  unfold modem_asleep. destruct Hend as [->|(pre & ->)]; [exact Logic.I|].
  rewrite List.filter_app. cbn [List.filter is_sleep_pin]. rewrite last_snoc.
  exact Logic.I.
Qed.

(** * The pressure sensor *)

Lemma clamp_voltage_range v : (0.5 <= Sensor.clamp_voltage v <= 4.5)%Q.
Proof.
  unfold Sensor.clamp_voltage.
  destruct (Qltb v 0.5) eqn:E1; [split; [apply Qle_refl|discriminate]|].
  apply Qltb_ge in E1.
  destruct (Qltb 4.5 v) eqn:E2; [split; [discriminate|apply Qle_refl]|].
  apply Qltb_ge in E2. split; assumption.
Qed.

Lemma clamp_voltage_le v1 v2 :
  (v1 <= v2)%Q -> (Sensor.clamp_voltage v1 <= Sensor.clamp_voltage v2)%Q.
Proof.
  intros Hle. unfold Sensor.clamp_voltage.
  destruct (Qltb v1 0.5) eqn:E1; [apply Qltb_lt in E1|apply Qltb_ge in E1];
  destruct (Qltb v2 0.5) eqn:F1; [apply Qltb_lt in F1|apply Qltb_ge in F1| apply Qltb_lt in F1|apply Qltb_ge in F1];
  try destruct (Qltb 4.5 v1) eqn:E2; try (apply Qltb_lt in E2); try (apply Qltb_ge in E2);
  try destruct (Qltb 4.5 v2) eqn:F2; try (apply Qltb_lt in F2); try (apply Qltb_ge in F2); lra.
Qed.

Lemma read_voltage_eq raw : (Sensor.read_voltage raw == inject_Z raw * (33 # 40960))%Q.
Proof.
  unfold Sensor.read_voltage, Config.PRESSURE_SENSOR_RESOLUTION, Config.PRESSURE_SENSOR_VREF.
  unfold Qdiv. change (/ 4096)%Q with (1 # 4096)%Q. lra.
Qed.

Lemma read_pressure_psi_eq s raw :
  (Sensor.read_pressure_psi s raw
   == (Sensor.clamp_voltage (Sensor.read_voltage raw) - 0.5) * 7.5
      + Sensor.calibration_offset s)%Q.
Proof.
  unfold Sensor.read_pressure_psi, Config.PRESSURE_SENSOR_MAX_PRESSURE,
    Config.PRESSURE_SENSOR_MIN_PRESSURE.
  cbv zeta. unfold Qdiv.
  change (/ (4.5 - 0.5))%Q with (100 # 400)%Q. lra.
Qed.

Lemma read_pressure_psi_le s raw1 raw2 :
  raw1 <= raw2 -> (Sensor.read_pressure_psi s raw1 <= Sensor.read_pressure_psi s raw2)%Q.
Proof.
  intros Hle. rewrite !read_pressure_psi_eq.
  assert (Hv : (Sensor.read_voltage raw1 <= Sensor.read_voltage raw2)%Q).
  { rewrite !read_voltage_eq. rewrite Zle_Qle in Hle. lra. }
  apply clamp_voltage_le in Hv. lra.
Qed.

Lemma depth_cases s raw :
  let gauge := (Sensor.read_pressure_psi s raw - Config.ATMOSPHERIC_PRESSURE)%Q in
  ((gauge <= 0)%Q /\ (Sensor.read_water_depth_feet s raw == 0)%Q)
  \/ ((0 < gauge)%Q
      /\ (Sensor.read_water_depth_feet s raw == gauge * (1000 # 433))%Q).
Proof.
  intros gauge. unfold Sensor.read_water_depth_feet. fold gauge.
  destruct (Qle_bool gauge 0) eqn:E.
  - left. apply Qle_bool_iff in E. split; [exact E|reflexivity].
  - right. apply Qle_bool_false in E. split; [exact E|].
    unfold Config.WATER_DENSITY_FACTOR, Qdiv.
    change (/ 0.433)%Q with (1000 # 433)%Q.
    replace (Qltb 0.0 (gauge * (1000 # 433))) with true; [reflexivity|].
    symmetry. apply Qltb_lt. lra.
Qed.

(** X21.  The depth that [read_water_depth_feet] computes is never
    negative, never decreases when the raw ADC value increases, and,
    when it is positive, stays within what the full-scale pressure of
    30 psi plus the calibration offset allows: depth times 0.433 is at
    most 30 + offset - 14.7. *)
Theorem depth_range_and_order :
  forall s raw1 raw2,
    raw1 <= raw2 ->
    (0 <= Sensor.read_water_depth_feet s raw1)%Q
    /\ (Sensor.read_water_depth_feet s raw1 <= Sensor.read_water_depth_feet s raw2)%Q
    /\ ((0 < Sensor.read_water_depth_feet s raw2)%Q ->
        (Sensor.read_water_depth_feet s raw2 * Config.WATER_DENSITY_FACTOR
         <= Config.PRESSURE_SENSOR_MAX_PRESSURE + Sensor.calibration_offset s
            - Config.ATMOSPHERIC_PRESSURE)%Q).
Proof.
  intros s raw1 raw2 Hle.
  pose proof (read_pressure_psi_le s raw1 raw2 Hle) as Hp.
  pose proof (read_pressure_psi_eq s raw2) as Hp2.
  pose proof (clamp_voltage_range (Sensor.read_voltage raw2)) as Hc.
  unfold Config.WATER_DENSITY_FACTOR, Config.PRESSURE_SENSOR_MAX_PRESSURE.
  destruct (depth_cases s raw1) as [[Hg1 Hd1]|[Hg1 Hd1]];
    destruct (depth_cases s raw2) as [[Hg2 Hd2]|[Hg2 Hd2]];
    unfold Config.ATMOSPHERIC_PRESSURE in *;
    rewrite Hd1, Hd2; (split; [lra|split; [lra|intros Hpos; lra]]).
Qed.

(** X22.  With the calibration offset 0.0 that a new [PressureSensor]
    has, which is how [main] uses it, the depth reads exactly 0 for every
    raw ADC value up to 3053 and is positive from 3054 on: the pressure
    computed from the reading has to exceed the 14.7 psi of the
    atmosphere first. *)
Theorem uncalibrated_dead_zone :
  forall raw,
    (Sensor.read_water_depth_feet Sensor.create raw == 0)%Q <-> raw <= 3053.
Proof.
  intros raw.
  pose proof (read_pressure_psi_eq Sensor.create raw) as Hp.
  pose proof (read_voltage_eq raw) as Hv.
  pose proof (clamp_voltage_range (Sensor.read_voltage raw)) as Hc.
  cbn [Sensor.create Sensor.calibration_offset] in Hp.
  assert (Hclamp : (Sensor.clamp_voltage (Sensor.read_voltage raw) <= 2.46)%Q
                   <-> raw <= 3053).
  { unfold Sensor.clamp_voltage.
    destruct (Qltb (Sensor.read_voltage raw) 0.5) eqn:E1;
      [apply Qltb_lt in E1|apply Qltb_ge in E1].
    - split; [intros _|intros _; lra].
      destruct (Z_le_gt_dec raw 3053) as [H|H]; [exact H|exfalso].
      assert (3054 <= raw) as H' by lia. rewrite Zle_Qle in H'.
        change (inject_Z 3054) with 3054%Q in H'. lra.
    - destruct (Qltb 4.5 (Sensor.read_voltage raw)) eqn:E2;
        [apply Qltb_lt in E2|apply Qltb_ge in E2].
      + split; [intros H; lra|intros H]. rewrite Zle_Qle in H. change (inject_Z 3053) with 3053%Q in H. lra.
      + split; intros H.
        * destruct (Z_le_gt_dec raw 3053) as [H1|H1]; [exact H1|exfalso].
          assert (3054 <= raw) as H' by lia. rewrite Zle_Qle in H'.
        change (inject_Z 3054) with 3054%Q in H'. lra.
        * rewrite Zle_Qle in H. change (inject_Z 3053) with 3053%Q in H. lra. }
  destruct (depth_cases Sensor.create raw) as [[Hg Hd]|[Hg Hd]];
    unfold Config.ATMOSPHERIC_PRESSURE in *; rewrite Hd.
  - split; [intros _; apply Hclamp; lra|reflexivity].
  - split; [intros H; lra|intros H; apply Hclamp in H; lra].
Qed.

Lemma calibrate_zero_steady s raw_value n :
  Sensor64.calibrate_zero s (repeat raw_value (S n))
  = Some {| Sensor64.calibration_offset :=
              steady_offset (Sensor64.read_pressure_psi s raw_value) (S n) |}.
Proof.
  unfold Sensor64.calibrate_zero, steady_offset.
  rewrite map_repeat. cbn [repeat]. cbn [length]. rewrite repeat_length.
  reflexivity.
Qed.



Lemma depth_range_and_order_witness :
  (0 <= Sensor.read_water_depth_feet Sensor.create 3000)%Q
  /\ (Sensor.read_water_depth_feet Sensor.create 3000
      <= Sensor.read_water_depth_feet Sensor.create 4000)%Q.
Proof.
  pose proof (depth_range_and_order Sensor.create 3000 4000 ltac:(lia)) as H.
  exact (conj (proj1 H) (proj1 (proj2 H))).
Defined.


Section CalibrationRounding.
Import PrimFloat.

(** The return is not exact: with 50 samples of the raw value 3000 the
    second calibration leaves an offset of about 1e-14, not 0.0. *)
Example calibrating_twice_is_not_exact :
  exists s1 s2,
    Sensor64.calibrate_zero Sensor64.create (repeat 3000 50) = Some s1
    /\ Sensor64.calibrate_zero s1 (repeat 3000 50) = Some s2
    /\ PrimFloat.eqb (Sensor64.calibration_offset s2) 0%float = false
    /\ Binary64.within 1.1e-14%float (Sensor64.calibration_offset s2) 0%float = true.
Proof.
  eexists _, _. rewrite !calibrate_zero_steady.
  split; [reflexivity|]. split; [reflexivity|].
  split; vm_compute; reflexivity.
Qed.

End CalibrationRounding.

(** * The files on the card *)

Lemma merge_dump (st : StorageManager.State) : Store.merge (Store.dump st) = st.
Proof. destruct st. reflexivity. Qed.

(** X24.  A [save_state] that completes and a [load_state] after it
    return the state that was saved, whatever the card held before and
    however the backup went; and when the state file existed and the
    backup completed too, the backup file holds what the state file held
    before the save, one generation behind. *)
Theorem saved_state_is_loaded_back :
  forall disk st backup_reply,
    let result := Store.save_state true disk st backup_reply Store.Done in
    result.1 = true
    /\ Store.load_state true result.2 = st
    /\ (Store.state_file disk <> Store.Absent -> backup_reply = Store.Done ->
        Store.backup_file result.2 = Store.state_file disk)
    /\ (Store.state_file disk = Store.Absent ->
        Store.backup_file result.2 = Store.backup_file disk).
Proof.
  intros disk st backup_reply. cbn [Store.save_state fst snd Store.load_state
                                   Store.state_file Store.backup_file].
  split; [reflexivity|]. split; [apply merge_dump|].
  unfold Store.backup. split.
  - intros Hex ->. destruct (Store.state_file disk); [congruence|reflexivity..].
  - intros ->. reflexivity.
Qed.

Lemma saved_state_is_loaded_back_witness :
  Store.load_state true
    (Store.save_state true used_card StorageManager.default_state Store.Done Store.Done).2
  = StorageManager.default_state
  /\ Store.backup_file
       (Store.save_state true used_card StorageManager.default_state
          Store.Done Store.Done).2
     = Store.Object (Store.dump failed_once).
Proof.
  pose proof (saved_state_is_loaded_back used_card StorageManager.default_state
                Store.Done) as H.
  split; [exact (proj1 (proj2 H))|].
  exact (proj1 (proj2 (proj2 H)) ltac:(discriminate) eq_refl).
Defined.

(** X25.  When the write of the new state breaks off after the file was
    opened, [save_state] returns [False] and the next [load_state]
    returns the defaults: the wake-cycle count and the history start
    again from nothing.  The backup made just before still holds the
    previous state, but [load_state] reads the state file only, never
    the backup. *)
Theorem broken_write_falls_back_to_defaults :
  forall disk st p,
    Store.state_file disk = Store.Object p ->
    let result := Store.save_state true disk st Store.Done Store.Broken in
    result.1 = false
    /\ Store.load_state true result.2 = StorageManager.default_state
    /\ Store.backup_file result.2 = Store.Object p
    /\ (forall other,
          Store.load_state true
            {| Store.state_file := Store.state_file result.2;
               Store.backup_file := other |}
          = StorageManager.default_state).
Proof.
  intros disk st p Hp. unfold Store.save_state, Store.backup. rewrite Hp.
  cbn. auto.
Qed.

Lemma broken_write_falls_back_to_defaults_witness :
  Store.load_state true
    (Store.save_state true used_card failed_once Store.Done Store.Broken).2
  = StorageManager.default_state
  /\ Store.backup_file
       (Store.save_state true used_card failed_once Store.Done Store.Broken).2
     = Store.Object (Store.dump failed_once).
Proof.
  pose proof (broken_write_falls_back_to_defaults used_card failed_once
                (Store.dump failed_once) eq_refl) as H.
  exact (conj (proj1 (proj2 H)) (proj1 (proj2 (proj2 H)))).
Defined.

Section ReadingLog.
Import Store.

(** Header chunks stand at the front of the file and nowhere else. *)
Lemma log_step_front log append good reading k rest :
  log = Some (take k [Header1; Header2] ++ rest) ->
  forallb (fun c => negb (is_header c)) rest = true ->
  exists rest',
    (log_sensor_reading true log true append good reading).2
    = Some (take k [Header1; Header2] ++ rest')
    /\ forallb (fun c => negb (is_header c)) rest' = true.
Proof.
  intros -> Hrest. unfold log_sensor_reading. destruct append.
  - exists (rest ++ take good [Row1 reading; Row2 reading; Row3 reading]).
    cbn [snd default from_option id app]. rewrite app_assoc. split; [reflexivity|].
    rewrite forallb_app, Hrest.
    destruct good as [|[|[|[|good]]]]; reflexivity.
  - exists rest. auto.
Qed.

Lemma log_first_front append good reading :
  (log_sensor_reading true None true append good reading).2 = None
  \/ exists k rest,
      (log_sensor_reading true None true append good reading).2
      = Some (take k [Header1; Header2] ++ rest)
      /\ forallb (fun c => negb (is_header c)) rest = true.
Proof.
  unfold log_sensor_reading. destruct append; [right|left; reflexivity].
  exists good, (take (good - 2) [Row1 reading; Row2 reading; Row3 reading]).
  cbn [snd default from_option id app]. split.
  - destruct good as [|[|[|[|[|[|good]]]]]]; reflexivity.
  - destruct good as [|[|[|[|[|[|good]]]]]]; reflexivity.
Qed.

Lemma log_all_front calls :
  forall log,
    (log = None
     \/ exists k rest, log = Some (take k [Header1; Header2] ++ rest)
                       /\ forallb (fun c => negb (is_header c)) rest = true) ->
    log_all calls log = None
    \/ exists k rest, log_all calls log = Some (take k [Header1; Header2] ++ rest)
                      /\ forallb (fun c => negb (is_header c)) rest = true.
Proof.
  induction calls as [|[[append good] reading] calls IH]; intros log Hlog;
    [exact Hlog|].
  cbn [log_all fold_left fst snd]. apply IH.
  destruct Hlog as [->|(k & rest & Hk & Hrest)].
  - apply log_first_front.
  - right. destruct (log_step_front log append good reading k rest Hk Hrest)
      as (rest' & Hlog' & Hrest').
    exists k, rest'. auto.
Qed.

Lemma log_all_complete readings :
  forall l,
    log_all (List.map complete_call readings) (Some (Header1 :: Header2 :: l))
    = Some (Header1 :: Header2 :: l ++ flat_map row readings).
Proof.
  induction readings as [|r readings IH]; intros l.
  - cbn. rewrite app_nil_r. reflexivity.
  - cbn [List.map log_all fold_left complete_call fst snd flat_map].
    change (fold_left _ (List.map complete_call readings) ?x)
      with (log_all (List.map complete_call readings) x).
    cbn [log_sensor_reading snd default from_option id length Nat.leb app take row].
    replace (Header1 :: Header2 :: l ++ [Row1 r; Row2 r; Row3 r])
      with (Header1 :: Header2 :: (l ++ row r)) by reflexivity.
    rewrite IH, <- app_assoc. reflexivity.
Qed.

End ReadingLog.

(** X26.  The reading log gets its header once: over any run of calls of
    [log_sensor_reading] that starts without a file and in which the
    probe [open(LOG_FILE, 'r')] returns whenever the file is there,
    whatever raises in between, the two halves of the header line stand
    at the very front of the file, if at all, and never after a row.
    When nothing raises,
    the file is the header line followed by one complete row per call,
    in the order of the calls. *)
Theorem reading_log_header_once :
  (forall calls,
      log_all calls None = None
      \/ exists k rest,
          log_all calls None
          = Some (take k [Store.Header1; Store.Header2] ++ rest)
          /\ forallb (fun c => negb (is_header c)) rest = true)
  /\ (forall reading readings,
        log_all (List.map complete_call (reading :: readings)) None
        = Some (Store.Header1 :: Store.Header2
                  :: flat_map row (reading :: readings))).
Proof.
  split.
  - intros calls. apply log_all_front. left. reflexivity.
  - intros reading readings.
    cbn [List.map log_all fold_left complete_call fst snd].
    change (fold_left _ (List.map complete_call readings) ?x)
      with (log_all (List.map complete_call readings) x).
    cbn [Store.log_sensor_reading snd default from_option id length Nat.leb app take].
    change [Store.Header1; Store.Header2; Store.Row1 reading; Store.Row2 reading;
            Store.Row3 reading]
      with (Store.Header1 :: Store.Header2 :: row reading).
    rewrite log_all_complete. reflexivity.
Qed.

(** X27.  The numbers of [get_storage_info]: for a card with a positive
    block size and block count and with no more free blocks than blocks,
    the usage is a percentage between 0 and 100, the used megabytes are
    at most the total, and used plus free megabytes differ from the
    total by at most one, lost to the two roundings. *)
Theorem storage_usage_numbers :
  forall bsize blocks bfree,
    0 < bsize -> 0 < blocks -> 0 <= bfree <= blocks ->
    exists u,
      Store.get_storage_info (bsize, blocks, bfree) = Some u
      /\ 0 <= Store.usage_percent u <= 100
      /\ 0 <= Store.used_mb u <= Store.total_mb u
      /\ Store.total_mb u - 1 <= Store.used_mb u + Store.free_mb u <= Store.total_mb u.
Proof.
  intros bsize blocks bfree Hb Hn Hf. unfold Store.get_storage_info.
  assert (Htotal : 0 < bsize * blocks) by nia.
  assert (Hfree : 0 <= bsize * bfree <= bsize * blocks) by nia.
  set (total := bsize * blocks) in *. set (free := bsize * bfree) in *.
  clearbody total free.
  destruct (Z.eqb_spec total 0) as [?|_]; [lia|].
  eexists. split; [reflexivity|].
  cbn [Store.usage_percent Store.used_mb Store.total_mb Store.free_mb].
  split; [|split].
  - split.
    + apply Z.div_pos; lia.
    + apply Z.div_le_upper_bound; lia.
  - Z.div_mod_to_equations. lia.
  - Z.div_mod_to_equations. lia.
Qed.

Lemma storage_usage_numbers_witness :
  Store.get_storage_info (512, 4096, 1024)
  = Some {| Store.total_mb := 2; Store.used_mb := 1; Store.free_mb := 0;
            Store.usage_percent := 75 |}
  /\ exists u,
      Store.get_storage_info (512, 4096, 1024) = Some u
      /\ 0 <= Store.usage_percent u <= 100
      /\ 0 <= Store.used_mb u <= Store.total_mb u
      /\ Store.total_mb u - 1 <= Store.used_mb u + Store.free_mb u <= Store.total_mb u.
Proof.
  split; [reflexivity|].
  apply (storage_usage_numbers 512 4096 1024); lia.
Defined.

(** X28.  The conversion in [set_rtc_time] of the setup script: for an
    hour from 0 to 23 the hour handed to the clock is again from 0 to 23
    and, counted in hours, day and hour together are 7 hours (PDT) or
    8 hours (PST) later than what was typed in.  The day is the same or
    the next one, which can be one past the end of the month; the branch
    that steps a day back is never taken. *)
Theorem setup_clock_conversion :
  forall day hour is_dst,
    0 <= hour <= 23 ->
    let utc := SetupCalibration.to_utc day hour is_dst in
    0 <= utc.2 <= 23
    /\ utc.1 * 24 + utc.2 = day * 24 + hour + (if is_dst then 7 else 8)
    /\ (utc.1 = day \/ utc.1 = day + 1).
Proof.
  intros day hour is_dst Hh. unfold SetupCalibration.to_utc,
    Config.TIMEZONE_OFFSET_PDT, Config.TIMEZONE_OFFSET_PST.
  destruct is_dst;
    repeat match goal with
           | |- context [?a <=? ?b] => destruct (Z.leb_spec a b)
           | |- context [?a <? ?b] => destruct (Z.ltb_spec a b)
           end; cbn [fst snd]; lia.
Qed.

Lemma setup_clock_conversion_witness :
  SetupCalibration.to_utc 31 17 false = (32, 1)
  /\ 0 <= (SetupCalibration.to_utc 31 17 false).2 <= 23.
Proof.
  split; [reflexivity|].
  exact (proj1 (setup_clock_conversion 31 17 false ltac:(lia))).
Defined.

(** * How long a wake cycle can last *)

Section Duration.
Import Main.
Variable env : Env.

Lemma takes_le {A} (c c' : Q) (m : M A) : (c <= c')%Q -> takes c m -> takes c' m.
Proof.
  intros Hle Hm w. destruct (Hm w) as (evs & Ht & He). exists evs.
  split; [exact Ht|lra].
Qed.

Lemma takes_ret {A} (a : A) : takes 0 (mret a).
Proof. intros w. exists []. cbn. rewrite app_nil_r. split; [reflexivity|lra]. Qed.

Lemma takes_bind {A B} (c1 c2 : Q) (m : M A) (k : A -> M B) :
  takes c1 m -> (forall a, takes c2 (k a)) -> (0 <= c2)%Q ->
  takes (c1 + c2) (m ≫= k).
Proof.
  intros Hm Hk Hc w. unfold mbind, M_bind.
  destruct (Hm w) as (e1 & Ht1 & He1).
  destruct (m w) as [[a| |text] w1]; cbn [snd] in *.
  - destruct (Hk a w1) as (e2 & Ht2 & He2).
    exists (e1 ++ e2). rewrite Ht2, Ht1, app_assoc. split; [reflexivity|].
    rewrite elapsed_app. lra.
  - exists e1. split; [exact Ht1|lra].
  - exists e1. split; [exact Ht1|lra].
Qed.

(** A step that does not sleep before a computation. *)
Lemma takes_after {A B} (c : Q) (m : M A) (k : A -> M B) :
  takes 0 m -> (forall a, takes c (k a)) -> (0 <= c)%Q -> takes c (m ≫= k).
Proof.
  intros Hm Hk Hc. apply (takes_le (0 + c)); [lra|]. apply takes_bind; assumption.
Qed.

Lemma takes_emit evs : takes (elapsed evs) (emit evs).
Proof. intros w. exists evs. cbn. split; [reflexivity|lra]. Qed.

Lemma takes_raise {A} text : takes 0 (@raise A text).
Proof. intros w. exists []. cbn. rewrite app_nil_r. split; [reflexivity|lra]. Qed.

Lemma takes_return {A} : takes 0 (@return_ A).
Proof. intros w. exists []. cbn. rewrite app_nil_r. split; [reflexivity|lra]. Qed.

Lemma takes_update f : (forall w, w_trace (f w) = w_trace w) -> takes 0 (update f).
Proof.
  intros Hf w. exists []. cbn. rewrite app_nil_r, Hf. split; [reflexivity|lra].
Qed.

Lemma takes_monotonic : takes 0 (monotonic env).
Proof. intros w. exists []. cbn. rewrite app_nil_r. split; [reflexivity|lra]. Qed.

Lemma takes_when b evs : (elapsed evs == 0)%Q -> takes 0 (when b (emit evs)).
Proof.
  intros He. destruct b; [|apply takes_ret].
  apply (takes_le (elapsed evs)); [lra|apply takes_emit].
Qed.

Lemma battery_read_elapsed bat pm :
  (elapsed (PowerManager.check_battery_status bat pm).2 == 0)%Q.
Proof.
  unfold PowerManager.check_battery_status, PowerManager.read_battery_voltage.
  destruct (PowerManager.bat_present bat); [|reflexivity].
  destruct (PowerManager.bat_volts bat (PowerManager.n_reads pm)); reflexivity.
Qed.

Lemma takes_new_power_manager : takes 0 (new_power_manager env).
Proof.
  unfold new_power_manager. destruct (power_init_ok env); [|apply takes_raise].
  apply takes_after; [apply takes_monotonic| |lra]. intros now.
  cbn [PowerManager.create].
  apply takes_after; [|intros; apply takes_update; reflexivity|lra].
  apply (takes_le (elapsed [EvDonePin false])); [cbn; lra|apply takes_emit].
Qed.

Lemma takes_check_battery_status : takes 0 (Main.check_battery_status env).
Proof.
  intros w. unfold Main.check_battery_status. destruct (power_mgr w) as [pm|].
  - pose proof (battery_read_elapsed (battery env) pm) as He.
    destruct (PowerManager.check_battery_status (battery env) pm) as [[status pm1] evs].
    exists evs. cbn [snd] in *. split; [reflexivity|lra].
  - exists []. cbn. rewrite app_nil_r. split; [reflexivity|lra].
Qed.

Lemma takes_new_storage_manager : takes 0 (new_storage_manager env).
Proof.
  intros w. exists [EvSdMount (sd_mounts env)]. cbn. split; [reflexivity|lra].
Qed.

Lemma takes_load_state : takes 0 (load_state env).
Proof. intros w. exists [EvStateLoad]. cbn. split; [reflexivity|lra]. Qed.

Lemma takes_new_time_manager : takes 0 (new_time_manager env).
Proof.
  unfold new_time_manager. destruct (rtc env) as [tm|]; [|apply takes_raise].
  apply takes_after; [apply takes_update; reflexivity| |lra].
  intros _. apply takes_ret.
Qed.

Lemma takes_new_sensor : takes 0 (new_sensor env).
Proof.
  unfold new_sensor. destruct (sensor_init_ok env); [|apply takes_raise].
  apply takes_update. reflexivity.
Qed.

Lemma takes_try_read_sensor : takes 0 (try_read_sensor env).
Proof.
  intros w. unfold try_read_sensor. destruct (sensor w) as [n|].
  - eexists. cbn. split; [reflexivity|]. cbn. lra.
  - exists []. cbn. rewrite app_nil_r. split; [reflexivity|lra].
Qed.

Lemma takes_read_sensor : takes 0 (read_sensor env).
Proof.
  unfold read_sensor. apply takes_after; [apply takes_try_read_sensor| |lra].
  intros ok. destruct ok; [apply takes_ret|apply takes_raise].
Qed.

Lemma takes_print_system_diagnostics : takes 0 (print_system_diagnostics env).
Proof.
  intros w. unfold print_system_diagnostics, PowerManager.get_power_diagnostics.
  destruct (power_mgr w) as [pm|].
  - pose proof (battery_read_elapsed (battery env) pm) as He.
    destruct (PowerManager.check_battery_status (battery env) pm)
      as [[status pm1] evs].
    destruct (takes_try_read_sensor (set_power_mgr pm1 (add_events evs w)))
      as (e2 & Ht2 & He2).
    exists (evs ++ e2). cbn [fst snd] in *. rewrite Ht2.
    cbn [w_trace set_power_mgr add_events]. rewrite app_assoc.
    split; [reflexivity|]. rewrite elapsed_app. lra.
  - destruct (takes_try_read_sensor w) as (e2 & Ht2 & He2).
    exists e2. auto.
Qed.

Lemma initialize_elapsed m :
  (elapsed (Satellite.initialize (link env) m).2 == 3)%Q.
Proof.
  unfold Satellite.initialize.
  destruct (Satellite.lk_open (link env) (Satellite.n_open m)); reflexivity.
Qed.

Lemma initialize_initializes m ok m1 e1 :
  Satellite.initialize (link env) m = (ok, m1, e1) ->
  ok = true -> Satellite.is_initialized m1 = true.
Proof.
  unfold Satellite.initialize.
  destruct (Satellite.lk_open (link env) (Satellite.n_open m)).
  - intros [= <- <- _] Hok. cbn. rewrite Hok. apply orb_true_r.
  - intros [= <- _ _]. discriminate.
Qed.

(** Sending from an initialised modem: the retry loop and the signal
    query after it. *)
Lemma send_data_reading_elapsed m :
  Satellite.is_initialized m = true ->
  (elapsed (Satellite.send_data_reading (link env) m (formatted env)).2 <= 1230)%Q.
Proof.
  intros Hinit. unfold Satellite.send_data_reading.
  destruct (formatted env) as [msg|]; [|cbn; lra].
  destruct (Satellite.send_message (link env) m msg Config.MAX_RETRY_ATTEMPTS)
    as [[[[success attempts] error] m1] e1] eqn:Hsend.
  assert (H1 : Satellite.is_initialized m1 = true /\ (elapsed e1 <= 1230)%Q).
  { unfold Satellite.send_message, Config.MAX_RETRY_ATTEMPTS in Hsend.
    destruct msg as [|c msg'].
    - injection Hsend as _ _ _ <- <-. split; [exact Hinit|cbn; lra].
    - split.
      + exact (loop_keeps_initialized _ _ _ _ _ _ _ _ _ _ Hsend Hinit).
      + apply attempt_loop_elapsed in Hsend; [|lia|reflexivity].
        rewrite Hinit in Hsend. unfold worst_case in Hsend. cbn in Hsend. lra. }
  destruct H1 as [Hm1 He1].
  unfold Satellite.get_signal_quality, Satellite.read_signal. rewrite Hm1.
  cbn [snd]. rewrite elapsed_app. cbn. lra.
Qed.

Lemma takes_perform_transmission : takes 1237 (perform_transmission env).
Proof.
  unfold perform_transmission.
  destruct (modem_init_ok env); [|apply (takes_le 0); [lra|apply takes_ret]].
  pose proof (initialize_elapsed Satellite.fresh) as He1.
  destruct (Satellite.initialize (link env) Satellite.fresh) as [[ok m1] e1] eqn:Hinit.
  cbn [snd] in He1.
  assert (Hsleep : forall m, (elapsed (Satellite.sleep m) == 0)%Q).
  { intros m. unfold Satellite.sleep. destruct (Satellite.has_rockblock m); reflexivity. }
  apply (takes_le (0 + (3 + 1234))); [lra|].
  apply takes_bind; [apply (takes_le (elapsed Satellite.init_events));
                     [cbn; lra|apply takes_emit]| |lra].
  intros _. apply takes_bind; [apply (takes_le (elapsed e1)); [lra|apply takes_emit]| |lra].
  intros _. destruct ok.
  - apply takes_after; [apply takes_try_read_sensor| |lra]. intros sensed.
    destruct sensed.
    + pose proof (send_data_reading_elapsed m1
                    (initialize_initializes _ _ _ _ Hinit eq_refl)) as He2.
      destruct (Satellite.send_data_reading (link env) m1 (formatted env))
        as [[result m2] e2]. cbn [snd] in He2.
      apply (takes_le (1230 + (4 + 0))); [lra|].
      apply takes_bind; [apply (takes_le (elapsed e2)); [lra|apply takes_emit]| |lra].
      intros _. apply takes_bind; [| |lra].
      * destruct (Satellite.tx_success result).
        -- apply (takes_le (elapsed (blink_status_led 5 0.1)));
             [vm_compute; discriminate|apply takes_emit].
        -- apply (takes_le (elapsed (blink_status_led 1 2)));
             [vm_compute; discriminate|apply takes_emit].
      * intros _. apply takes_after; [|intros; apply takes_ret|lra].
        apply (takes_le (elapsed (Satellite.sleep m2)));
          [rewrite Hsleep; lra|apply takes_emit].
    + apply (takes_le 0); [lra|].
      apply takes_after; [|intros; apply takes_ret|lra].
      apply (takes_le (elapsed (Satellite.sleep m1)));
        [rewrite Hsleep; lra|apply takes_emit].
  - apply (takes_le 0); [lra|].
    apply takes_after; [|intros; apply takes_ret|lra].
    apply (takes_le (elapsed (Satellite.sleep m1)));
      [rewrite Hsleep; lra|apply takes_emit].
Qed.

Lemma takes_transmit_and_record mounted tx_slot state :
  takes 1237 (transmit_and_record env mounted tx_slot state).
Proof.
  unfold transmit_and_record.
  apply (takes_le (1237 + 0)); [lra|].
  apply takes_bind; [apply takes_perform_transmission| |lra].
  intros result. destruct mounted; [|apply takes_ret].
  apply takes_after; [apply takes_read_sensor| |lra]. intros _.
  apply takes_after; [| |lra].
  - apply (takes_le (elapsed [EvLogReading (Some (Satellite.tx_success result))]));
      [cbn; lra|apply takes_emit].
  - intros _. destruct tx_slot as [slot|]; [|apply takes_ret].
    apply takes_after; [apply takes_monotonic|intros; apply takes_ret|lra].
Qed.

Lemma takes_cycle status : takes 1237 (cycle env status).
Proof.
  unfold cycle.
  apply takes_after; [apply takes_new_storage_manager| |lra]. intros mounted.
  apply takes_after; [destruct mounted; [apply takes_load_state|apply takes_ret]| |lra].
  intros loaded.
  apply takes_after; [apply takes_monotonic| |lra]. intros now.
  apply takes_after; [apply takes_new_time_manager| |lra]. intros tm.
  apply takes_after; [apply takes_new_sensor| |lra]. intros _.
  destruct (TimeManager.is_transmission_time tm 5) as [is_tx_time tx_slot].
  apply takes_after; [apply takes_monotonic| |lra]. intros now'.
  apply (takes_le (1237 + 0)); [lra|].
  apply takes_bind; [| |lra].
  - destruct (is_tx_time || _).
    + destruct (PowerManager.should_skip_transmission status) as [skip_tx reason].
      destruct skip_tx; [|apply takes_transmit_and_record].
      apply (takes_le 0); [lra|].
      apply takes_after; [apply takes_when; reflexivity|intros; apply takes_ret|lra].
    + apply (takes_le 0); [lra|].
      apply takes_after; [apply takes_read_sensor| |lra]. intros _.
      apply takes_after; [apply takes_when; reflexivity|intros; apply takes_ret|lra].
  - intros state.
    apply takes_after; [apply takes_when; reflexivity| |lra].
    intros _. apply takes_print_system_diagnostics.
Qed.

Lemma takes_body : takes (0.6 + 1237) (body env).
Proof.
  unfold body. apply takes_bind; [| |lra].
  - apply (takes_le (elapsed (blink_status_led 3 0.1)));
      [vm_compute; discriminate|apply takes_emit].
  - intros _. apply takes_after; [apply takes_new_power_manager| |lra]. intros _.
    apply takes_after; [apply takes_check_battery_status| |lra]. intros status.
    destruct (PowerManager.recommend status); try apply takes_cycle.
    apply (takes_le (1.1 + 0)); [lra|].
    apply takes_bind; [|intros; apply takes_return|lra].
    apply (takes_le (elapsed (PowerManager.handle_emergency_shutdown false)));
      [vm_compute; discriminate|apply takes_emit].
Qed.

Lemma on_exception_elapsed w :
  exists evs, w_trace (on_exception w) = w_trace w ++ evs /\ (elapsed evs <= 2)%Q.
Proof.
  unfold on_exception. eexists. split; [reflexivity|].
  rewrite elapsed_app. destruct (storage_mgr w) as [[]|]; vm_compute; discriminate.
Qed.

Lemma on_exit_elapsed w :
  exists evs, w_trace (on_exit env w) = w_trace w ++ evs /\ (elapsed evs <= 5.1)%Q.
Proof.
  unfold on_exit, PowerManager.prepare_for_sleep.
  assert (Hclean : forall w1, (elapsed (cleanup_resources w1) == 0)%Q).
  { intros w1. unfold cleanup_resources.
    destruct (given (power_mgr w1)), (given (storage_mgr w1)), (given (sensor w1));
      reflexivity. }
  assert (Htail : forall w1,
             (elapsed (cleanup_resources w1 ++ blink_status_led 2 0.5
                       ++ (if given (power_mgr w1) then PowerManager.signal_done else [])
                       ++ [EvSleep 2]) <= 5.1)%Q).
  { intros w1. rewrite elapsed_app, Hclean.
    destruct (given (power_mgr w1)); vm_compute; discriminate. }
  destruct (power_mgr w) as [pm|].
  - pose proof (battery_read_elapsed (battery env) pm) as He.
    destruct (PowerManager.check_battery_status (battery env) pm)
      as [[status pm1] evs]. cbn [snd] in He.
    eexists. cbn [w_trace add_events set_power_mgr]. rewrite <- app_assoc.
    split; [reflexivity|]. rewrite elapsed_app, He.
    pose proof (Htail (set_power_mgr pm1 (add_events evs w))) as Ht. lra.
  - eexists. cbn [w_trace add_events]. split; [reflexivity|]. apply Htail.
Qed.

End Duration.

(** X29.  A wake cycle sleeps at most 1244.7 s from the first blink to
    the last statement of [main], whatever the hardware answers: 0.6 s
    of start-up blinking, 1237 s for the transmission with its three
    attempts, 2 s of error blinking and 5.1 s in the [finally] block.
    The bound is reached when two sends fail, the signal then fades and
    the sensor raises afterwards. *)
Theorem wake_cycle_duration :
  (forall env, (elapsed (Main.main env) <= 1244.7)%Q)
  /\ (elapsed (Main.main slowest_env) == 1244.7)%Q.
Proof.
  split; [|vm_compute; reflexivity].
  intros env. unfold Main.main, Main.run.
  destruct (takes_body env Main.start) as (e1 & Ht1 & He1).
  destruct (Main.body env Main.start) as [r w1]. cbn [snd] in Ht1.
  assert (Hmid : exists e2,
             Main.w_trace match r with
                          | Main.Raised _ => Main.on_exception w1
                          | _ => w1
                          end = Main.w_trace w1 ++ e2
             /\ (elapsed e2 <= 2)%Q).
  { destruct r as [[]| |text]; [exists []; rewrite app_nil_r; split;
                                [reflexivity|cbn; lra]..|].
    apply on_exception_elapsed. }
  destruct Hmid as (e2 & Ht2 & He2).
  destruct (on_exit_elapsed env match r with
                                | Main.Raised _ => Main.on_exception w1
                                | _ => w1
                                end) as (e3 & Ht3 & He3).
  rewrite Ht3, Ht2, Ht1. cbn [Main.start Main.w_trace app].
  rewrite !elapsed_app. lra.
Qed.

(** * Retries outside the windows *)

Lemma record_kept_law loaded : trace_law any_world (Forall (record_kept loaded)).
Proof.
  split.
  - intros a b Ha Hb. apply Forall_app. auto.
  - intros tr Htr. apply Forall_forall. intros e He.
    rewrite forallb_forall in Htr. apply list_elem_of_In, Htr in He.
    destruct e; try exact Logic.I. discriminate He.
  - intros w w' _ _. exact Logic.I.
Qed.

Lemma no_window_no_slot tm :
  (TimeManager.is_transmission_time tm 5).1 = false ->
  (TimeManager.is_transmission_time tm 5).2 = None.
Proof.
  unfold TimeManager.is_transmission_time, Config.TRANSMISSION_TIMES.
  cbn [TimeManager.first_match].
  destruct (TimeManager.minutes_diff tm (5, 0) <=? 5); [discriminate|].
  destruct (TimeManager.minutes_diff tm (13, 0) <=? 5); [discriminate|reflexivity].
Qed.

(** X30.  Outside the transmission windows [main] never changes the
    transmission record.  When the clock is not within 5 minutes of a
    configured time, every state it writes to the card has the successes
    and the failed attempts of the loaded state, also when a pending
    retry was sent in that cycle and whatever came of it: the outcome of
    a retry sent outside the window of its slot is not recorded. *)
Theorem retry_outside_window_is_not_recorded :
  forall env tm,
    Main.rtc env = Some tm ->
    (TimeManager.is_transmission_time tm 5).1 = false ->
    Forall (record_kept (default StorageManager.default_state (Main.stored_state env)))
           (Main.main env).
Proof.
  intros env tm Hrtc Hout.
  set (loaded := default StorageManager.default_state (Main.stored_state env)).
  apply (main_keeps any_world _ (record_kept_law loaded));
    [exact Logic.I| |intros; repeat constructor].
  intros _.
  apply (keeps_cycle any_world _ (record_kept_law loaded) env _
           (fun st => record_kept loaded (EvStateSave st)));
    try (intros; repeat constructor; fail).
  - intros _.
    apply (keeps_perform_transmission env any_world _ (record_kept_law loaded)).
    intros tr Htr. apply Forall_forall. intros e He.
    rewrite forallb_forall in Htr. apply list_elem_of_In, Htr in He.
    destruct e; try exact Logic.I. discriminate He.
  - intros _ st Hst. constructor; [exact Hst|constructor].
  - intros tm' slot st now success err Hrtc' Hslot.
    rewrite Hrtc in Hrtc'. injection Hrtc' as <-.
    rewrite (no_window_no_slot tm Hout) in Hslot. discriminate Hslot.
Qed.

Lemma retry_outside_window_is_not_recorded_witness :
  StorageManager.pd_retry_count
    <$> StorageManager.get_pending_transmissions failed_recently
          {| TimeManager.tm_hour := 8; TimeManager.tm_min := 2 |} 50000 = [1%nat]
  /\ List.filter confirmed_send (Main.main retry_env)
     = [EvLinkSend wd_message SendOk]
  /\ Forall (record_kept failed_recently) (Main.main retry_env).
Proof.
  split; [vm_compute; reflexivity|]. split; [vm_compute; reflexivity|].
  apply (retry_outside_window_is_not_recorded retry_env
           {| TimeManager.tm_hour := 8; TimeManager.tm_min := 2 |});
    reflexivity.
Defined.
